(** * Attendance verification protocol: a shallow embedding

    The development follows the layout of the TypeScript sources:

    - [Constants]      : constants.ts
    - [Types]          : types.ts
    - [Js]             : the handful of JavaScript primitives the code relies on
    - [LocationService]: the interface of services/locationService.ts
    - [TimeUtils]      : utils/timeUtils.ts ([getScheduleStatus])
    - [GeminiService]  : services/geminiService.ts (the texts around the
                         matcher's call)
    - [QRCodeGenerator]: components/QRCodeGenerator.tsx (the countdown)
    - [AppContext]     : context/AppContext.tsx (ledger and timetable store)
    - [StudentPortal]  : components/StudentPortal.tsx ([AttendanceDashboard],
                         [StudentTimetable], [AttendanceStatsAndHistory])
    - [FacultyPortal]  : components/FacultyPortal.tsx (session refresh loop)
    - [TimetableManager]: components/FacultyPortal.tsx (the timetable form)
    - [AttendanceReport]: components/FacultyPortal.tsx (the report's filters)
    - [Auth]           : the sign-up form (the choice of subjects)

    Calls to collaborators (store, face matcher, geolocation, clock, JSON
    parser) take their answer as an argument, so each handler is a function
    from the state before and those answers to the state after.

    Numbers that the code only ever uses as integers (epoch milliseconds,
    minutes, durations typed into the form through [parseInt]) are [Z];
    measured quantities (distances, confidences, coordinates) are [Q]: every
    finite double is a rational, and the thresholds 0.9, 0.75, 50 and 100 are
    compared with the same outcome on rationals as on doubles, since each
    threshold constant is the double nearest to the decimal it is written as. *)

From Stdlib Require Import ZArith QArith Qround Qabs List String Ascii Bool Lia.
From Stdlib Require Import DecimalString Sorted Permutation.
From Equations Require Import Equations.
Import ListNotations.

Open Scope string_scope.
Open Scope Z_scope.

(** ** constants.ts *)

Module Constants.

Definition MAX_DISTANCE_METERS : Z := 50.
Definition QR_REFRESH_INTERVAL_MS : Z := 10000.
Definition MAX_FACULTY_MOVEMENT_METERS : Z := 100.
Definition RETRY_CONFIDENCE_THRESHOLD : Q := 75 # 100.
Definition DEFAULT_CLASS_DURATION_MINS : Z := 45.

End Constants.
Export Constants.

(** ** types.ts *)

Module Types.

Record LocationCoordinate : Type := mkLocation
  { latitude : Q;
    longitude : Q }.

Record SessionData : Type := mkSession
  { location : LocationCoordinate;
    timestamp : Z }.

Record TimetableEntry : Type := mkEntry
  { id : string;
    day : string;
    time : string;
    subject : string;
    department : string;
    facultyId : string;
    facultyName : string;
    duration : Z }.

Inductive AttendanceStatus : Type := present | absent.

(** [Omit<AttendanceRecord, 'id'>]: what the pipeline hands to the store. *)
Record AttendanceData : Type := mkAttendanceData
  { studentId : string;
    studentName : string;
    recordSubject : string;
    date : string;
    recordStatus : AttendanceStatus }.

(** A stored [AttendanceRecord]: the document id and its data. *)
Record AttendanceRecord : Type := mkAttendanceRecord
  { recordId : string;
    recordData : AttendanceData }.

Record Student : Type := mkStudent
  { uid : string;
    name : string;
    registeredFace : string }.

Record Faculty : Type := mkFaculty
  { facultyUid : string;
    facultyDisplayName : string;
    facultyDepartment : string;
    subjects : list string }.

(** The value returned by [verifyFace]. *)
Record VerificationResult : Type := mkVerification
  { vmatch : bool;
    confidence : Q }.

End Types.
Export Types.

(** ** JavaScript primitives *)

Module Js.

(** [x > y] on numbers. *)
Definition gt (x y : Q) : bool := negb (Qle_bool x y).

(** [x >= y] on numbers. *)
Definition ge (x y : Q) : bool := Qle_bool y x.

(** [Math.round]: the nearest integer, halves rounded up. *)
Definition round (x : Q) : Z := Qfloor (x + (1 # 2)).

(** The power of two [2^k]. *)
Definition pow2 (k : Z) : Q :=
  if 0 <=? k then inject_Z (2 ^ k) else 1 # Z.to_pos (2 ^ (- k)).

(** The nearest integer, a half going to the even side. *)
Definition nearestEven (x : Q) : Z :=
  let f := Qfloor x in
  match (x - inject_Z f ?= 1 # 2)%Q with
  | Lt => f
  | Gt => f + 1
  | Eq => if Z.even f then f else f + 1
  end.

(** The number the machine holds for [x]: the nearest one with a
    significand of 53 bits, a tie going to the even significand.  The
    numbers of the program are far from both ends of the exponent range,
    which is left unbounded. *)
Definition binary64 (x : Q) : Q :=
  if Qnum x =? 0 then 0%Q
  else
    let a := Qabs x in
    let e0 := Z.log2 (Qnum a) - Z.log2 (Zpos (Qden a)) in
    let e := if Qle_bool (pow2 e0) a then e0 else e0 - 1 in
    let ulp := pow2 (e - 52) in
    let m := inject_Z (nearestEven (a / ulp)) in
    Qred ((if Qnum x <? 0 then - m else m) * ulp)%Q.

(** [x * y] on numbers: the product, as the machine holds it. *)
Definition times (x y : Q) : Q := binary64 (x * y).

(** Template-literal rendering of an integer. *)
Definition show (z : Z) : string := NilZero.string_of_int (Z.to_int z).

(** Template-literal rendering of a number whose value is integral. *)
Definition showNumber (x : Q) : string := show (Qfloor x).

(** [!s] on a string: only the empty string is falsy. *)
Definition falsy (s : string) : bool := String.eqb s EmptyString.

(** [s === d] for a string [s] and a [d] read out of an array, which is
    [undefined] ([None]) past its end. *)
Definition strictEq (s : string) (d : option string) : bool :=
  match d with
  | Some name => String.eqb s name
  | None => false
  end.

(** The double-quote character. *)
Definition quote : string := String (ascii_of_nat 34) EmptyString.

(** [a || b] on numbers the code keeps integral: [0] is the falsy one. *)
Definition orElse (a b : Z) : Z := if a =? 0 then b else a.

(** Where an [Error] was thrown from: one of the [throw] statements of
    the verification pipeline, another [throw] of the application, or a
    collaborator (store, matcher, geolocation). *)
Inductive Origin : Type :=
| InvalidQrData
| QrExpired
| TooFar
| NoClassScheduled
| FaceNotRecognized
| ConfidenceTooLow
| Application
| Collaborator.

(** An [Error] object: the properties [code] and [message] the handlers
    read, tagged with its origin. *)
Record Error : Type := mkError
  { origin : Origin;
    code : string;
    message : string }.

(** [new Error(msg)]. *)
Definition error (o : Origin) (msg : string) : Error := mkError o EmptyString msg.

(** The outcome of an awaited call or of a [try] block. *)
Inductive Completion (A : Type) : Type :=
| Returns (a : A)
| Throws (e : Error).
Arguments Returns {A} a.
Arguments Throws {A} e.

Definition bind {A B : Type} (c : Completion A) (k : A -> Completion B)
  : Completion B :=
  match c with
  | Returns a => k a
  | Throws e => Throws e
  end.

(** What a collaborator answers to a call: a value, or a failure with the
    [code] and [message] of the error it raises. *)
Inductive Answer (A : Type) : Type :=
| Resolves (a : A)
| Fails (code msg : string).
Arguments Resolves {A} a.
Arguments Fails {A} code msg.

(** [await call(...)], and equally a synchronous call that may throw. *)
Definition await {A : Type} (answer : Answer A) : Completion A :=
  match answer with
  | Resolves a => Returns a
  | Fails c msg => Throws (mkError Collaborator c msg)
  end.

(** The fields of a [Date] the code reads.  [getDay] is 0 for Sunday. *)
Record Date : Type := mkDate
  { getDay : nat;
    getHours : Z;
    getMinutes : Z }.

(** [s.includes(sub)]. *)
Definition includes (s sub : string) : bool :=
  match String.index 0 sub s with
  | Some _ => true
  | None => false
  end.

(** [s.padStart(2, '0')]. *)
Definition padStart2 (s : string) : string :=
  match String.length s with
  | O => "00"
  | S O => "0" ++ s
  | _ => s
  end.

(** [s.split(sep)] for a one-character separator. *)
Fixpoint split (sep : ascii) (s : string) : list string :=
  match s with
  | EmptyString => [EmptyString]
  | String c rest =>
      if Ascii.eqb c sep then EmptyString :: split sep rest
      else match split sep rest with
           | piece :: pieces => String c piece :: pieces
           | [] => [String c EmptyString]
           end
  end.

Definition digit (c : ascii) : option Z :=
  let n := Z.of_nat (nat_of_ascii c) in
  if (48 <=? n) && (n <=? 57) then Some (n - 48) else None.

Fixpoint digits (acc : Z) (s : string) : option Z :=
  match s with
  | EmptyString => Some acc
  | String c rest =>
      match digit c with
      | Some d => digits (acc * 10 + d) rest
      | None => None
      end
  end.

(** [Number(s)] on the strings a clock field is made of: a run of decimal
    digits is its value and the empty string is 0; [None] is NaN, which is
    what every other string is taken to here (signs, blanks, fractions and
    exponents do not occur in an HH:MM field). *)
Definition Number (s : string) : option Z := digits 0 s.

(** [new Date("1970-01-01T" + hhmm + ":00").getTime()] on an HH:MM field,
    in milliseconds from local midnight of that day; [None] is an Invalid
    Date.  The offset of the local zone, the same for every date built this
    way, is left out: the code only compares and subtracts such dates.  A
    string of another shape is read as an Invalid Date here, though the
    parser of the host takes some of them (an HH:MM followed by a zone
    offset, for one); the properties that depend on the reading are stated
    of clock fields. *)
Definition clockDate (hhmm : string) : option Z :=
  match hhmm with
  | String h1 (String h2 (String sep (String m1 (String m2 EmptyString)))) =>
      match digit h1, digit h2, digit m1, digit m2 with
      | Some a, Some b, Some c, Some d =>
          let hours := a * 10 + b in
          let minutes := c * 10 + d in
          if Ascii.eqb sep ":"
             && (minutes <=? 59)
             && ((hours <=? 23) || ((hours =? 24) && (minutes =? 0)))
          then Some ((hours * 60 + minutes) * 60000)
          else None
      | _, _, _, _ => None
      end
  | _ => None
  end.

(** [a.localeCompare(b)], by code units: on clock fields, all of the shape
    HH:MM, every collation orders them this way. *)
Definition localeCompare (a b : string) : Z :=
  match String.compare a b with
  | Lt => -1
  | Eq => 0
  | Gt => 1
  end.

(** [Array.prototype.sort(cmp)]: a stable sort.  [cmp x y <= 0] keeps [x]
    before [y]; a NaN from the comparator counts as 0, as in the language. *)
Section Sort.
Context {A : Type} (cmp : A -> A -> option Z).

Definition keepsBefore (x y : A) : bool :=
  match cmp x y with
  | Some v => v <=? 0
  | None => true
  end.

Fixpoint insert (x : A) (l : list A) : list A :=
  match l with
  | [] => [x]
  | y :: l' => if keepsBefore x y then x :: y :: l' else y :: insert x l'
  end.

Definition sort (l : list A) : list A := fold_right insert [] l.
End Sort.

(** How a promise settles. *)
Inductive Settled : Type :=
| Fulfilled
| Rejected (e : Error).

Fixpoint firstRejection (outcome : nat -> Settled) (order : list nat)
  : option Error :=
  match order with
  | [] => None
  | k :: later =>
      match outcome k with
      | Rejected e => Some e
      | Fulfilled => firstRejection outcome later
      end
  end.

(** [await Promise.all(promises)] for [n] promises already started, the
    [k]-th settling as [outcome k]; [settleOrder] lists them in the order
    in which they settle (those it leaves out settle last, in index
    order).  The result is the first rejection to happen, if any, and
    otherwise fulfils once every promise has. *)
Definition promiseAll (n : nat) (outcome : nat -> Settled)
    (settleOrder : list nat) : Completion unit :=
  let order :=
    (filter (fun k => k <? n)%nat settleOrder ++ seq 0 n)%list in
  match firstRejection outcome order with
  | Some e => Throws e
  | None => Returns tt
  end.

(** White space for [trim], among the code units a [string] here holds
    (those below 256): tab, line feed, vertical tab, form feed, carriage
    return, space and no-break space. *)
Definition isSpace (c : ascii) : bool :=
  let n := nat_of_ascii c in
  ((9 <=? n) && (n <=? 13) || (n =? 32) || (n =? 160))%nat.

Fixpoint trimStart (s : string) : string :=
  match s with
  | EmptyString => EmptyString
  | String c rest => if isSpace c then trimStart rest else s
  end.

Fixpoint trimEnd (s : string) : string :=
  match s with
  | EmptyString => EmptyString
  | String c rest =>
      match trimEnd rest with
      | EmptyString => if isSpace c then EmptyString
                       else String c EmptyString
      | kept => String c kept
      end
  end.

(** [s.trim()] *)
Definition trim (s : string) : string := trimEnd (trimStart s).

(** [s.startsWith(p)] *)
Definition startsWith (s p : string) : bool := String.prefix p s.

(** [s.substring(n)], for [n] a natural number. *)
Fixpoint from (n : nat) (s : string) : string :=
  match n, s with
  | O, _ => s
  | S n', String _ rest => from n' rest
  | S _, EmptyString => EmptyString
  end.

(** [s.endsWith(p)] *)
Definition endsWith (s p : string) : bool :=
  (String.length p <=? String.length s)%nat
  && String.eqb (from (String.length s - String.length p) s) p.

(** [s.slice(0, -n)], for [n] a natural number. *)
Definition dropLast (n : nat) (s : string) : string :=
  String.substring 0 (String.length s - n) s.

(** [a >= b] and [a <= b] on strings: the order of the code units. *)
Definition geString (a b : string) : bool :=
  match String.compare a b with
  | Lt => false
  | _ => true
  end.

Definition leString (a b : string) : bool :=
  match String.compare a b with
  | Gt => false
  | _ => true
  end.

End Js.

Notation "x <- c ;; k" := (Js.bind c (fun x => k))
  (at level 61, c at next level, right associativity).
Notation "'check' b 'else_throw' e ;; k" :=
  (if b then k else Js.Throws e)
  (at level 61, b at next level, e at next level, right associativity).

(** ** services/locationService.ts

    The module is imported by both portals but is not part of the sources at
    hand; the handlers only compare what [calculateDistance] returns with a
    threshold, so it is taken as an interface. *)

Class LocationService : Type :=
  { calculateDistance : LocationCoordinate -> LocationCoordinate -> Q }.

(** ** utils/timeUtils.ts *)

Module TimeUtils.

Definition DAYS_OF_WEEK : list string :=
  ["Sunday"; "Monday"; "Tuesday"; "Wednesday"; "Thursday"; "Friday";
   "Saturday"].

Record ScheduleStatus : Type := mkStatus
  { currentClassId : option string;
    nextClassId : option string }.

(** The filter [entry => entry.day === d]. *)
Definition onDay (d : option string) (entry : TimetableEntry) : bool :=
  Js.strictEq (day entry) d.

(** [hours * 60 + minutes] for [[hours, minutes] = t.split(':').map(Number)];
    [None] is NaN. *)
Definition startTimeValue (t : string) : option Z :=
  match map Js.Number (Js.split ":" t) with
  | Some hours :: Some minutes :: _ => Some (hours * 60 + minutes)
  | _ => None
  end.

(** The comparator [a.startTimeValue - b.startTimeValue]. *)
Definition byStart (a b : TimetableEntry * option Z) : option Z :=
  match snd a, snd b with
  | Some x, Some y => Some (x - y)
  | _, _ => None
  end.

(** The comparator [a.time.localeCompare(b.time)]. *)
Definition byTime (a b : TimetableEntry) : option Z :=
  Some (Js.localeCompare (time a) (time b)).

(** One round of the loop over [todayEntries]; the accumulator holds
    [currentClassId] and [upcomingToday]. *)
Definition visit (nowTimeValue : Z)
    (acc : option string * list TimetableEntry)
    (entry : TimetableEntry * option Z)
  : option string * list TimetableEntry :=
  let '(currentClassId, upcomingToday) := acc in
  match snd entry with
  | Some startTime =>
      let duration :=
        Js.orElse (duration (fst entry)) DEFAULT_CLASS_DURATION_MINS in
      let endTime := startTime + duration in
      let currentClassId :=
        if (nowTimeValue >=? startTime) && (nowTimeValue <? endTime)
        then Some (id (fst entry)) else currentClassId in
      let upcomingToday :=
        if startTime >? nowTimeValue
        then (upcomingToday ++ [fst entry])%list else upcomingToday in
      (currentClassId, upcomingToday)
  | None => acc
  end.

(** The loop [for (let i = 1; i <= 7; i++)] with its [break], over the
    values of [i] still to be tried. *)
Fixpoint scanForward (today : nat) (timetable : list TimetableEntry)
    (steps : list nat) : option string :=
  match steps with
  | [] => None
  | i :: later =>
      let nextDayIndex := ((today + i) mod 7)%nat in
      let nextDay := nth_error DAYS_OF_WEEK nextDayIndex in
      let nextDayEntries :=
        Js.sort byTime (filter (onDay nextDay) timetable) in
      match nextDayEntries with
      | first :: _ => Some (id first)
      | [] => scanForward today timetable later
      end
  end.

(** [!nextClassId]: [null] and the empty string are falsy. *)
Definition unset (nextClassId : option string) : bool :=
  match nextClassId with
  | Some s => Js.falsy s
  | None => true
  end.

Definition getScheduleStatus (now : Js.Date)
    (timetable : list TimetableEntry) : ScheduleStatus :=
  let currentDay := nth_error DAYS_OF_WEEK (Js.getDay now) in
  let nowTimeValue := Js.getHours now * 60 + Js.getMinutes now in
  let todayEntries :=
    Js.sort byStart
      (map (fun entry => (entry, startTimeValue (time entry)))
           (filter (onDay currentDay) timetable)) in
  let '(currentClassId, upcomingToday) :=
    fold_left (visit nowTimeValue) todayEntries (None, []) in
  let nextClassId :=
    match upcomingToday with
    | first :: _ => Some (id first)
    | [] => None
    end in
  let nextClassId :=
    if unset nextClassId
    then match scanForward (Js.getDay now) timetable (seq 1 7) with
         | Some found => Some found
         | None => nextClassId
         end
    else nextClassId in
  {| currentClassId := currentClassId; nextClassId := nextClassId |}.

End TimeUtils.

(** ** services/geminiService.ts *)

Module GeminiService.

(** [getBase64Data]: what follows the first comma of a data URL. *)
Definition getBase64Data (dataUrl : string) : string :=
  match Js.split "," dataUrl with
  | _ :: second :: _ => second
  | _ => dataUrl
  end.

(** The text handed to [JSON.parse] in [verifyFace]: the response of the
    model, [response.text], cleaned of Markdown fences. *)
Definition jsonString (responseText : string) : string :=
  let jsonString := Js.trim responseText in
  let jsonString :=
    if Js.startsWith jsonString "```json" then Js.from 7 jsonString
    else if Js.startsWith jsonString "```" then Js.from 3 jsonString
    else jsonString in
  let jsonString :=
    if Js.endsWith jsonString "```" then Js.dropLast 3 jsonString
    else jsonString in
  Js.trim jsonString.

End GeminiService.

(** ** components/QRCodeGenerator.tsx *)

Module QRCodeGenerator.

(** The initial value of [countdown], [QR_REFRESH_INTERVAL_MS / 1000]. *)
Definition initialCountdown : Z := QR_REFRESH_INTERVAL_MS / 1000.

(** The state update of the one-second interval. *)
Definition tick (prev : Z) : Z := if prev >? 0 then prev - 1 else 0.

(** The countdown after [n] firings of the interval. *)
Fixpoint countdownAfter (n : nat) (countdown : Z) : Z :=
  match n with
  | O => countdown
  | S n' => countdownAfter n' (tick countdown)
  end.

End QRCodeGenerator.

(** ** context/AppContext.tsx *)

Module AppContext.

Inductive Role : Type := student | faculty.

(** The two collections of the document store the operations touch. *)
Record Firestore : Type := mkFirestore
  { attendanceCollection : list AttendanceRecord;
    timetableCollection : list TimetableEntry }.

(** What the provider's operations close over.  [db] is [None] when
    Firebase is not configured; [currentUser] is the signed-in uid. *)
Record Provider : Type := mkProvider
  { db : option Firestore;
    currentUser : option string;
    userRole : option Role;
    currentFaculty : option Faculty }.

Definition withStore (p : Provider) (store : Firestore) : Provider :=
  {| db := Some store;
     currentUser := currentUser p;
     userRole := userRole p;
     currentFaculty := currentFaculty p |}.

(** [addAttendanceRecord]; [addDoc] is how the store answers the
    [addDoc] call: the id of the new document, or an error. *)
Definition addAttendanceRecord (p : Provider) (record : AttendanceData)
    (addDoc : Js.Answer string) : Js.Completion unit * Provider :=
  match db p with
  | None => (Js.Throws (Js.error Js.Application "Firebase not initialized."), p)
  | Some store =>
      match Js.await addDoc with
      | Js.Returns newId =>
          (Js.Returns tt,
           withStore p
             {| attendanceCollection :=
                  (attendanceCollection store
                     ++ [mkAttendanceRecord newId record])%list;
                timetableCollection := timetableCollection store |})
      | Js.Throws e => (Js.Throws e, p)
      end
  end.

(** [Omit<TimetableEntry, 'id' | 'facultyId' | 'facultyName' | 'department'>] *)
Record NewEntry : Type := mkNewEntry
  { newDay : string;
    newTime : string;
    newSubject : string;
    newDuration : Z }.

Definition withTimetable (p : Provider) (store : Firestore)
    (docs : list TimetableEntry) : Provider :=
  withStore p
    {| attendanceCollection := attendanceCollection store;
       timetableCollection := docs |}.

Definition addTimetableEntry (p : Provider) (entry : NewEntry)
    (addDoc : Js.Answer string) : Js.Completion unit * Provider :=
  match db p, currentUser p, currentFaculty p with
  | None, _, _ =>
      (Js.Throws (Js.error Js.Application
         "Database connection not available. Please reload the app."), p)
  | _, None, _ =>
      (Js.Throws (Js.error Js.Application
         "Authentication error: You must be logged in."), p)
  | _, _, None =>
      (Js.Throws (Js.error Js.Application
         "Faculty profile not loaded. Please refresh."), p)
  | Some store, Some userUid, Some currentFaculty =>
      if Js.falsy (facultyDepartment currentFaculty) then
        (Js.Throws (Js.error Js.Application
           "Configuration error: Your department is not set. Please update your profile."), p)
      else
        let sanitizedDuration := Js.orElse (newDuration entry) 45 in
        let newEntry (newId : string) :=
          {| id := newId;
             day := if Js.falsy (newDay entry) then "Monday" else newDay entry;
             time := newTime entry;
             subject := newSubject entry;
             department := facultyDepartment currentFaculty;
             facultyId := userUid;
             facultyName :=
               if Js.falsy (facultyDisplayName currentFaculty)
               then "Unknown Faculty" else facultyDisplayName currentFaculty;
             duration := sanitizedDuration |} in
        if Js.falsy (newTime entry) || Js.falsy (newSubject entry) then
          (Js.Throws (Js.error Js.Application
             "Missing required fields: Time or Subject."), p)
        else
          match Js.await addDoc with
          | Js.Returns newId =>
              (Js.Returns tt,
               withTimetable p store
                 (timetableCollection store ++ [newEntry newId])%list)
          | Js.Throws e =>
              let message :=
                if Js.falsy (Js.message e) then "Error" else Js.message e in
              if String.eqb (Js.code e) "permission-denied" then
                (Js.Throws (Js.error Js.Application
                   "Permission denied: You do not have access to modify the timetable."), p)
              else
                (Js.Throws (Js.error Js.Application
                   ("Database Error: " ++ message)), p)
          end
  end.

(** The fields [updateDoc] overwrites in the document [entry.id]. *)
Definition applyUpdate (p : Provider) (entry doc : TimetableEntry)
  : TimetableEntry :=
  let backfill :=
    (Js.falsy (facultyId entry) || Js.falsy (facultyName entry)) in
  let owner :=
    match currentUser p, currentFaculty p with
    | Some userUid, Some f =>
        if backfill then Some (userUid, facultyDisplayName f) else None
    | _, _ => None
    end in
  {| id := id doc;
     day := day entry;
     time := time entry;
     subject := subject entry;
     department := department doc;
     facultyId :=
       match owner with
       | Some (userUid, _) => userUid
       | None => if Js.falsy (facultyId entry)
                 then facultyId doc else facultyId entry
       end;
     facultyName :=
       match owner with
       | Some (_, fname) => fname
       | None => if Js.falsy (facultyName entry)
                 then facultyName doc else facultyName entry
       end;
     duration := Js.orElse (duration entry) 45 |}.

Definition updateTimetableEntry (p : Provider) (entry : TimetableEntry)
    (updateDoc : Js.Answer unit) : Js.Completion unit * Provider :=
  match db p with
  | None => (Js.Throws (Js.error Js.Application "Database not initialized."), p)
  | Some store =>
      if Js.falsy (day entry) || Js.falsy (time entry)
         || Js.falsy (subject entry) then
        (Js.Throws (Js.error Js.Application
           "Invalid data: Day, Time and Subject are required."), p)
      else
        let stored :=
          existsb (fun doc => String.eqb (id doc) (id entry))
                  (timetableCollection store) in
        let outcome :=
          Js.await
            (if stored then updateDoc
             else Js.Fails "not-found" "No document to update") in
        match outcome with
        | Js.Returns _ =>
            (Js.Returns tt,
             withTimetable p store
               (map (fun doc => if String.eqb (id doc) (id entry)
                                then applyUpdate p entry doc else doc)
                    (timetableCollection store)))
        | Js.Throws e =>
            if String.eqb (Js.code e) "permission-denied" then
              (Js.Throws (Js.error Js.Application
                 "Permission denied: You do not have access to update this timetable entry."), p)
            else
              (Js.Throws (Js.error Js.Application
                 ("Update Failed: " ++ Js.message e)), p)
        end
  end.

Definition BATCH_SIZE : nat := 500.

(** [records.slice(i, j)] *)
Definition slice {A : Type} (i j : nat) (records : list A) : list A :=
  firstn (j - i) (skipn i records).

(** The loop [for (let i = 0; i < recordsToDelete.length; i += BATCH_SIZE)]
    from its current [i]: the chunks put into the successive write
    batches. *)
Equations? batchLoop (recordsToDelete : list AttendanceRecord) (i : nat)
  : list (list AttendanceRecord)
  by wf (List.length recordsToDelete - i)%nat lt :=
  batchLoop recordsToDelete i with lt_dec i (List.length recordsToDelete) := {
    | left _ =>
        slice i (i + BATCH_SIZE) recordsToDelete
          :: batchLoop recordsToDelete (i + BATCH_SIZE)
    | right _ => []
  }.
Proof. unfold BATCH_SIZE. lia. Qed.

(** The effect of a committed write batch: every document of the chunk is
    deleted, by reference. *)
Definition deleteChunk (chunk ledger : list AttendanceRecord)
  : list AttendanceRecord :=
  filter (fun doc =>
            negb (existsb (String.eqb (recordId doc)) (map recordId chunk)))
         ledger.

(** The ledger once every batch has settled: the [k]-th batch is applied
    when its commit fulfils and leaves the ledger as it is when it fails. *)
Fixpoint settleBatches (commit : nat -> Js.Settled) (k : nat)
    (batches : list (list AttendanceRecord))
    (ledger : list AttendanceRecord) : list AttendanceRecord :=
  match batches with
  | [] => ledger
  | chunk :: later =>
      let ledger' :=
        match commit k with
        | Js.Fulfilled => deleteChunk chunk ledger
        | Js.Rejected _ => ledger
        end in
      settleBatches commit (S k) later ledger'
  end.

(** [deleteAllAttendanceRecords].  [getDocs] is the answer of the store to
    the read of the collection (when it resolves, the snapshot holds the
    attendance collection), [commit k] is how the [k]-th [batch.commit()]
    settles and [settleOrder] the order in which the commits settle. *)
Definition deleteAllAttendanceRecords (p : Provider)
    (getDocs : Js.Answer unit)
    (commit : nat -> Js.Settled) (settleOrder : list nat)
  : Js.Completion unit * Provider :=
  let cancelled :=
    (Js.Throws (Js.error Js.Application
       "Operation cancelled: Not a faculty or no subjects assigned."), p) in
  match db p with
  | None => (Js.Throws (Js.error Js.Application "Firebase not initialized."), p)
  | Some store =>
      match userRole p, currentFaculty p with
      | Some faculty, Some f =>
          if (List.length (subjects f) =? 0)%nat then cancelled
          else
            let facultySubjects := subjects f in
            match Js.await getDocs with
            | Js.Throws e => (Js.Throws e, p)
            | Js.Returns _ =>
                let recordsToDelete :=
                  filter (fun doc =>
                            existsb
                              (String.eqb (recordSubject (recordData doc)))
                              facultySubjects)
                         (attendanceCollection store) in
                if (List.length recordsToDelete =? 0)%nat
                then (Js.Returns tt, p)
                else
                  let batches := batchLoop recordsToDelete 0 in
                  (Js.promiseAll (List.length batches) commit settleOrder,
                   withStore p
                     {| attendanceCollection :=
                          settleBatches commit 0 batches
                                        (attendanceCollection store);
                        timetableCollection := timetableCollection store |})
            end
      | _, _ => cancelled
      end
  end.

(** [doc(db, collection, id)] on a document id, that is an id without the
    path separator ['/'], as the store issues them: an empty id leaves the
    path with the collection alone, which the store refuses with an
    [invalid-argument] error raised on the spot.  An id with a separator
    names a longer path and is no document id of the collection: ids are
    taken to be document ids throughout. *)
Definition docRef (collection id : string) : Js.Completion string :=
  if Js.falsy id
  then Js.Throws
         (Js.mkError Js.Collaborator "invalid-argument"
            ("Invalid document reference. Document references must have an even number of segments, but "
             ++ collection ++ " has 1."))
  else Js.Returns id.

(** The ledger once the documents of the given references are deleted. *)
Definition deleteRefs (refs : list string) (records : list AttendanceRecord)
  : list AttendanceRecord :=
  filter (fun doc => negb (existsb (String.eqb (recordId doc)) refs)) records.

Definition withAttendance (p : Provider) (store : Firestore)
    (docs : list AttendanceRecord) : Provider :=
  withStore p
    {| attendanceCollection := docs;
       timetableCollection := timetableCollection store |}.

(** [deleteAttendanceRecord]; [deleteDoc] is the answer of the store. *)
Definition deleteAttendanceRecord (p : Provider) (id : string)
    (deleteDoc : Js.Answer unit) : Js.Completion unit * Provider :=
  match db p with
  | None => (Js.Throws (Js.error Js.Application "Firebase not initialized."), p)
  | Some store =>
      if Js.falsy id then
        (Js.Throws (Js.error Js.Application
           "Record ID is required for deletion."), p)
      else
        match Js.await deleteDoc with
        | Js.Returns _ =>
            (Js.Returns tt,
             withAttendance p store
               (deleteRefs [id] (attendanceCollection store)))
        | Js.Throws e => (Js.Throws e, p)
        end
  end.

(** The [forEach] that fills the write batch: it stops at the first id
    [doc] refuses, nothing having been committed. *)
Fixpoint batchRefs (ids : list string) : Js.Completion (list string) :=
  match ids with
  | [] => Js.Returns []
  | id :: later =>
      ref <- docRef "attendance" id ;;
      refs <- batchRefs later ;;
      Js.Returns (ref :: refs)
  end.

(** [deleteMultipleAttendanceRecords]; [commit] is the answer of the store
    to [batch.commit()]. *)
Definition deleteMultipleAttendanceRecords (p : Provider) (ids : list string)
    (commit : Js.Answer unit) : Js.Completion unit * Provider :=
  match db p with
  | None => (Js.Throws (Js.error Js.Application "Firebase not initialized."), p)
  | Some store =>
      if (List.length ids =? 0)%nat then (Js.Returns tt, p)
      else
        match batchRefs ids with
        | Js.Throws e => (Js.Throws e, p)
        | Js.Returns refs =>
            match Js.await commit with
            | Js.Returns _ =>
                (Js.Returns tt,
                 withAttendance p store
                   (deleteRefs refs (attendanceCollection store)))
            | Js.Throws e => (Js.Throws e, p)
            end
        end
  end.

(** [markManualAttendance], over the [students] of the context; [today] is
    [new Date().toISOString().split('T')[0]]. *)
Definition markManualAttendance (p : Provider) (students : list Student)
    (studentUid : string) (subject : string) (today : string)
    (addDoc : Js.Answer string) : Js.Completion unit * Provider :=
  match find (fun s => String.eqb (uid s) studentUid) students with
  | None => (Js.Returns tt, p)
  | Some found =>
      let newRecord :=
        {| studentId := uid found;
           studentName := name found;
           recordSubject := subject;
           date := today;
           recordStatus := present |} in
      addAttendanceRecord p newRecord addDoc
  end.

(** [deleteTimetableEntry]; [deleteDoc] is the answer of the store. *)
Definition deleteTimetableEntry (p : Provider) (id : string)
    (deleteDoc : Js.Answer unit) : Js.Completion unit * Provider :=
  match db p with
  | None => (Js.Throws (Js.error Js.Application "Firebase not initialized."), p)
  | Some store =>
      match (_ <- docRef "timetable" id ;; Js.await deleteDoc) with
      | Js.Returns _ =>
          (Js.Returns tt,
           withTimetable p store
             (filter (fun doc => negb (String.eqb (Types.id doc) id))
                     (timetableCollection store)))
      | Js.Throws e =>
          if String.eqb (Js.code e) "permission-denied" then
            (Js.Throws (Js.error Js.Application
               "Permission denied: You do not have access to delete this timetable entry."), p)
          else (Js.Throws e, p)
      end
  end.

(** [arr.indexOf(x)]: the first position of [x], or -1. *)
Fixpoint indexOf (x : string) (arr : list string) : Z :=
  match arr with
  | [] => -1
  | y :: later =>
      if String.eqb y x then 0
      else let i := indexOf x later in
           if i <? 0 then -1 else i + 1
  end.

Definition daysOfWeekOrder : list string :=
  ["Monday"; "Tuesday"; "Wednesday"; "Thursday"; "Friday"; "Saturday";
   "Sunday"].

(** The comparator of [sortTimetable]. *)
Definition byDayThenTime (a b : TimetableEntry) : option Z :=
  let dayComparison :=
    indexOf (day a) daysOfWeekOrder - indexOf (day b) daysOfWeekOrder in
  if negb (dayComparison =? 0) then Some dayComparison
  else if negb (Js.falsy (time a)) && negb (Js.falsy (time b))
       then Some (Js.localeCompare (time a) (time b))
       else Some 0.

(** [sortTimetable], applied to every snapshot of the timetable. *)
Definition sortTimetable (timetableData : list TimetableEntry)
  : list TimetableEntry :=
  Js.sort byDayThenTime timetableData.

End AppContext.

(** ** components/StudentPortal.tsx : AttendanceDashboard *)

Module StudentPortal.

Definition CONFIDENCE_THRESHOLD : Q := 9 # 10.

(** The grace added to the refresh interval in [handleQrScan]. *)
Definition GRACE_MS : Z := 5000.

(** React state of the component. *)
Record Dashboard : Type := mkDashboard
  { isLoading : bool;
    status : string;
    showFaceCapture : bool;
    showScanner : bool;
    scannedSession : option SessionData;
    retryAttempted : bool;
    showApiKeyInput : bool }.

(** What [JSON.parse(data)] yields for a scanned string: an exception, or
    an object whose [location] and [timestamp] fields may be missing. *)
Record ScannedObject : Type := mkScanned
  { scannedLocation : option LocationCoordinate;
    scannedTimestamp : option Z }.

Section WithLocationService.

Context {locationService : LocationService}.

(** The [try] block of [handleQrScan].  [parsed] is the outcome of
    [JSON.parse(data)], [now] is [Date.now()] and [sample] the outcome of
    [await getCurrentLocation()]. *)
Definition scanTry (parsed : Js.Answer ScannedObject) (now : Z)
    (sample : Js.Answer LocationCoordinate)
  : Js.Completion SessionData :=
  obj <- Js.await parsed ;;
  match scannedLocation obj, scannedTimestamp obj with
  | Some loc, Some ts =>
      check negb (ts =? 0)
        else_throw Js.error Js.InvalidQrData "Invalid QR code data." ;;
      check negb (now - ts >? QR_REFRESH_INTERVAL_MS + GRACE_MS)
        else_throw Js.error Js.QrExpired
                     "QR code has expired. Please scan a new one." ;;
      studentLocation <- Js.await sample ;;
      let distance := calculateDistance studentLocation loc in
      check negb (Js.gt distance (inject_Z MAX_DISTANCE_METERS))
        else_throw Js.error Js.TooFar
                     ("You are " ++ Js.show (Js.round distance)
                        ++ "m away. You must be within "
                        ++ Js.show MAX_DISTANCE_METERS ++ "m.") ;;
      Js.Returns (mkSession loc ts)
  | _, _ => Js.Throws (Js.error Js.InvalidQrData "Invalid QR code data.")
  end.

Definition handleQrScan (st : Dashboard)
    (parsed : Js.Answer ScannedObject) (now : Z)
    (sample : Js.Answer LocationCoordinate) : Dashboard :=
  match scanTry parsed now sample with
  | Js.Returns sessionData =>
      {| isLoading := true;
         status := "Location verified. Please confirm your identity.";
         showFaceCapture := true;
         showScanner := false;
         scannedSession := Some sessionData;
         retryAttempted := false;
         showApiKeyInput := showApiKeyInput st |}
  | Js.Throws err =>
      {| isLoading := false;
         status := "Error: " ++ Js.message err;
         showFaceCapture := showFaceCapture st;
         showScanner := false;
         scannedSession := scannedSession st;
         retryAttempted := false;
         showApiKeyInput := showApiKeyInput st |}
  end.

End WithLocationService.

Definition daysOfWeek : list string :=
  ["Sunday"; "Monday"; "Tuesday"; "Wednesday"; "Thursday"; "Friday";
   "Saturday"].

(** The string [currentTime], HH:MM. *)
Definition currentTime (now : Js.Date) : string :=
  Js.padStart2 (Js.show (Js.getHours now)) ++ ":"
    ++ Js.padStart2 (Js.show (Js.getMinutes now)).

(** The predicate handed to [timetable.find] on the accept path. *)
Definition inSession (currentDay : option string) (currentTime : string)
    (entry : TimetableEntry) : bool :=
  if negb (Js.strictEq (day entry) currentDay) then false
  else
    let classTime := Js.clockDate (time entry) in
    let classDuration :=
      Js.orElse (duration entry) DEFAULT_CLASS_DURATION_MINS in
    let endTime :=
      option_map (fun t => t + classDuration * 60000) classTime in
    let nowTime := Js.clockDate currentTime in
    match nowTime, classTime, endTime with
    | Some n, Some c, Some e => (n >=? c) && (n <=? e)
    | _, _, _ => false
    end.

(** The accept-path class resolution: [currentClass]. *)
Definition resolveClass (now : Js.Date) (timetable : list TimetableEntry)
  : option TimetableEntry :=
  let currentDay := nth_error daysOfWeek (Js.getDay now) in
  find (inSession currentDay (currentTime now)) timetable.

(** The two [errorMessage] templates of the rejection branch. *)
Definition notRecognizedMessage (confidencePercent : Z) : string :=
  "Face not recognized. The system could not confirm your identity. (Confidence: "
    ++ Js.show confidencePercent ++ "%)".

Definition tooLowMessage (confidencePercent : Z) : string :=
  "Face match confidence was too low (" ++ Js.show confidencePercent
    ++ "%). Required: " ++ Js.showNumber (CONFIDENCE_THRESHOLD * 100)
    ++ "%. Please ensure your face is clear and in good lighting.".

(** How the [try] block of [handleVerification] is left when nothing is
    thrown: at its end, attendance marked, or through the early [return]
    of the retry branch. *)
Inductive Verdict : Type :=
| Marked (subject : string)
| RetryOffered (confidencePercent : Z).

(** The [try] block of [handleVerification].  [verification] is the
    outcome of [await verifyFace(...)], [now] and [today] what [new Date()]
    and [new Date().toISOString().split('T')[0]] give, [addDoc] the answer
    of the store to the write. *)
Definition verifyTry (user : Student) (timetable : list TimetableEntry)
    (retryAttempted : bool) (p : AppContext.Provider)
    (verification : Js.Answer VerificationResult)
    (now : Js.Date) (today : string) (addDoc : Js.Answer string)
  : Js.Completion Verdict * AppContext.Provider :=
  match Js.await verification with
  | Js.Throws e => (Js.Throws e, p)
  | Js.Returns verificationResult =>
      let confidencePercent :=
        Js.round (Js.times (confidence verificationResult) 100) in
      if vmatch verificationResult
         && Js.ge (confidence verificationResult) CONFIDENCE_THRESHOLD
      then
        match resolveClass now timetable with
        | None =>
            (Js.Throws (Js.error Js.NoClassScheduled
               "No class scheduled at this time."), p)
        | Some currentClass =>
            let newRecord :=
              {| studentId := uid user;
                 studentName := name user;
                 recordSubject := subject currentClass;
                 date := today;
                 recordStatus := present |} in
            match AppContext.addAttendanceRecord p newRecord addDoc with
            | (Js.Returns _, p') =>
                (Js.Returns (Marked (subject currentClass)), p')
            | (Js.Throws e, p') => (Js.Throws e, p')
            end
        end
      else if vmatch verificationResult
              && Js.ge (confidence verificationResult)
                       RETRY_CONFIDENCE_THRESHOLD
              && negb retryAttempted
      then (Js.Returns (RetryOffered confidencePercent), p)
      else if negb (vmatch verificationResult)
      then
        (Js.Throws (Js.error Js.FaceNotRecognized
                      (notRecognizedMessage confidencePercent)), p)
      else
        (Js.Throws (Js.error Js.ConfidenceTooLow
                      (tooLowMessage confidencePercent)), p)
  end.

Definition handleVerification (st : Dashboard) (user : Student)
    (timetable : list TimetableEntry) (p : AppContext.Provider)
    (verification : Js.Answer VerificationResult)
    (now : Js.Date) (today : string) (addDoc : Js.Answer string)
  : Dashboard * AppContext.Provider :=
  match scannedSession st with
  | None =>
      ({| isLoading := false;
          status := "Error: Session data not found. Please scan the QR code again.";
          showFaceCapture := false;
          showScanner := showScanner st;
          scannedSession := None;
          retryAttempted := retryAttempted st;
          showApiKeyInput := showApiKeyInput st |}, p)
  | Some session =>
      match verifyTry user timetable (retryAttempted st) p
                      verification now today addDoc with
      | (Js.Returns (Marked subject), p') =>
          ({| isLoading := false;
              status := "Attendance marked for " ++ subject ++ "!";
              showFaceCapture := false;
              showScanner := showScanner st;
              scannedSession := Some session;
              retryAttempted := false;
              showApiKeyInput := showApiKeyInput st |}, p')
      | (Js.Returns (RetryOffered confidencePercent), p') =>
          ({| isLoading := false;
              status :=
                "Almost there! Confidence is " ++ Js.show confidencePercent
                  ++ "%. The minimum required is "
                  ++ Js.showNumber (CONFIDENCE_THRESHOLD * 100)
                  ++ "%. Please try again in better lighting.";
              showFaceCapture := true;
              showScanner := showScanner st;
              scannedSession := Some session;
              retryAttempted := true;
              showApiKeyInput := showApiKeyInput st |}, p')
      | (Js.Throws err, p') =>
          let errorMessage := Js.message err in
          if Js.includes errorMessage "API key not valid"
             || Js.includes errorMessage "API_KEY_INVALID"
             || Js.includes errorMessage "Gemini API key is not configured"
          then
            ({| isLoading := false;
                status := "Configuration Error: API Key missing or invalid.";
                showFaceCapture := false;
                showScanner := showScanner st;
                scannedSession := Some session;
                retryAttempted := retryAttempted st;
                showApiKeyInput := true |}, p')
          else
            ({| isLoading := false;
                status := "Error: " ++ errorMessage;
                showFaceCapture := false;
                showScanner := showScanner st;
                scannedSession := Some session;
                retryAttempted := false;
                showApiKeyInput := showApiKeyInput st |}, p')
      end
  end.

(** [handleApiKeySubmit], once the key is stored. *)
Definition handleApiKeySubmit (st : Dashboard) : Dashboard :=
  {| isLoading := isLoading st;
     status := "API Key saved. Please try verification again.";
     showFaceCapture := true;
     showScanner := showScanner st;
     scannedSession := scannedSession st;
     retryAttempted := retryAttempted st;
     showApiKeyInput := false |}.

(** *** AttendanceStatsAndHistory *)

(** A value of the [subjectStats] object. *)
Record Counts : Type := mkCounts
  { presentCount : Z;
    totalCount : Z }.

(** The property names every object inherits: looked up on the fresh
    [subjectStats] object they yield a function (or the prototype), which is
    truthy, so such a subject is never given counts of its own. *)
Definition inheritedKeys : list string :=
  ["constructor"; "__defineGetter__"; "__defineSetter__"; "hasOwnProperty";
   "__lookupGetter__"; "__lookupSetter__"; "isPrototypeOf";
   "propertyIsEnumerable"; "toString"; "valueOf"; "__proto__";
   "toLocaleString"].

Definition isPresent (record : AttendanceRecord) : bool :=
  match recordStatus (recordData record) with
  | present => true
  | absent => false
  end.

(** The own properties of [subjectStats] after one more record, in the
    order in which the keys were created; the counts are small integers,
    which the numbers of the language hold exactly. *)
Fixpoint countIn (subject : string) (attended : bool)
    (subjectStats : list (string * Counts)) : list (string * Counts) :=
  match subjectStats with
  | [] =>
      [(subject, {| presentCount := if attended then 1 else 0;
                    totalCount := 1 |})]
  | (key, counts) :: others =>
      if String.eqb key subject then
        (key, {| presentCount :=
                   presentCount counts + (if attended then 1 else 0);
                 totalCount := totalCount counts + 1 |}) :: others
      else (key, counts) :: countIn subject attended others
  end.

(** The body of [attendance.forEach]. *)
Definition tally (subjectStats : list (string * Counts))
    (record : AttendanceRecord) : list (string * Counts) :=
  let subject := recordSubject (recordData record) in
  if existsb (String.eqb subject) inheritedKeys then subjectStats
  else countIn subject (isPresent record) subjectStats.

(** The key is an array index: the decimal text, without leading zeros,
    of an integer below 2^32 - 1. *)
Definition arrayIndex (key : string) : option Z :=
  match Js.digits 0 key with
  | Some n =>
      if String.eqb (Js.show n) key && (n <? 4294967295) then Some n else None
  | None => None
  end.

(** [Object.entries(object)]: the array indices first, in ascending order,
    then the other keys in the order in which they were created. *)
Definition entries {A : Type} (object : list (string * A))
  : list (string * A) :=
  let isIndex (entry : string * A) :=
    match arrayIndex (fst entry) with
    | Some _ => true
    | None => false
    end in
  (Js.sort (fun a b =>
              match arrayIndex (fst a), arrayIndex (fst b) with
              | Some x, Some y => Some (x - y)
              | _, _ => Some 0
              end)
           (filter isIndex object)
   ++ filter (fun entry => negb (isIndex entry)) object)%list.

(** An element of [perSubject]; the percentage is taken as the exact
    quotient. *)
Record SubjectRow : Type := mkRow
  { rowSubject : string;
    rowPresent : Z;
    rowTotal : Z;
    percentage : Q }.

Record Stats : Type := mkStats
  { overallPercentage : Q;
    perSubject : list SubjectRow;
    totalPresent : Z }.

Section WithCollation.

(** The collation of the host, behind [String.prototype.localeCompare]. *)
Variable localeCompare : string -> string -> Z.

(** The memoised [stats]; [None] is [null]. *)
Definition stats (attendance : list AttendanceRecord) : option Stats :=
  if (List.length attendance =? 0)%nat then None
  else
    let totalPresent := Z.of_nat (List.length (filter isPresent attendance)) in
    let overallPercentage :=
      (inject_Z totalPresent
         / inject_Z (Z.of_nat (List.length attendance)) * 100)%Q in
    let subjectStats := fold_left tally attendance [] in
    let perSubject :=
      Js.sort (fun a b => Some (localeCompare (rowSubject a) (rowSubject b)))
        (map (fun entry =>
                {| rowSubject := fst entry;
                   rowPresent := presentCount (snd entry);
                   rowTotal := totalCount (snd entry);
                   percentage :=
                     (inject_Z (presentCount (snd entry))
                        / inject_Z (totalCount (snd entry)) * 100)%Q |})
             (entries subjectStats)) in
    Some {| overallPercentage := overallPercentage;
            perSubject := perSubject;
            totalPresent := totalPresent |}.

End WithCollation.

(** *** StudentTimetable *)

Definition DAYS_OF_WEEK : list string :=
  ["Monday"; "Tuesday"; "Wednesday"; "Thursday"; "Friday"; "Saturday";
   "Sunday"].

(** The initial value of [viewedDay]; [None] is [undefined]. *)
Definition initialViewedDay (now : Js.Date) : option string :=
  nth_error DAYS_OF_WEEK
            (if (Js.getDay now =? 0)%nat then 6%nat
             else (Js.getDay now - 1)%nat).

Definition entriesForViewedDay (viewedDay : option string)
    (timetable : list TimetableEntry) : list TimetableEntry :=
  filter (fun entry => Js.strictEq (day entry) viewedDay) timetable.

End StudentPortal.

(** ** components/FacultyPortal.tsx *)

Module FacultyPortal.

(** The session-related state of the portal; [activeSession] lives in the
    application context and is written through [setActiveSession]. *)
Record Portal : Type := mkPortal
  { activeSession : option SessionData;
    initialSessionLocation : option LocationCoordinate;
    showFullScreenQR : bool;
    error : option string;
    isLoading : bool }.

Definition stopSession (st : Portal) : Portal :=
  {| activeSession := None;
     initialSessionLocation := None;
     showFullScreenQR := false;
     error := error st;
     isLoading := isLoading st |}.

Definition setError (msg : string) (st : Portal) : Portal :=
  {| activeSession := activeSession st;
     initialSessionLocation := initialSessionLocation st;
     showFullScreenQR := showFullScreenQR st;
     error := Some msg;
     isLoading := isLoading st |}.

Definition setActiveSession (session : option SessionData) (st : Portal)
  : Portal :=
  {| activeSession := session;
     initialSessionLocation := initialSessionLocation st;
     showFullScreenQR := showFullScreenQR st;
     error := error st;
     isLoading := isLoading st |}.

(** [startSession]; [sample] is the outcome of [getCurrentLocation()] and
    [now] is [Date.now()]. *)
Definition startSession (st : Portal)
    (sample : Js.Answer LocationCoordinate) (now : Z) : Portal :=
  match Js.await sample with
  | Js.Returns location =>
      {| activeSession := Some (mkSession location now);
         initialSessionLocation := Some location;
         showFullScreenQR := true;
         error := None;
         isLoading := false |}
  | Js.Throws err =>
      {| activeSession := None;
         initialSessionLocation := None;
         showFullScreenQR := showFullScreenQR st;
         error := Some (Js.message err);
         isLoading := false |}
  end.

Section WithLocationService.

Context {locationService : LocationService}.

(** One firing of the [locationRefreshInterval] callback.  The effect
    installs the interval only while both [activeSession] and
    [initialSessionLocation] are set; otherwise nothing fires. *)
Definition refreshTick (st : Portal)
    (sample : Js.Answer LocationCoordinate) (now : Z) : Portal :=
  match activeSession st, initialSessionLocation st with
  | Some _, Some initialLocation =>
      match Js.await sample with
      | Js.Returns newLocation =>
          let distanceFromStart :=
            calculateDistance newLocation initialLocation in
          if Js.gt distanceFromStart (inject_Z MAX_FACULTY_MOVEMENT_METERS)
          then
            setError
              ("Session stopped: You moved more than "
                 ++ Js.show MAX_FACULTY_MOVEMENT_METERS
                 ++ "m from your starting location.")
              (stopSession st)
          else
            setActiveSession (Some (mkSession newLocation now)) st
      | Js.Throws err =>
          setError
            ("Could not update location: " ++ Js.message err
               ++ ". Please ensure location services are enabled.")
            st
      end
  | _, _ => st
  end.

End WithLocationService.

End FacultyPortal.

(** ** components/FacultyPortal.tsx : TimetableManager *)

Module TimetableManager.

(** React state of the form.  [duration] is integral: the field's handler
    stores [parseInt(value, 10) || 0]. *)
Record Form : Type := mkForm
  { day : string;
    time : string;
    subject : string;
    duration : Z;
    editingEntry : option TimetableEntry;
    isLoading : bool;
    error : option string;
    successMessage : option string }.

Definition rejected (f : Form) (msg : string) : Form :=
  {| day := day f;
     time := time f;
     subject := subject f;
     duration := duration f;
     editingEntry := editingEntry f;
     isLoading := isLoading f;
     error := Some msg;
     successMessage := None |}.

(** [resetForm] followed by the success message and the [finally]. *)
Definition saved (subjects : list string) (msg : string) : Form :=
  {| day := "Monday";
     time := EmptyString;
     subject := match subjects with s :: _ => s | [] => EmptyString end;
     duration := DEFAULT_CLASS_DURATION_MINS;
     editingEntry := None;
     isLoading := false;
     error := Some EmptyString;
     successMessage := Some msg |}.

Definition failed (f : Form) (err : Js.Error) : Form :=
  {| day := day f;
     time := time f;
     subject := subject f;
     duration := duration f;
     editingEntry := editingEntry f;
     isLoading := false;
     error := Some (Js.message err);
     successMessage := None |}.

Definition timeToMinutes (t : string) : option Z :=
  match map Js.Number (Js.split ":" t) with
  | Some h :: Some m :: _ => Some (h * 60 + m)
  | _ => None
  end.

(** [a < b] on numbers that may be NaN ([None]). *)
Definition lt (a b : option Z) : bool :=
  match a, b with
  | Some x, Some y => x <? y
  | _, _ => false
  end.

(** The predicate handed to [timetable.find] by the overlap check. *)
Definition conflicts (f : Form) (newStart newEnd : option Z)
    (entry : TimetableEntry) : bool :=
  if negb (String.eqb (Types.day entry) (day f)) then false
  else if match editingEntry f with
          | Some editing => String.eqb (id entry) (id editing)
          | None => false
          end
  then false
  else
    let existStart := timeToMinutes (Types.time entry) in
    let existDuration :=
      Js.orElse (Types.duration entry) DEFAULT_CLASS_DURATION_MINS in
    let existEnd := option_map (fun s => s + existDuration) existStart in
    lt newStart existEnd && lt existStart newEnd.

(** The text of the conflict error. *)
Definition conflictMessage (conflictingEntry : TimetableEntry) : string :=
  "Conflict: This overlaps with " ++ Js.quote
    ++ Types.subject conflictingEntry ++ Js.quote ++ " at "
    ++ Types.time conflictingEntry ++ ".".

(** [handleSubmit], for the props [timetable] and [subjects]; [addDoc] and
    [updateDoc] are the answers of the store to the write, should it be
    reached. *)
Definition handleSubmit (f : Form) (timetable : list TimetableEntry)
    (subjects : list string) (p : AppContext.Provider)
    (addDoc : Js.Answer string) (updateDoc : Js.Answer unit)
  : Form * AppContext.Provider :=
  if Js.falsy (time f) || Js.falsy (subject f) || (duration f <=? 0) then
    (rejected f "Time, Subject, and a valid Duration are required.", p)
  else
    let entriesForDay :=
      List.length
        (filter (fun entry => String.eqb (Types.day entry) (day f))
                timetable) in
    if match editingEntry f with
       | None => (7 <=? entriesForDay)%nat
       | Some _ => false
       end
    then
      (rejected f ("Cannot add more than 7 classes for " ++ day f ++ "."), p)
    else
      let newStart := timeToMinutes (time f) in
      let newEnd := option_map (fun s => s + duration f) newStart in
      match find (conflicts f newStart newEnd) timetable with
      | Some conflictingEntry =>
          (rejected f (conflictMessage conflictingEntry), p)
      | None =>
          match editingEntry f with
          | Some editing =>
              let entry :=
                {| id := id editing;
                   Types.day := day f;
                   Types.time := time f;
                   Types.subject := subject f;
                   department := department editing;
                   facultyId := facultyId editing;
                   facultyName := facultyName editing;
                   Types.duration := duration f |} in
              match AppContext.updateTimetableEntry p entry updateDoc with
              | (Js.Returns _, p') =>
                  (saved subjects "Timetable entry updated successfully.", p')
              | (Js.Throws err, p') => (failed f err, p')
              end
          | None =>
              let entry :=
                AppContext.mkNewEntry (day f) (time f) (subject f)
                                      (duration f) in
              match AppContext.addTimetableEntry p entry addDoc with
              | (Js.Returns _, p') =>
                  (saved subjects "Timetable entry added successfully.", p')
              | (Js.Throws err, p') => (failed f err, p')
              end
          end
      end.

(** [handleEdit]: the form loaded with a stored entry. *)
Definition handleEdit (f : Form) (entry : TimetableEntry) : Form :=
  {| day := Types.day entry;
     time := Types.time entry;
     subject := Types.subject entry;
     duration :=
       Js.orElse (Types.duration entry) DEFAULT_CLASS_DURATION_MINS;
     editingEntry := Some entry;
     isLoading := isLoading f;
     error := None;
     successMessage := None |}.

Definition DAYS_OF_WEEK : list string :=
  ["Monday"; "Tuesday"; "Wednesday"; "Thursday"; "Friday"; "Saturday";
   "Sunday"].

(** [todayDay] of [handleJumpToToday], also the initial [viewedDay]. *)
Definition todayDay (now : Js.Date) : option string :=
  let todayIndex := Js.getDay now in
  nth_error DAYS_OF_WEEK
            (if (todayIndex =? 0)%nat then 6%nat else (todayIndex - 1)%nat).

(** [canAddMore], which enables the Add button. *)
Definition canAddMore (f : Form) (timetable : list TimetableEntry) : bool :=
  (List.length
     (filter (fun e => String.eqb (Types.day e) (day f)) timetable) <? 7)%nat.

(** The effect that keeps [subject] among the faculty's [subjects]. *)
Definition syncSubject (subjects : list string) (f : Form) : Form :=
  let setSubject (s : string) :=
    {| day := day f;
       time := time f;
       subject := s;
       duration := duration f;
       editingEntry := editingEntry f;
       isLoading := isLoading f;
       error := error f;
       successMessage := successMessage f |} in
  match subjects with
  | first :: _ =>
      if negb (existsb (String.eqb (subject f)) subjects)
      then setSubject first else f
  | [] => setSubject EmptyString
  end.

End TimetableManager.

(** ** components/FacultyPortal.tsx : AttendanceReport *)

Module AttendanceReport.

(** The filters of the report; an empty string is a filter not set. *)
Record Filters : Type := mkFilters
  { selectedStudent : string;
    startDate : string;
    endDate : string }.

(** The memoised [filteredAttendance]. *)
Definition filteredAttendance (f : Filters)
    (attendance : list AttendanceRecord) : list AttendanceRecord :=
  let result := attendance in
  let result :=
    if Js.falsy (selectedStudent f) then result
    else filter (fun rec =>
                   String.eqb (studentId (recordData rec)) (selectedStudent f))
                result in
  let result :=
    if Js.falsy (startDate f) then result
    else filter (fun rec => Js.geString (date (recordData rec)) (startDate f))
                result in
  let result :=
    if Js.falsy (endDate f) then result
    else filter (fun rec => Js.leString (date (recordData rec)) (endDate f))
                result in
  result.

End AttendanceReport.

(** ** The [Auth] component *)

Module Auth.

(** The state update of [handleSubjectChange]: the subject is taken out of
    the chosen ones if it is among them, and added at the end if not. *)
Definition handleSubjectChange (subject : string) (prev : list string)
  : list string :=
  if existsb (String.eqb subject) prev
  then filter (fun s => negb (String.eqb s subject)) prev
  else (prev ++ [subject])%list.

End Auth.

(** * Vocabulary of the properties *)

(** A location service for the worked examples: coordinates on a metric
    grid, distance measured along the axes. *)
Definition gridService : LocationService :=
  {| calculateDistance a b :=
       (Qabs (latitude a - latitude b) + Qabs (longitude a - longitude b))%Q |}.

Definition campus : LocationCoordinate := mkLocation 0 0.

Section ScanVocabulary.

Import StudentPortal.




End ScanVocabulary.

Section DecisionVocabulary.

Import StudentPortal.

(** The attempt went down the accept branch: attendance was marked, or the
    class resolution or the store failed. *)
Definition accepted (outcome : Js.Completion Verdict) : Prop :=
  match outcome with
  | Js.Returns (Marked _) => True
  | Js.Returns (RetryOffered _) => False
  | Js.Throws e =>
      Js.origin e = Js.NoClassScheduled
      \/ Js.origin e = Js.Application
      \/ Js.origin e = Js.Collaborator
  end.

(** The attempt ended with the offer of a retry. *)
Definition retryOffered (outcome : Js.Completion Verdict) : Prop :=
  exists pct, outcome = Js.Returns (RetryOffered pct).

(** The attempt was rejected from [origin], with the message [template]. *)
Definition rejectedWith (origin : Js.Origin) (template : Z -> string)
    (outcome : Js.Completion Verdict) : Prop :=
  exists pct, outcome = Js.Throws (Js.error origin (template pct)).

End DecisionVocabulary.

(** Data of the worked examples. *)
Definition alice : Student := mkStudent "u1" "Alice" "face".

Definition mathEntry : TimetableEntry :=
  mkEntry "a" "Monday" "09:00" "Math" "CSE" "f1" "Dr. Rao" 45.

Definition studentProvider : AppContext.Provider :=
  AppContext.mkProvider (Some (AppContext.mkFirestore [] [mathEntry]))
                        (Some "u1") (Some AppContext.student) None.

(** The dashboard right after a successful scan. *)
Definition scanned : StudentPortal.Dashboard :=
  StudentPortal.mkDashboard true
    "Location verified. Please confirm your identity." true false
    (Some (mkSession campus 1000)) false false.

Section PipelineVocabulary.

Context {locationService : LocationService}.

Import StudentPortal.

(** What drives the attendee's pipeline: a scanned code, or a captured
    face, each with the answers of the collaborators involved. *)
Inductive Event : Type :=
| Scan (parsed : Js.Answer ScannedObject) (now : Z)
       (sample : Js.Answer LocationCoordinate)
| Capture (verification : Js.Answer VerificationResult) (now : Js.Date)
          (today : string) (addDoc : Js.Answer string).

(** The component and the store it writes to, over one event. *)
Definition step (user : Student) (timetable : list TimetableEntry)
    (c : Dashboard * AppContext.Provider) (ev : Event)
  : Dashboard * AppContext.Provider :=
  match ev with
  | Scan parsed now sample => (handleQrScan (fst c) parsed now sample, snd c)
  | Capture verification now today addDoc =>
      handleVerification (fst c) user timetable (snd c)
                         verification now today addDoc
  end.

(** The event is a capture that is accepted, finds a class in session and
    has its record taken by the store. *)
Definition succeeds (timetable : list TimetableEntry)
    (c : Dashboard * AppContext.Provider) (ev : Event) : Prop :=
  match ev with
  | Capture (Js.Resolves r) now today (Js.Resolves newId) =>
      scannedSession (fst c) <> None
      /\ vmatch r = true
      /\ (CONFIDENCE_THRESHOLD <= confidence r)%Q
      /\ resolveClass now timetable <> None
      /\ AppContext.db (snd c) <> None
  | _ => False
  end.

(** The attendance ledger of the store. *)
Definition ledger (p : AppContext.Provider) : list AttendanceRecord :=
  match AppContext.db p with
  | Some store => AppContext.attendanceCollection store
  | None => []
  end.

End PipelineVocabulary.

Section SessionVocabulary.

Context {locationService : LocationService}.

Import FacultyPortal.

(** A session through a series of refresh ticks, each with the answer of
    the geolocation service and the reading of the clock. *)
Definition runTicks (st : Portal)
    (ticks : list (Js.Answer LocationCoordinate * Z)) : Portal :=
  fold_left (fun s tick => refreshTick s (fst tick) (snd tick)) ticks st.

(** The drift check still measures from [anchor], or the session is over. *)
Definition anchoredAt (anchor : LocationCoordinate) (st : Portal) : Prop :=
  initialSessionLocation st = Some anchor
  \/ (activeSession st = None /\ initialSessionLocation st = None).

End SessionVocabulary.

Section ScheduleVocabulary.

(** The text of a clock field: HH:MM, zero-padded. *)
Definition clock (h m : Z) : string :=
  Js.padStart2 (Js.show h) ++ ":" ++ Js.padStart2 (Js.show m).

(** The entry's [time] is a clock field, as the time input produces it. *)
Definition wellTimed (entry : TimetableEntry) : Prop :=
  exists h m, 0 <= h < 24 /\ 0 <= m < 60 /\ time entry = clock h m.

(** The start of an entry, in minutes from midnight. *)
Definition startOf (entry : TimetableEntry) : Z :=
  match TimeUtils.startTimeValue (time entry) with
  | Some v => v
  | None => 0
  end.

(** The entries of the day of index [k] (0 is Sunday). *)
Definition entriesOn (k : nat) (timetable : list TimetableEntry)
  : list TimetableEntry :=
  filter (TimeUtils.onDay (nth_error TimeUtils.DAYS_OF_WEEK k)) timetable.

(** The entries of day [k] that start strictly after [minutes]. *)
Definition upcomingOn (k : nat) (minutes : Z)
    (timetable : list TimetableEntry) : list TimetableEntry :=
  filter (fun entry => startOf entry >? minutes) (entriesOn k timetable).

(** [entry] is one of [candidates] and none of them starts earlier. *)
Definition earliestAmong (candidates : list TimetableEntry)
    (entry : TimetableEntry) : Prop :=
  In entry candidates
  /\ forall other, In other candidates -> startOf entry <= startOf other.

(** The list is in ascending order of [key]. *)
Definition ascending {A : Type} (key : A -> Z) : list A -> Prop :=
  StronglySorted (fun a b => key a <= key b).

End ScheduleVocabulary.

Section ScheduleLoopVocabulary.

(** The sort key of an entry of [todayEntries]: its [startTimeValue]. *)
Definition pairKey (p : TimetableEntry * option Z) : Z :=
  match snd p with
  | Some v => v
  | None => 0
  end.

(** The test [startTime > nowTimeValue] of the loop over [todayEntries]. *)
Definition later (minutes : Z) (p : TimetableEntry * option Z) : bool :=
  match snd p with
  | Some v => v >? minutes
  | None => false
  end.

(** The entries of [todayEntries] before they are sorted. *)
Definition timed (entries : list TimetableEntry)
  : list (TimetableEntry * option Z) :=
  map (fun entry => (entry, TimeUtils.startTimeValue (time entry))) entries.

End ScheduleLoopVocabulary.

Section TimetableVocabulary.

Import TimetableManager.

(** The half-open interval [start, start + duration) of a class, in minutes
    from midnight; none when the time does not read as a number. *)
Definition interval (time : string) (duration : Z) : option (Z * Z) :=
  option_map (fun start => (start, start + duration)) (timeToMinutes time).

Definition entryInterval (entry : TimetableEntry) : option (Z * Z) :=
  interval (Types.time entry)
           (Js.orElse (Types.duration entry) DEFAULT_CLASS_DURATION_MINS).

(** Two intervals share a minute. *)
Definition overlap (a b : option (Z * Z)) : Prop :=
  match a, b with
  | Some (s1, e1), Some (s2, e2) => exists t, s1 <= t < e1 /\ s2 <= t < e2
  | _, _ => False
  end.

(** No two entries of the same day overlap. *)
Definition overlapFree (docs : list TimetableEntry) : Prop :=
  forall a b,
    In a docs -> In b docs -> id a <> id b -> Types.day a = Types.day b ->
    ~ overlap (entryInterval a) (entryInterval b).

(** The submitted class overlaps an entry of the same day other than the
    one being edited. *)
Definition clashes (f : Form) (timetable : list TimetableEntry) : Prop :=
  exists entry,
    In entry timetable
    /\ Types.day entry = day f
    /\ (forall editing, editingEntry f = Some editing -> id entry <> id editing)
    /\ overlap (interval (time f) (duration f)) (entryInterval entry).

(** The form passes the required-fields check. *)
Definition filled (f : Form) : Prop :=
  time f <> EmptyString /\ subject f <> EmptyString /\ 0 < duration f.

(** The number of entries the timetable has on the chosen day. *)
Definition entriesForDay (f : Form) (timetable : list TimetableEntry) : nat :=
  List.length
    (filter (fun entry => String.eqb (Types.day entry) (day f)) timetable).

(** The text of the per-day cap error. *)
Definition capMessage (f : Form) : string :=
  "Cannot add more than 7 classes for " ++ day f ++ ".".

(** The timetable collection of the store. *)
Definition timetableOf (p : AppContext.Provider) : list TimetableEntry :=
  match AppContext.db p with
  | Some store => AppContext.timetableCollection store
  | None => []
  end.

End TimetableVocabulary.

(** Data of the worked examples: a Monday with seven classes, on the hour
    from 08:00, and the faculty member who owns them. *)
Definition mondayClass (n : Z) (name : string) : TimetableEntry :=
  mkEntry name "Monday" (clock (8 + n) 0) "Math" "CSE" "f1" "Dr. Rao" 45.

Definition fullMonday : list TimetableEntry :=
  [mondayClass 0 "m1"; mondayClass 1 "m2"; mondayClass 2 "m3";
   mondayClass 3 "m4"; mondayClass 4 "m5"; mondayClass 5 "m6";
   mondayClass 6 "m7"].

Definition drRao : Faculty := mkFaculty "f1" "Dr. Rao" "CSE" ["Math"].

Definition facultyProvider : AppContext.Provider :=
  AppContext.mkProvider (Some (AppContext.mkFirestore [] fullMonday))
                        (Some "f1") (Some AppContext.faculty) (Some drRao).

(** A new class on Monday at 08:30, for 45 minutes. *)
Definition halfPastEight : TimetableManager.Form :=
  TimetableManager.mkForm "Monday" (clock 8 30) "Math" 45 None false None None.

(** The first class of the full Monday, being moved to 15:00. *)
Definition movedToThree : TimetableManager.Form :=
  TimetableManager.mkForm "Monday" (clock 15 0) "Math" 45
                          (Some (mondayClass 0 "m1")) false None None.

Section PurgeVocabulary.

Import AppContext.

(** The records of the ledger whose subject is one of the faculty's. *)
Definition matching (f : Faculty) (records : list AttendanceRecord)
  : list AttendanceRecord :=
  filter (fun doc =>
            existsb (String.eqb (recordSubject (recordData doc))) (subjects f))
         records.

(** The batches, out of the first [n], whose commit failed. *)
Definition failedBatches (n : nat) (commit : nat -> Js.Settled) : list nat :=
  filter (fun k => match commit k with
                   | Js.Rejected _ => true
                   | Js.Fulfilled => false
                   end)
         (seq 0 n).

(** The [n] commits in the order in which they settle: those
    [settleOrder] lists, in its order, then the others by index. *)
Definition settled (n : nat) (settleOrder : list nat) : list nat :=
  (filter (fun k => k <? n)%nat settleOrder ++ seq 0 n)%list.

(** [e] is the error of the commit that is the first to fail: every commit
    settled before it fulfilled. *)
Definition firstFailure (n : nat) (commit : nat -> Js.Settled)
    (settleOrder : list nat) (e : Js.Error) : Prop :=
  exists before k after,
    settled n settleOrder = (before ++ k :: after)%list
    /\ (forall j, In j before -> commit j = Js.Fulfilled)
    /\ commit k = Js.Rejected e.

(** The document is deleted by a batch whose commit fulfilled. *)
Definition deletedBy (commit : nat -> Js.Settled)
    (batches : list (list AttendanceRecord)) (doc : AttendanceRecord) : Prop :=
  exists k batch,
    nth_error batches k = Some batch
    /\ commit k = Js.Fulfilled
    /\ In (recordId doc) (map recordId batch).

End PurgeVocabulary.

(** Data of the worked examples: a ledger of 1200 records of two subjects
    taught by one faculty member, and 50 records of a third subject. *)
Definition attendanceOf (subject : string) (k : nat) : AttendanceRecord :=
  mkAttendanceRecord (subject ++ Js.show (Z.of_nat k))
    (mkAttendanceData "u1" "Alice" subject "2025-01-06" present).

Definition bigLedger : list AttendanceRecord :=
  (map (attendanceOf "Math") (seq 0 600)
     ++ map (attendanceOf "Chemistry") (seq 0 50)
     ++ map (attendanceOf "Physics") (seq 0 600))%list.

Definition drBose : Faculty :=
  mkFaculty "f2" "Dr. Bose" "CSE" ["Math"; "Physics"].

Definition purgeProvider : AppContext.Provider :=
  AppContext.mkProvider (Some (AppContext.mkFirestore bigLedger []))
                        (Some "f2") (Some AppContext.faculty) (Some drBose).

Definition quotaError : Js.Error :=
  Js.mkError Js.Collaborator "resource-exhausted" "Quota exceeded.".

Definition offlineError : Js.Error :=
  Js.mkError Js.Collaborator "unavailable" "The service is unavailable.".

(** Only the second batch fails. *)
Definition secondFails (k : nat) : Js.Settled :=
  match k with
  | 1%nat => Js.Rejected quotaError
  | _ => Js.Fulfilled
  end.

(** The read of the ledger fails. *)
Definition readFails : Js.Answer unit :=
  Js.Fails "permission-denied" "Missing or insufficient permissions.".

(** The second batch fails and then the third. *)
Definition secondAndThirdFail (k : nat) : Js.Settled :=
  match k with
  | 1%nat => Js.Rejected quotaError
  | 2%nat => Js.Rejected offlineError
  | _ => Js.Fulfilled
  end.

(** * Vocabulary of the further properties *)

Section LedgerVocabulary.

(** The ids are document ids, ones the store builds references from: none
    is empty and none holds the path separator. *)
Definition referable (ids : list string) : Prop :=
  Forall (fun id => id <> EmptyString /\ Js.includes id "/" = false) ids.

(** The place of an entry in the week and the day: the rank of its day in
    [daysOfWeekOrder] (-1 for any other day), then its start. *)
Definition rank (entry : TimetableEntry) : Z :=
  AppContext.indexOf (day entry) AppContext.daysOfWeekOrder * 1440
  + startOf entry.

End LedgerVocabulary.

(** Data of the worked examples: three records, two of them Alice's. *)
Definition smallLedger : list AttendanceRecord :=
  [mkAttendanceRecord "r1"
     (mkAttendanceData "u1" "Alice" "Math" "2025-01-06" present);
   mkAttendanceRecord "r2"
     (mkAttendanceData "u2" "Bob" "Math" "2025-01-06" absent);
   mkAttendanceRecord "r3"
     (mkAttendanceData "u1" "Alice" "Physics" "2025-01-07" present)].

Definition smallProvider : AppContext.Provider :=
  AppContext.mkProvider (Some (AppContext.mkFirestore smallLedger [mathEntry]))
                        (Some "f1") (Some AppContext.faculty) (Some drRao).

(** Data of the worked examples: the two registered students. *)
Definition bob : Student := mkStudent "u2" "Bob" "face2".

Definition roster : list Student := [alice; bob].

Section CurrentClassVocabulary.

(** The class is in session at [minutes] from midnight, by the rule of
    [getScheduleStatus]: started, and not yet at its end. *)
Definition holdsNow (minutes : Z) (entry : TimetableEntry) : bool :=
  (startOf entry <=? minutes)
  && (minutes <? startOf entry
                 + Js.orElse (duration entry) DEFAULT_CLASS_DURATION_MINS).

(** The test of the loop over [todayEntries] that sets [currentClassId]. *)
Definition current (minutes : Z) (p : TimetableEntry * option Z) : bool :=
  match snd p with
  | Some startTime =>
      (minutes >=? startTime)
      && (minutes <? startTime
                     + Js.orElse (duration (fst p))
                                 DEFAULT_CLASS_DURATION_MINS)
  | None => false
  end.

(** The reading of the clock is one a [Date] gives. *)
Definition validClock (now : Js.Date) : Prop :=
  0 <= Js.getHours now < 24 /\ 0 <= Js.getMinutes now < 60.

(** No class of the day ends at [minutes] sharp. *)
Definition noneEndsAt (minutes : Z) (entries : list TimetableEntry) : Prop :=
  forall entry,
    In entry entries ->
    startOf entry + Js.orElse (duration entry) DEFAULT_CLASS_DURATION_MINS
    <> minutes.

End CurrentClassVocabulary.

Section TextVocabulary.

(** Every character of the string is white space. *)
Fixpoint blank (s : string) : bool :=
  match s with
  | EmptyString => true
  | String c rest => Js.isSpace c && blank rest
  end.

(** The character does not occur in the string. *)
Fixpoint lacks (c : ascii) (s : string) : bool :=
  match s with
  | EmptyString => true
  | String d rest => negb (Ascii.eqb d c) && lacks c rest
  end.

End TextVocabulary.

Section SubmissionVocabulary.

Import TimetableManager.

(** The provider can write a timetable entry: the store is configured,
    someone is signed in and their faculty profile, department included, is
    loaded. *)
Definition ready (p : AppContext.Provider) : Prop :=
  exists store userUid profile,
    AppContext.db p = Some store
    /\ AppContext.currentUser p = Some userUid
    /\ AppContext.currentFaculty p = Some profile
    /\ facultyDepartment profile <> EmptyString.

(** No stored class has a negative duration. *)
Definition soundDurations (timetable : list TimetableEntry) : Prop :=
  Forall (fun entry => 0 <= Types.duration entry) timetable.

(** The faculty has subjects, none of them with an empty name. *)
Definition named (subjects : list string) : Prop :=
  subjects <> [] /\ Forall (fun s => s <> EmptyString) subjects.

End SubmissionVocabulary.

(** A new class on Monday at 10:00, for 45 minutes. *)
Definition atTen : TimetableManager.Form :=
  TimetableManager.mkForm "Monday" (clock 10 0) "Math" 45 None false None None.

Section RecoveryVocabulary.

(** The message is one the catch of [handleVerification] takes for a
    missing or invalid API key. *)
Definition aboutApiKey (msg : string) : bool :=
  Js.includes msg "API key not valid"
  || Js.includes msg "API_KEY_INVALID"
  || Js.includes msg "Gemini API key is not configured".

End RecoveryVocabulary.

Section ReportVocabulary.

(** The text of a date as a date field and [toISOString] give it:
    YYYY-MM-DD, zero-padded. *)
Definition isoDate (y m d : Z) : string :=
  Js.padStart2 (Js.show (y / 100)) ++ Js.padStart2 (Js.show (y mod 100))
    ++ "-" ++ Js.padStart2 (Js.show m) ++ "-" ++ Js.padStart2 (Js.show d).

(** [s] is the text of a date, and [n] its place in the calendar: dates
    are in the order of these numbers. *)
Definition calendar (s : string) (n : Z) : Prop :=
  exists y m d,
    0 <= y < 10000 /\ 1 <= m <= 12 /\ 1 <= d <= 31
    /\ s = isoDate y m d /\ n = y * 10000 + m * 100 + d.

End ReportVocabulary.

(** Data of the worked examples: the first week of 2025. *)
Definition firstWeek : AttendanceReport.Filters :=
  AttendanceReport.mkFilters "u1" "2025-01-01" "2025-01-07".

Section TallyVocabulary.

(** The subject is named like a property every object inherits. *)
Definition inherited (subject : string) : bool :=
  existsb (String.eqb subject) StudentPortal.inheritedKeys.

(** The number of records of the subject, and of those marked present. *)
Definition taken (subject : string) (attendance : list AttendanceRecord)
  : Z :=
  Z.of_nat
    (List.length
       (filter (fun r => String.eqb (recordSubject (recordData r)) subject)
               attendance)).

Definition attended (subject : string) (attendance : list AttendanceRecord)
  : Z :=
  Z.of_nat
    (List.length
       (filter (fun r => String.eqb (recordSubject (recordData r)) subject
                         && StudentPortal.isPresent r)
               attendance)).

(** The value [subjectStats[key]] when [key] is an own property. *)
Fixpoint own {A : Type} (key : string) (object : list (string * A))
  : option A :=
  match object with
  | [] => None
  | (k, v) :: others => if String.eqb k key then Some v else own key others
  end.

(** What [subjectStats] holds once the records [seen] have gone through
    the loop. *)
Definition tallied (seen : list AttendanceRecord)
    (subjectStats : list (string * StudentPortal.Counts)) : Prop :=
  NoDup (map fst subjectStats)
  /\ forall key,
       own key subjectStats
       = if (0 <? taken key seen) && negb (inherited key)
         then Some {| StudentPortal.presentCount := attended key seen;
                      StudentPortal.totalCount := taken key seen |}
         else None.

End TallyVocabulary.

Section AttemptVocabulary.

Import StudentPortal.

(** The dashboard with [session] as its scanned session. *)
Definition withSession (st : Dashboard) (session : SessionData) : Dashboard :=
  {| isLoading := isLoading st;
     status := status st;
     showFaceCapture := showFaceCapture st;
     showScanner := showScanner st;
     scannedSession := Some session;
     retryAttempted := retryAttempted st;
     showApiKeyInput := showApiKeyInput st |}.

(** The matcher's result is in the band that earns a retry: a match with
    confidence from the retry threshold up to, but not at, the accept
    threshold. *)
Definition retryBand (r : VerificationResult) : Prop :=
  vmatch r = true
  /\ (RETRY_CONFIDENCE_THRESHOLD <= confidence r)%Q
  /\ (confidence r < CONFIDENCE_THRESHOLD)%Q.

End AttemptVocabulary.

(** Data of the worked examples: the dashboard after the retry was
    offered, and a result in the retry band. *)
Definition retried : StudentPortal.Dashboard :=
  StudentPortal.mkDashboard false "Almost there!" true false
    (Some (mkSession campus 1000)) true false.

Definition fair : VerificationResult := mkVerification true (8 # 10).

Section CalendarVocabulary.

(** The name of the day of index [k], as [Date.prototype.getDay] counts
    the days: 0 is Sunday. *)
Definition weekday (k : nat) : option string :=
  match k with
  | 0%nat => Some "Sunday"
  | 1%nat => Some "Monday"
  | 2%nat => Some "Tuesday"
  | 3%nat => Some "Wednesday"
  | 4%nat => Some "Thursday"
  | 5%nat => Some "Friday"
  | 6%nat => Some "Saturday"
  | _ => None
  end.

(** The entry is held on the day of index [k]. *)
Definition heldOn (k : nat) (entry : TimetableEntry) : Prop :=
  weekday k = Some (day entry).

(** The entry starts [v] minutes after midnight: its time is the clock
    field of an hour and a minute that make [v]. *)
Definition startsAt (entry : TimetableEntry) (v : Z) : Prop :=
  exists h m,
    0 <= h < 24 /\ 0 <= m < 60 /\ time entry = clock h m /\ v = h * 60 + m.

(** [entry] is an entry of the timetable held on day [k], starting at
    [v]. *)
Definition dueOn (k : nat) (timetable : list TimetableEntry)
    (entry : TimetableEntry) (v : Z) : Prop :=
  In entry timetable /\ heldOn k entry /\ startsAt entry v.

(** [entry] is held on day [k] and starts at [v], after [minutes]. *)
Definition dueAfter (k : nat) (minutes : Z) (timetable : list TimetableEntry)
    (entry : TimetableEntry) (v : Z) : Prop :=
  dueOn k timetable entry v /\ minutes < v.

End CalendarVocabulary.

Section OverlapVocabulary.

Import TimetableManager.

(** The stored class takes the minutes from [s] up to, but not at, [e]:
    it starts at [s] and has a duration, which ends it at [e]. *)
Definition occupies (entry : TimetableEntry) (s e : Z) : Prop :=
  startsAt entry s /\ 0 < Types.duration entry
  /\ e = s + Types.duration entry.

(** The form asks for the minutes from [s] up to, but not at, [e]. *)
Definition asks (f : Form) (s e : Z) : Prop :=
  (exists h m,
      0 <= h < 24 /\ 0 <= m < 60 /\ time f = clock h m /\ s = h * 60 + m)
  /\ 0 < duration f /\ e = s + duration f.

(** The two intervals share a minute. *)
Definition meet (s1 e1 s2 e2 : Z) : Prop :=
  exists t, s1 <= t < e1 /\ s2 <= t < e2.

(** The submission overlaps an entry of [timetable], of the same day and
    other than the one being edited. *)
Definition collides (f : Form) (timetable : list TimetableEntry) : Prop :=
  exists entry s1 e1 s2 e2,
    In entry timetable
    /\ Types.day entry = day f
    /\ (forall editing, editingEntry f = Some editing ->
                        id entry <> id editing)
    /\ asks f s1 e1 /\ occupies entry s2 e2 /\ meet s1 e1 s2 e2.

(** No two entries of one day overlap. *)
Definition apart (docs : list TimetableEntry) : Prop :=
  forall a b s1 e1 s2 e2,
    In a docs -> In b docs -> id a <> id b -> Types.day a = Types.day b ->
    occupies a s1 e1 -> occupies b s2 e2 -> ~ meet s1 e1 s2 e2.


End OverlapVocabulary.

(** Data of the worked examples: a Monday morning with two classes, at
    08:00 and 09:00, and a new class on Monday at 09:00. *)
Definition mondayMorning : list TimetableEntry :=
  [mondayClass 0 "m1"; mondayClass 1 "m2"].

Definition morningProvider : AppContext.Provider :=
  AppContext.mkProvider (Some (AppContext.mkFirestore [] mondayMorning))
                        (Some "f1") (Some AppContext.faculty) (Some drRao).

Definition atNine : TimetableManager.Form :=
  TimetableManager.mkForm "Monday" (clock 9 0) "Math" 45 None false None None.

(** * Verified properties *)

Lemma gt_spec (x y : Q) : Js.gt x y = true <-> (y < x)%Q.
Proof.
  unfold Js.gt. rewrite negb_true_iff.
  split; intro Hgt.
  - apply Qnot_le_lt. intro Hle. apply Qle_bool_iff in Hle. congruence.
  - destruct (Qle_bool x y) eqn:Hle; [|reflexivity].
    apply Qle_bool_iff in Hle. exfalso. exact (Qlt_not_le _ _ Hgt Hle).
Qed.

Lemma gt_false (x y : Q) : Js.gt x y = false <-> (x <= y)%Q.
Proof.
  unfold Js.gt. rewrite negb_false_iff. apply Qle_bool_iff.
Qed.

Lemma ge_spec (x y : Q) : Js.ge x y = true <-> (y <= x)%Q.
Proof. unfold Js.ge. apply Qle_bool_iff. Qed.

Section ScanChecks.

Context {locationService : LocationService}.

Import StudentPortal.






End ScanChecks.



Section DecisionPolicy.

Import StudentPortal.

Lemma ge_false (x y : Q) : Js.ge x y = false <-> (x < y)%Q.
Proof.
  unfold Js.ge. split; intro H.
  - apply Qnot_le_lt. intro Hle. apply Qle_bool_iff in Hle. congruence.
  - destruct (Qle_bool y x) eqn:Hle; [|reflexivity].
    apply Qle_bool_iff in Hle. exfalso. exact (Qlt_not_le _ _ H Hle).
Qed.

Lemma rejection_messages_differ (a b : Z) :
  notRecognizedMessage a <> tooLowMessage b.
Proof. unfold notRecognizedMessage, tooLowMessage. simpl. discriminate. Qed.

Lemma accept_branch user timetable retried p r now today addDoc :
  vmatch r = true ->
  (CONFIDENCE_THRESHOLD <= confidence r)%Q ->
  accepted (fst (verifyTry user timetable retried p (Js.Resolves r)
                           now today addDoc)).
Proof.
  intros Hmatch Hconf. apply ge_spec in Hconf.
  unfold verifyTry. cbn [Js.await]. rewrite Hmatch, Hconf. cbn [andb].
  destruct (resolveClass now timetable) as [currentClass|];
    [|simpl; auto].
  unfold AppContext.addAttendanceRecord.
  destruct (AppContext.db p) as [store|]; [|simpl; auto].
  destruct addDoc as [newId | c msg]; simpl; auto.
Qed.

(** The percentage is taken of the product as the machine holds it: at
    the number it holds for 0.815 that is 82, one above the rounding of the
    exact product. *)
Lemma percentage_of_held_product :
  Js.round (Js.times (Js.binary64 (815 # 1000)) 100) = 82
  /\ Js.round (Js.binary64 (815 # 1000) * 100) = 81.
Proof. split; vm_compute; reflexivity. Qed.

Lemma retry_branch user timetable p r now today addDoc :
  vmatch r = true ->
  (confidence r < CONFIDENCE_THRESHOLD)%Q ->
  (RETRY_CONFIDENCE_THRESHOLD <= confidence r)%Q ->
  verifyTry user timetable false p (Js.Resolves r) now today addDoc
  = (Js.Returns (RetryOffered (Js.round (Js.times (confidence r) 100))), p).
Proof.
  intros Hmatch Hlow Hmid. apply ge_false in Hlow. apply ge_spec in Hmid.
  unfold verifyTry. cbn [Js.await]. rewrite Hmatch, Hlow, Hmid. reflexivity.
Qed.

Lemma no_match_branch user timetable retried p r now today addDoc :
  vmatch r = false ->
  verifyTry user timetable retried p (Js.Resolves r) now today addDoc
  = (Js.Throws (Js.error Js.FaceNotRecognized
                  (notRecognizedMessage (Js.round (Js.times (confidence r) 100)))), p).
Proof.
  intro Hmatch. unfold verifyTry. cbn [Js.await]. rewrite Hmatch. reflexivity.
Qed.

Lemma low_confidence_branch user timetable retried p r now today addDoc :
  vmatch r = true ->
  (confidence r < CONFIDENCE_THRESHOLD)%Q ->
  (confidence r < RETRY_CONFIDENCE_THRESHOLD)%Q \/ retried = true ->
  verifyTry user timetable retried p (Js.Resolves r) now today addDoc
  = (Js.Throws (Js.error Js.ConfidenceTooLow
                  (tooLowMessage (Js.round (Js.times (confidence r) 100)))), p).
Proof.
  intros Hmatch Hlow Hwhy. apply ge_false in Hlow.
  unfold verifyTry. cbn [Js.await]. rewrite Hmatch, Hlow. cbn [andb negb].
  destruct Hwhy as [Hbelow | Hused].
  - apply ge_false in Hbelow. rewrite Hbelow. reflexivity.
  - rewrite Hused. rewrite andb_false_r. reflexivity.
Qed.

Lemma no_second_retry user timetable p v now today addDoc :
  ~ retryOffered (fst (verifyTry user timetable true p v now today addDoc)).
Proof.
  intros [pct Hoffer]. unfold verifyTry in Hoffer.
  destruct (Js.await v) as [r | e]; [|discriminate].
  destruct (vmatch r && Js.ge (confidence r) CONFIDENCE_THRESHOLD).
  - destruct (resolveClass now timetable) as [currentClass|]; [|discriminate].
    destruct (AppContext.addAttendanceRecord _ _ _) as [[u | e] p'];
      discriminate.
  - rewrite andb_false_r in Hoffer.
    destruct (negb (vmatch r)); discriminate.
Qed.

Lemma lacks_append c a b : lacks c (a ++ b) = lacks c a && lacks c b.
Proof.
  induction a as [|d a IH]; simpl; [reflexivity|].
  rewrite IH. apply andb_assoc.
Qed.

Lemma lacks_show c z : lacks c "-0123456789" = true -> lacks c (Js.show z) = true.
Proof.
  intro H. cbn [lacks] in H.
  repeat (apply andb_true_iff in H; destruct H as [?H H]).
  assert (Huint : forall u, lacks c (NilEmpty.string_of_uint u) = true).
  { induction u as [|u IH|u IH|u IH|u IH|u IH|u IH|u IH|u IH|u IH|u IH];
      cbn [NilEmpty.string_of_uint lacks]; try reflexivity;
      rewrite IH, andb_true_r; assumption. }
  assert (Hzero : forall u, lacks c (NilZero.string_of_uint u) = true).
  { intro u. unfold NilZero.string_of_uint.
    destruct u; try apply Huint. cbn [lacks]. rewrite andb_true_r.
    assumption. }
  unfold Js.show, NilZero.string_of_int.
  destruct (Z.to_int z) as [u | u]; [apply Hzero|].
  cbn [lacks]. rewrite Hzero, andb_true_r. assumption.
Qed.

Lemma lacking_excludes c sub s :
  lacks c s = true -> Js.includes s (String c sub) = false.
Proof.
  unfold Js.includes. intro H.
  assert (Hnone : String.index 0 (String c sub) s = None).
  { induction s as [|d s IH]; [reflexivity|].
    cbn [lacks] in H. apply andb_true_iff in H. destruct H as [Hd Hs].
    apply negb_true_iff in Hd. apply Ascii.eqb_neq in Hd.
    cbn [String.index String.prefix].
    destruct (ascii_dec c d) as [E | _]; [congruence|].
    rewrite (IH Hs). reflexivity. }
  rewrite Hnone. reflexivity.
Qed.

(** The two rejection messages are never taken for an API-key error. *)
Lemma rejection_not_about_key (pct : Z) :
  aboutApiKey (notRecognizedMessage pct) = false
  /\ aboutApiKey (tooLowMessage pct) = false.
Proof.
  assert (Hshow : forall c z, lacks c "-0123456789" = true ->
                              lacks c (Js.show z) = true)
    by (intros c z Hc; apply lacks_show; exact Hc).
  assert (HA1 : lacks "A" (notRecognizedMessage pct) = true).
  { unfold notRecognizedMessage. rewrite !lacks_append.
    rewrite (Hshow "A"%char pct eq_refl). reflexivity. }
  assert (HG1 : lacks "G" (notRecognizedMessage pct) = true).
  { unfold notRecognizedMessage. rewrite !lacks_append.
    rewrite (Hshow "G"%char pct eq_refl). reflexivity. }
  assert (HA2 : lacks "A" (tooLowMessage pct) = true).
  { unfold tooLowMessage, Js.showNumber. rewrite !lacks_append.
    rewrite (Hshow "A"%char pct eq_refl).
    rewrite (Hshow "A"%char (Qfloor (CONFIDENCE_THRESHOLD * 100)) eq_refl).
    reflexivity. }
  assert (HG2 : lacks "G" (tooLowMessage pct) = true).
  { unfold tooLowMessage, Js.showNumber. rewrite !lacks_append.
    rewrite (Hshow "G"%char pct eq_refl).
    rewrite (Hshow "G"%char (Qfloor (CONFIDENCE_THRESHOLD * 100)) eq_refl).
    reflexivity. }
  unfold aboutApiKey.
  rewrite !(lacking_excludes "A" _ _ HA1), !(lacking_excludes "A" _ _ HA2).
  rewrite (lacking_excludes "G" _ _ HG1), (lacking_excludes "G" _ _ HG2).
  split; reflexivity.
Qed.

(** C1: Confidence-gated decision policy.  For an attempt on a scanned
    session whose matcher result is [(match, confidence)] and whose retry
    flag is [retryAttempted]: a match with confidence at least 0.9 is
    accepted: the handler closes the capture and goes on to the class in
    session, marking attendance with the success message when there is one
    and the store takes the record, and ending with the no-class error when
    there is none.  Otherwise a match with confidence at least 0.75 and no
    retry used yet is offered a retry: nothing is written, the handler
    shows the retry message, reopens the capture and sets the flag, after
    which no further retry is ever offered.  Otherwise the attempt is
    rejected: nothing is written, the capture is closed, the flag cleared,
    and the status is one message when there is no match and a different
    one when the match has too low a confidence. *)
Theorem confidence_gated_decision :
  forall (st : Dashboard) (session : SessionData) (user : Student)
         (timetable : list TimetableEntry) (p : AppContext.Provider)
         (r : VerificationResult) (now : Js.Date) (today : string)
         (addDoc : Js.Answer string),
    scannedSession st = Some session ->
    let outcome :=
      verifyTry user timetable (retryAttempted st) p (Js.Resolves r)
                now today addDoc in
    let result :=
      handleVerification st user timetable p (Js.Resolves r)
                         now today addDoc in
    let st' := fst result in
    (CONFIDENCE_THRESHOLD == 0.9 /\ RETRY_CONFIDENCE_THRESHOLD == 0.75)%Q
    /\ (vmatch r = true -> (CONFIDENCE_THRESHOLD <= confidence r)%Q ->
        accepted (fst outcome)
        /\ showFaceCapture st' = false
        /\ (forall currentClass store newId,
              resolveClass now timetable = Some currentClass ->
              AppContext.db p = Some store ->
              addDoc = Js.Resolves newId ->
              status st'
              = "Attendance marked for " ++ subject currentClass ++ "!"
              /\ retryAttempted st' = false
              /\ ledger (snd result)
                 = (ledger p
                      ++ [mkAttendanceRecord newId
                            (mkAttendanceData (uid user) (name user)
                               (subject currentClass) today present)])%list)
        /\ (resolveClass now timetable = None ->
            status st' = "Error: No class scheduled at this time."
            /\ retryAttempted st' = false
            /\ snd result = p))
    /\ (vmatch r = true -> (confidence r < CONFIDENCE_THRESHOLD)%Q ->
        (RETRY_CONFIDENCE_THRESHOLD <= confidence r)%Q ->
        retryAttempted st = false ->
        retryOffered (fst outcome) /\ snd outcome = p
        /\ retryAttempted st' = true /\ showFaceCapture st' = true
        /\ (forall v' now' today' addDoc',
              ~ retryOffered
                  (fst (verifyTry user timetable (retryAttempted st') p v'
                                  now' today' addDoc')))
        /\ snd result = p
        /\ scannedSession st' = Some session
        /\ exists pct,
             status st'
             = "Almost there! Confidence is " ++ Js.show pct
                 ++ "%. The minimum required is 90%. Please try again in better lighting.")
    /\ (vmatch r = false ->
        rejectedWith Js.FaceNotRecognized notRecognizedMessage (fst outcome)
        /\ snd outcome = p
        /\ snd result = p
        /\ showFaceCapture st' = false
        /\ retryAttempted st' = false
        /\ exists pct, status st' = "Error: " ++ notRecognizedMessage pct)
    /\ (vmatch r = true -> (confidence r < CONFIDENCE_THRESHOLD)%Q ->
        (confidence r < RETRY_CONFIDENCE_THRESHOLD)%Q
        \/ retryAttempted st = true ->
        rejectedWith Js.ConfidenceTooLow tooLowMessage (fst outcome)
        /\ snd outcome = p
        /\ snd result = p
        /\ showFaceCapture st' = false
        /\ retryAttempted st' = false
        /\ exists pct, status st' = "Error: " ++ tooLowMessage pct)
    /\ (forall a b, notRecognizedMessage a <> tooLowMessage b).
Proof.
  intros st session user timetable p r now today addDoc Hsession outcome
         result st'.
  assert (Hresult :
            result
            = match outcome with
              | (Js.Returns (Marked subject), p') =>
                  ({| isLoading := false;
                      status := "Attendance marked for " ++ subject ++ "!";
                      showFaceCapture := false;
                      showScanner := showScanner st;
                      scannedSession := Some session;
                      retryAttempted := false;
                      showApiKeyInput := showApiKeyInput st |}, p')
              | (Js.Returns (RetryOffered confidencePercent), p') =>
                  ({| isLoading := false;
                      status :=
                        "Almost there! Confidence is "
                          ++ Js.show confidencePercent
                          ++ "%. The minimum required is "
                          ++ Js.showNumber (CONFIDENCE_THRESHOLD * 100)
                          ++ "%. Please try again in better lighting.";
                      showFaceCapture := true;
                      showScanner := showScanner st;
                      scannedSession := Some session;
                      retryAttempted := true;
                      showApiKeyInput := showApiKeyInput st |}, p')
              | (Js.Throws err, p') =>
                  if aboutApiKey (Js.message err)
                  then
                    ({| isLoading := false;
                        status :=
                          "Configuration Error: API Key missing or invalid.";
                        showFaceCapture := false;
                        showScanner := showScanner st;
                        scannedSession := Some session;
                        retryAttempted := retryAttempted st;
                        showApiKeyInput := true |}, p')
                  else
                    ({| isLoading := false;
                        status := "Error: " ++ Js.message err;
                        showFaceCapture := false;
                        showScanner := showScanner st;
                        scannedSession := Some session;
                        retryAttempted := false;
                        showApiKeyInput := showApiKeyInput st |}, p')
              end).
  { unfold result, handleVerification. rewrite Hsession. reflexivity. }
  split; [split; reflexivity|].
  split.
  { intros Hmatch Hconf.
    split; [apply accept_branch; assumption|].
    assert (Hout : outcome
                   = match resolveClass now timetable with
                     | None =>
                         (Js.Throws (Js.error Js.NoClassScheduled
                            "No class scheduled at this time."), p)
                     | Some currentClass =>
                         match AppContext.addAttendanceRecord p
                                 {| studentId := uid user;
                                    studentName := name user;
                                    recordSubject := subject currentClass;
                                    date := today;
                                    recordStatus := present |} addDoc with
                         | (Js.Returns _, p') =>
                             (Js.Returns (Marked (subject currentClass)), p')
                         | (Js.Throws e, p') => (Js.Throws e, p')
                         end
                     end).
    { unfold outcome, verifyTry. cbn [Js.await].
      apply ge_spec in Hconf. rewrite Hmatch, Hconf. reflexivity. }
    unfold st'. rewrite Hresult, Hout.
    split; [|split].
    - destruct (resolveClass now timetable) as [currentClass|];
        [|reflexivity].
      destruct (AppContext.addAttendanceRecord _ _ _) as [[u | e] p'];
        [reflexivity|].
      destruct (aboutApiKey (Js.message e)); reflexivity.
    - intros currentClass store newId Hclass Hdb Hadd.
      rewrite Hclass. unfold AppContext.addAttendanceRecord.
      rewrite Hdb, Hadd. cbn [Js.await fst snd status retryAttempted].
      split; [reflexivity|]. split; [reflexivity|].
      unfold ledger. rewrite Hdb. reflexivity.
    - intro Hclass. rewrite Hclass. cbn [Js.error Js.message].
      repeat split. }
  split.
  { intros Hmatch Hlow Hmid Hfirst.
    assert (Hout : outcome
                   = (Js.Returns (RetryOffered (Js.round (Js.times (confidence r) 100))),
                      p)).
    { unfold outcome. rewrite Hfirst. apply retry_branch; assumption. }
    unfold st'. rewrite Hresult, Hout.
    cbn [fst snd retryAttempted showFaceCapture scannedSession status].
    split; [eexists; reflexivity|].
    split; [reflexivity|].
    split; [reflexivity|].
    split; [reflexivity|].
    split; [intros v' now' today' addDoc'; apply no_second_retry|].
    split; [reflexivity|]. split; [reflexivity|].
    eexists. reflexivity. }
  split.
  { intro Hmatch.
    assert (Hout : outcome
                   = (Js.Throws
                        (Js.error Js.FaceNotRecognized
                           (notRecognizedMessage
                              (Js.round (Js.times (confidence r) 100)))), p))
      by (unfold outcome; apply no_match_branch; assumption).
    unfold st'. rewrite Hresult, Hout. cbn [Js.error Js.message].
    rewrite (proj1 (rejection_not_about_key _)).
    cbn [fst snd retryAttempted showFaceCapture status].
    split; [eexists; reflexivity|].
    split; [reflexivity|]. split; [reflexivity|]. split; [reflexivity|].
    split; [reflexivity|]. eexists. reflexivity. }
  split.
  { intros Hmatch Hlow Hwhy.
    assert (Hout : outcome
                   = (Js.Throws
                        (Js.error Js.ConfidenceTooLow
                           (tooLowMessage (Js.round (Js.times (confidence r) 100)))),
                      p))
      by (unfold outcome; apply low_confidence_branch; assumption).
    unfold st'. rewrite Hresult, Hout. cbn [Js.error Js.message].
    rewrite (proj2 (rejection_not_about_key _)).
    cbn [fst snd retryAttempted showFaceCapture status].
    split; [eexists; reflexivity|].
    split; [reflexivity|]. split; [reflexivity|]. split; [reflexivity|].
    split; [reflexivity|]. eexists. reflexivity. }
  exact rejection_messages_differ.
Qed.

End DecisionPolicy.

(** Alice, on a scanned session, on a Monday at 09:30 with Math from 09:00:
    at confidence 0.95 her attendance is marked; at 0.8 she is offered the
    retry; without a match the capture is closed and the flag cleared. *)
Lemma confidence_gated_decision_witness :
  StudentPortal.scannedSession scanned = Some (mkSession campus 1000)
  /\ StudentPortal.status
       (fst (StudentPortal.handleVerification scanned alice [mathEntry]
               studentProvider (Js.Resolves (mkVerification true 0.95))
               (Js.mkDate 1 9 30) "2025-01-06" (Js.Resolves "r1")))
     = "Attendance marked for Math!"
  /\ StudentPortal.retryAttempted
       (fst (StudentPortal.handleVerification scanned alice [mathEntry]
               studentProvider (Js.Resolves (mkVerification true 0.8))
               (Js.mkDate 1 9 30) "2025-01-06" (Js.Resolves "r1")))
     = true
  /\ StudentPortal.showFaceCapture
       (fst (StudentPortal.handleVerification scanned alice [mathEntry]
               studentProvider (Js.Resolves (mkVerification false 0.99))
               (Js.mkDate 1 9 30) "2025-01-06" (Js.Resolves "r1")))
     = false.
Proof.
  split; [reflexivity|]. split; [|split].
  - pose proof (confidence_gated_decision scanned (mkSession campus 1000)
                  alice [mathEntry] studentProvider
                  (mkVerification true 0.95) (Js.mkDate 1 9 30) "2025-01-06"
                  (Js.Resolves "r1") eq_refl) as H.
    cbv zeta in H.
    destruct H as (_ & Haccept & _).
    destruct (Haccept eq_refl ltac:(discriminate)) as (_ & _ & Hmarked & _).
    exact (proj1 (Hmarked mathEntry (AppContext.mkFirestore [] [mathEntry])
                    "r1" eq_refl eq_refl eq_refl)).
  - pose proof (confidence_gated_decision scanned (mkSession campus 1000)
                  alice [mathEntry] studentProvider
                  (mkVerification true 0.8) (Js.mkDate 1 9 30) "2025-01-06"
                  (Js.Resolves "r1") eq_refl) as H.
    cbv zeta in H.
    destruct H as (_ & _ & Hretry & _).
    exact (proj1 (proj2 (proj2
             (Hretry eq_refl eq_refl ltac:(discriminate) eq_refl)))).
  - pose proof (confidence_gated_decision scanned (mkSession campus 1000)
                  alice [mathEntry] studentProvider
                  (mkVerification false 0.99) (Js.mkDate 1 9 30) "2025-01-06"
                  (Js.Resolves "r1") eq_refl) as H.
    cbv zeta in H.
    destruct H as (_ & _ & _ & Hreject & _).
    exact (proj1 (proj2 (proj2 (proj2 (Hreject eq_refl))))).
Defined.

Section PipelineWrites.

Context {locationService : LocationService}.

Import StudentPortal.

Lemma verifyTry_marks user timetable retried p r now today newId
      currentClass store :
  vmatch r = true ->
  (CONFIDENCE_THRESHOLD <= confidence r)%Q ->
  resolveClass now timetable = Some currentClass ->
  AppContext.db p = Some store ->
  verifyTry user timetable retried p (Js.Resolves r) now today
            (Js.Resolves newId)
  = (Js.Returns (Marked (subject currentClass)),
     AppContext.withStore p
       {| AppContext.attendanceCollection :=
            (AppContext.attendanceCollection store
               ++ [mkAttendanceRecord newId
                     (mkAttendanceData (uid user) (name user)
                                       (subject currentClass) today present)])%list;
          AppContext.timetableCollection :=
            AppContext.timetableCollection store |}).
Proof.
  intros Hmatch Hconf Hclass Hdb. apply ge_spec in Hconf.
  unfold verifyTry. cbn [Js.await]. rewrite Hmatch, Hconf. cbn [andb].
  rewrite Hclass. unfold AppContext.addAttendanceRecord. rewrite Hdb.
  reflexivity.
Qed.

(** Whatever the [try] block does short of marking attendance leaves the
    store as it was. *)
Lemma verifyTry_store user timetable retried p v now today addDoc :
  (forall s, fst (verifyTry user timetable retried p v now today addDoc)
             <> Js.Returns (Marked s)) ->
  snd (verifyTry user timetable retried p v now today addDoc) = p.
Proof.
  unfold verifyTry. intro Hnot.
  destruct (Js.await v) as [r | e]; [|reflexivity].
  destruct (vmatch r && Js.ge (confidence r) CONFIDENCE_THRESHOLD).
  - destruct (resolveClass now timetable) as [currentClass|]; [|reflexivity].
    unfold AppContext.addAttendanceRecord in *.
    destruct (AppContext.db p) as [store|]; [|reflexivity].
    destruct (Js.await addDoc) as [newId | e]; [|reflexivity].
    exfalso. exact (Hnot _ eq_refl).
  - destruct (vmatch r && Js.ge (confidence r) RETRY_CONFIDENCE_THRESHOLD
              && negb retried); [reflexivity|].
    destruct (negb (vmatch r)); reflexivity.
Qed.

Lemma handleVerification_store st user timetable p v now today addDoc :
  snd (handleVerification st user timetable p v now today addDoc)
  = match scannedSession st with
    | Some _ => snd (verifyTry user timetable (retryAttempted st) p v
                               now today addDoc)
    | None => p
    end.
Proof.
  unfold handleVerification.
  destruct (scannedSession st) as [session|]; [|reflexivity].
  destruct (verifyTry _ _ _ _ _ _ _ _) as [[[s | pct] | e] p']; simpl;
    try reflexivity.
  destruct (_ || _); reflexivity.
Qed.

Lemma not_marked_without_success user timetable st p v now today addDoc :
  ~ succeeds timetable (st, p) (Capture v now today addDoc) ->
  scannedSession st <> None ->
  forall s, fst (verifyTry user timetable (retryAttempted st) p v
                           now today addDoc)
            <> Js.Returns (Marked s).
Proof.
  intros Hfail Hsession s Hmarked. apply Hfail. clear Hfail.
  unfold verifyTry in Hmarked. simpl.
  destruct v as [r | c msg]; [|discriminate]. cbn [Js.await] in Hmarked.
  destruct (vmatch r) eqn:Hmatch; cbn [andb] in Hmarked.
  - destruct (Js.ge (confidence r) CONFIDENCE_THRESHOLD) eqn:Hconf.
    + destruct (resolveClass now timetable) as [currentClass|] eqn:Hclass;
        [|discriminate].
      unfold AppContext.addAttendanceRecord in Hmarked.
      destruct (AppContext.db p) as [store|] eqn:Hdb; [|discriminate].
      destruct addDoc as [newId | c msg]; [|discriminate].
      apply ge_spec in Hconf.
      repeat split; try assumption; discriminate.
    + destruct (Js.ge (confidence r) RETRY_CONFIDENCE_THRESHOLD
                && negb (retryAttempted st)); discriminate.
  - discriminate.
Qed.

(** C6: Writes of the attendee pipeline.  An event makes the store take
    exactly one attendance record when it is a capture that is accepted,
    finds a class in session and is answered by the store: the ledger grows
    by that one record, for the resolved subject and dated today.  Every
    other event leaves the store untouched: any scan (malformed token,
    expired token, too far), a capture without a match, one with too low a
    confidence, and the one that uses up the retry. *)
Theorem pipeline_writes :
  forall (user : Student) (timetable : list TimetableEntry)
         (st : Dashboard) (p : AppContext.Provider) (ev : Event),
    let st' := fst (step user timetable (st, p) ev) in
    let p' := snd (step user timetable (st, p) ev) in
    (succeeds timetable (st, p) ev ->
     exists r now today newId currentClass,
       ev = Capture (Js.Resolves r) now today (Js.Resolves newId)
       /\ resolveClass now timetable = Some currentClass
       /\ ledger p'
          = (ledger p
               ++ [mkAttendanceRecord newId
                     (mkAttendanceData (uid user) (name user)
                                       (subject currentClass) today present)])%list
       /\ status st' = "Attendance marked for " ++ subject currentClass ++ "!")
    /\ (~ succeeds timetable (st, p) ev -> p' = p)
    /\ (forall parsed now sample, ev = Scan parsed now sample -> p' = p)
    /\ (forall r now today addDoc,
          ev = Capture (Js.Resolves r) now today addDoc ->
          vmatch r = false \/ (confidence r < CONFIDENCE_THRESHOLD)%Q ->
          p' = p).
Proof.
  intros user timetable st p ev st' p'.
  assert (Hzero : ~ succeeds timetable (st, p) ev -> p' = p).
  { intro Hfail. unfold p'. destruct ev as [parsed now sample | v now today addDoc];
      [reflexivity|].
    cbn [step fst snd]. rewrite handleVerification_store.
    destruct (scannedSession st) as [session|] eqn:Hsession; [|reflexivity].
    apply verifyTry_store.
    apply not_marked_without_success; [exact Hfail|].
    rewrite Hsession. discriminate. }
  split; [|split; [exact Hzero|split]].
  - intro Hok. unfold succeeds in Hok.
    destruct ev as [parsed now sample | [r | c msg] now today [newId | c' msg']];
      try contradiction.
    cbn [fst snd] in Hok.
    destruct Hok as [Hsession [Hmatch [Hconf [Hclass Hdb]]]].
    destruct (resolveClass now timetable) as [currentClass|] eqn:Eclass;
      [|contradiction].
    destruct (AppContext.db p) as [store|] eqn:Edb; [|contradiction].
    destruct (scannedSession st) as [session|] eqn:Esession; [|contradiction].
    exists r, now, today, newId, currentClass.
    split; [reflexivity|]. split; [exact Eclass|].
    unfold p', st'. cbn [step fst snd]. unfold handleVerification.
    rewrite Esession.
    rewrite (verifyTry_marks user timetable _ p r now today newId
                             currentClass store Hmatch Hconf Eclass Edb).
    unfold ledger. rewrite Edb. split; reflexivity.
  - intros parsed now sample Hev. apply Hzero. rewrite Hev. simpl. tauto.
  - intros r now today addDoc Hev Hwhy. apply Hzero. rewrite Hev.
    unfold succeeds. destruct addDoc as [newId | c msg]; [|tauto].
    intros [_ [Hmatch [Hconf _]]].
    destruct Hwhy as [Hno | Hlow]; [congruence|].
    exact (Qlt_not_le _ _ Hlow Hconf).
Qed.

End PipelineWrites.

Lemma pipeline_writes_witness :
  succeeds [mathEntry] (scanned, studentProvider)
           (Capture (Js.Resolves (mkVerification true 0.95))
                    (Js.mkDate 1 9 30) "2025-01-06" (Js.Resolves "r1"))
  /\ exists r now today newId currentClass,
       Capture (Js.Resolves (mkVerification true 0.95))
               (Js.mkDate 1 9 30) "2025-01-06" (Js.Resolves "r1")
       = Capture (Js.Resolves r) now today (Js.Resolves newId)
       /\ StudentPortal.resolveClass now [mathEntry] = Some currentClass
       /\ ledger (snd (@step gridService alice [mathEntry]
                         (scanned, studentProvider)
                         (Capture (Js.Resolves (mkVerification true 0.95))
                                  (Js.mkDate 1 9 30) "2025-01-06"
                                  (Js.Resolves "r1"))))
          = (ledger studentProvider
               ++ [mkAttendanceRecord newId
                     (mkAttendanceData (uid alice) (name alice)
                                       (subject currentClass) today present)])%list
       /\ StudentPortal.status
            (fst (@step gridService alice [mathEntry]
                    (scanned, studentProvider)
                    (Capture (Js.Resolves (mkVerification true 0.95))
                             (Js.mkDate 1 9 30) "2025-01-06"
                             (Js.Resolves "r1"))))
          = "Attendance marked for " ++ subject currentClass ++ "!".
Proof.
  assert (Hok : succeeds [mathEntry] (scanned, studentProvider)
                  (Capture (Js.Resolves (mkVerification true 0.95))
                           (Js.mkDate 1 9 30) "2025-01-06" (Js.Resolves "r1"))).
  { simpl. repeat split; discriminate. }
  split; [exact Hok|].
  exact (proj1 (@pipeline_writes gridService alice [mathEntry] scanned
                  studentProvider _) Hok).
Defined.

(** C2: Class resolution on the accept path, at the minute a class ends.
    On Monday at 09:45 the class held 09:00-09:45 is over by the rule of
    [getScheduleStatus], which reports no current class; the resolution
    inlined in [handleVerification] still finds it and attendance is marked
    for it.  With the next class starting at 09:45, the schedule reports
    that next class while the accept path resolves the one that ended. *)
Theorem accept_path_resolves_ended_class :
  let now := Js.mkDate 1 9 45 in
  let physics := mkEntry "b" "Monday" "09:45" "Physics" "CSE" "f2" "Dr. Iyer" 45 in
  TimeUtils.currentClassId (TimeUtils.getScheduleStatus now [mathEntry]) = None
  /\ StudentPortal.resolveClass now [mathEntry] = Some mathEntry
  /\ ledger (snd (StudentPortal.handleVerification scanned alice [mathEntry]
                    studentProvider (Js.Resolves (mkVerification true 0.95))
                    now "2025-01-06" (Js.Resolves "r1")))
     = [mkAttendanceRecord "r1"
          (mkAttendanceData "u1" "Alice" "Math" "2025-01-06" present)]
  /\ TimeUtils.currentClassId
       (TimeUtils.getScheduleStatus now [mathEntry; physics]) = Some "b"
  /\ option_map id (StudentPortal.resolveClass now [mathEntry; physics])
     = Some "a".
Proof. repeat split. Qed.

Section GeofenceDrift.

Context {locationService : LocationService}.

Import FacultyPortal.

Lemma refreshTick_anchored anchor st sample now :
  anchoredAt anchor st -> anchoredAt anchor (refreshTick st sample now).
Proof.
  unfold anchoredAt, refreshTick. intro Hst.
  destruct (activeSession st) as [session|] eqn:Hactive;
    [|rewrite Hactive; exact Hst].
  destruct (initialSessionLocation st) as [initialLocation|] eqn:Hinitial;
    [|rewrite Hactive, Hinitial; exact Hst].
  destruct Hst as [Hkept | [Hover _]]; [|discriminate Hover].
  destruct (Js.await sample) as [newLocation | err].
  - destruct (Js.gt _ _); simpl.
    + right. split; reflexivity.
    + left. rewrite Hinitial. exact Hkept.
  - simpl. left. rewrite Hinitial. exact Hkept.
Qed.

Lemma runTicks_anchored anchor ticks :
  forall st, anchoredAt anchor st -> anchoredAt anchor (runTicks st ticks).
Proof.
  induction ticks as [|tick ticks IH]; intros st Hst; [exact Hst|].
  unfold runTicks. simpl. apply IH. apply refreshTick_anchored. exact Hst.
Qed.

(** C5: Presenter geofence drift.  On a refresh tick of an active session
    the new sample is measured against the anchor recorded when the session
    started: beyond 100 m the session is stopped and the drift error
    reported; otherwise (exactly 100 m included) the session is refreshed
    with the new location and the new timestamp, the anchor being kept.
    From the start of a session on, through any series of ticks, the anchor
    is the start location for as long as the session lasts, whatever
    locations the refreshes have put into the session. *)
Theorem presenter_drift :
  forall (st : Portal) (session : SessionData)
         (anchor newLocation : LocationCoordinate) (now : Z),
    activeSession st = Some session ->
    initialSessionLocation st = Some anchor ->
    let distance := calculateDistance newLocation anchor in
    let st' := refreshTick st (Js.Resolves newLocation) now in
    MAX_FACULTY_MOVEMENT_METERS = 100
    /\ ((inject_Z MAX_FACULTY_MOVEMENT_METERS < distance)%Q ->
        activeSession st' = None
        /\ initialSessionLocation st' = None
        /\ showFullScreenQR st' = false
        /\ error st'
           = Some "Session stopped: You moved more than 100m from your starting location.")
    /\ ((distance <= inject_Z MAX_FACULTY_MOVEMENT_METERS)%Q ->
        activeSession st' = Some (mkSession newLocation now)
        /\ initialSessionLocation st' = Some anchor
        /\ error st' = error st)
    /\ ((distance == inject_Z MAX_FACULTY_MOVEMENT_METERS)%Q ->
        activeSession st' = Some (mkSession newLocation now))
    /\ (forall st0 start t0 ticks,
          let started := startSession st0 (Js.Resolves start) t0 in
          activeSession started = Some (mkSession start t0)
          /\ initialSessionLocation started = Some start
          /\ anchoredAt start (runTicks started ticks)).
Proof.
  intros st session anchor newLocation now Hactive Hanchor distance st'.
  assert (Hnear : (distance <= inject_Z MAX_FACULTY_MOVEMENT_METERS)%Q ->
                  st' = setActiveSession (Some (mkSession newLocation now)) st).
  { intro Hle. apply gt_false in Hle. unfold st', refreshTick.
    rewrite Hactive, Hanchor. cbn [Js.await]. fold distance.
    rewrite Hle. reflexivity. }
  split; [reflexivity|].
  split; [|split; [|split]].
  - intro Hfar. apply gt_spec in Hfar. unfold st', refreshTick.
    rewrite Hactive, Hanchor. cbn [Js.await]. fold distance.
    rewrite Hfar. simpl. repeat split.
  - intro Hle. rewrite (Hnear Hle). simpl. repeat split. exact Hanchor.
  - intro Heq. rewrite Hnear; [reflexivity|].
    rewrite Heq. apply Qle_refl.
  - intros st0 start t0 ticks started.
    split; [reflexivity|]. split; [reflexivity|].
    apply runTicks_anchored. left. reflexivity.
Qed.

End GeofenceDrift.

Lemma presenter_drift_witness :
  FacultyPortal.activeSession
    (FacultyPortal.startSession
       (FacultyPortal.mkPortal None None false None true)
       (Js.Resolves campus) 0)
  = Some (mkSession campus 0)
  /\ FacultyPortal.initialSessionLocation
       (FacultyPortal.startSession
          (FacultyPortal.mkPortal None None false None true)
          (Js.Resolves campus) 0)
     = Some campus
  /\ FacultyPortal.activeSession
       (@FacultyPortal.refreshTick gridService
          (FacultyPortal.startSession
             (FacultyPortal.mkPortal None None false None true)
             (Js.Resolves campus) 0)
          (Js.Resolves (mkLocation 60 40)) 10000)
     = Some (mkSession (mkLocation 60 40) 10000).
Proof.
  split; [reflexivity|]. split; [reflexivity|].
  apply (@presenter_drift gridService
           (FacultyPortal.startSession
              (FacultyPortal.mkPortal None None false None true)
              (Js.Resolves campus) 0)
           (mkSession campus 0) campus (mkLocation 60 40) 10000);
    reflexivity.
Defined.

(** ** The stable sort *)

Section SortFacts.

Context {A : Type} (cmp : A -> A -> option Z) (key : A -> Z) (ok : A -> Prop).

Hypothesis cmp_key :
  forall x y, ok x -> ok y -> Js.keepsBefore cmp x y = (key x <=? key y).

Lemma insert_In x l z : In z (Js.insert cmp x l) <-> z = x \/ In z l.
Proof.
  induction l as [|y l IH]; simpl.
  - intuition.
  - destruct (Js.keepsBefore cmp x y); simpl; [intuition|].
    rewrite IH. intuition.
Qed.

Lemma sort_In l z : In z (Js.sort cmp l) <-> In z l.
Proof.
  induction l as [|x l IH]; simpl; [tauto|].
  unfold Js.sort in *. simpl. rewrite insert_In, IH. intuition.
Qed.

Lemma sort_ok l : Forall ok l -> Forall ok (Js.sort cmp l).
Proof.
  intro Hok. rewrite Forall_forall in Hok |- *. intros z Hz.
  apply Hok. apply sort_In. exact Hz.
Qed.

Lemma insert_ascending x l :
  ok x -> Forall ok l -> ascending key l ->
  ascending key (Js.insert cmp x l).
Proof.
  intros Hx Hl Hsorted.
  induction Hsorted as [|y l Hsorted IH Hy]; simpl.
  - constructor; constructor.
  - inversion Hl as [|y' l' Hoky Hokl]; subst.
    rewrite (cmp_key x y Hx Hoky).
    destruct (key x <=? key y) eqn:Hle.
    + apply Z.leb_le in Hle. constructor.
      * constructor; assumption.
      * constructor; [exact Hle|].
        rewrite Forall_forall in Hy |- *. intros z Hz.
        specialize (Hy z Hz). lia.
    + apply Z.leb_gt in Hle. constructor.
      * apply IH. exact Hokl.
      * apply Forall_forall. intros z Hz. apply insert_In in Hz.
        destruct Hz as [-> | Hz]; [lia|].
        rewrite Forall_forall in Hy. auto.
Qed.

Lemma sort_ascending l : Forall ok l -> ascending key (Js.sort cmp l).
Proof.
  induction l as [|x l IH]; intro Hok.
  - constructor.
  - inversion Hok; subst. unfold Js.sort. simpl.
    apply insert_ascending; [assumption | apply sort_ok; assumption|].
    apply IH. assumption.
Qed.

Lemma first_of_filter_least (keep : A -> bool) l :
  ascending key l ->
  forall first rest,
    filter keep l = first :: rest ->
    forall z, In z (filter keep l) -> key first <= key z.
Proof.
  intro Hsorted.
  induction Hsorted as [|y l Hsorted IH Hy]; simpl; [discriminate|].
  intros first rest Hfilter z Hz.
  destruct (keep y).
  - inversion Hfilter; subst first rest.
    destruct Hz as [<- | Hz]; [lia|].
    apply filter_In in Hz. rewrite Forall_forall in Hy.
    apply Hy. tauto.
  - eapply IH; eassumption.
Qed.

End SortFacts.

(** ** Clock fields *)

Lemma in_range (n : nat) (z : Z) :
  0 <= z < Z.of_nat n -> In z (map Z.of_nat (seq 0 n)).
Proof.
  intro Hz. apply in_map_iff. exists (Z.to_nat z).
  split; [lia|]. apply in_seq. lia.
Qed.

Lemma compare_app (a b s t : string) :
  String.length a = String.length b ->
  String.compare (a ++ s) (b ++ t)
  = match String.compare a b with
    | Eq => String.compare s t
    | other => other
    end.
Proof.
  revert b. induction a as [|c a IH]; intros [|d b] Hlen;
    try discriminate; simpl; [reflexivity|].
  destruct (Ascii.compare c d); try reflexivity.
  apply IH. simpl in Hlen. congruence.
Qed.

Lemma pad_table :
  forallb (fun x =>
    forallb (fun y =>
      (String.length (Js.padStart2 (Js.show x)) =? 2)%nat
      && match String.compare (Js.padStart2 (Js.show x))
                              (Js.padStart2 (Js.show y)),
               x ?= y with
         | Eq, Eq | Lt, Lt | Gt, Gt => true
         | _, _ => false
         end)
      (map Z.of_nat (seq 0 60)))
    (map Z.of_nat (seq 0 60)) = true.
Proof. vm_compute. reflexivity. Qed.

Lemma pad_length x :
  0 <= x < 60 -> String.length (Js.padStart2 (Js.show x)) = 2%nat.
Proof.
  intro Hx. pose proof pad_table as Htable.
  rewrite forallb_forall in Htable.
  specialize (Htable x (in_range 60 x Hx)).
  rewrite forallb_forall in Htable.
  specialize (Htable x (in_range 60 x Hx)).
  apply andb_true_iff in Htable. apply Nat.eqb_eq. tauto.
Qed.

Lemma pad_compare x y :
  0 <= x < 60 -> 0 <= y < 60 ->
  String.compare (Js.padStart2 (Js.show x)) (Js.padStart2 (Js.show y))
  = (x ?= y).
Proof.
  intros Hx Hy. pose proof pad_table as Htable.
  rewrite forallb_forall in Htable.
  specialize (Htable x (in_range 60 x Hx)).
  rewrite forallb_forall in Htable.
  specialize (Htable y (in_range 60 y Hy)).
  apply andb_true_iff in Htable. destruct Htable as [_ Htable].
  destruct (String.compare _ _), (x ?= y); congruence.
Qed.

Lemma clock_compare h m h' m' :
  0 <= h < 24 -> 0 <= m < 60 -> 0 <= h' < 24 -> 0 <= m' < 60 ->
  String.compare (clock h m) (clock h' m')
  = (h * 60 + m ?= h' * 60 + m').
Proof.
  intros Hh Hm Hh' Hm'. unfold clock.
  rewrite compare_app by (rewrite !pad_length by lia; reflexivity).
  rewrite pad_compare by lia.
  destruct (Z.compare_spec h h') as [Heq | Hlt | Hgt].
  - subst h'.
    rewrite (compare_app ":" ":") by reflexivity.
    change (String.compare ":" ":") with Eq. cbv iota.
    rewrite pad_compare by lia.
    destruct (Z.compare_spec m m') as [Heq | Hlt | Hgt]; symmetry.
    + apply Z.compare_eq_iff. lia.
    + apply Z.compare_lt_iff. lia.
    + apply Z.compare_gt_iff. lia.
  - symmetry. apply Z.compare_lt_iff. lia.
  - symmetry. apply Z.compare_gt_iff. lia.
Qed.

Lemma clock_order h m h' m' :
  0 <= h < 24 -> 0 <= m < 60 -> 0 <= h' < 24 -> 0 <= m' < 60 ->
  (Js.localeCompare (clock h m) (clock h' m') <=? 0)
  = (h * 60 + m <=? h' * 60 + m').
Proof.
  intros Hh Hm Hh' Hm'. unfold Js.localeCompare.
  rewrite clock_compare by assumption.
  unfold Z.leb at 2.
  destruct (h * 60 + m ?= h' * 60 + m'); reflexivity.
Qed.

Lemma clock_table :
  forallb (fun h =>
    forallb (fun m =>
      match TimeUtils.startTimeValue (clock h m),
            TimetableManager.timeToMinutes (clock h m),
            Js.clockDate (clock h m) with
      | Some v, Some w, Some ms =>
          (v =? h * 60 + m) && (w =? h * 60 + m)
          && (ms =? (h * 60 + m) * 60000)
      | _, _, _ => false
      end)
      (map Z.of_nat (seq 0 60)))
    (map Z.of_nat (seq 0 24)) = true.
Proof. vm_compute. reflexivity. Qed.

Lemma clock_readings h m :
  0 <= h < 24 -> 0 <= m < 60 ->
  TimeUtils.startTimeValue (clock h m) = Some (h * 60 + m)
  /\ TimetableManager.timeToMinutes (clock h m) = Some (h * 60 + m)
  /\ Js.clockDate (clock h m) = Some ((h * 60 + m) * 60000).
Proof.
  intros Hh Hm. pose proof clock_table as Htable.
  rewrite forallb_forall in Htable.
  specialize (Htable h (in_range 24 h Hh)).
  rewrite forallb_forall in Htable.
  specialize (Htable m (in_range 60 m Hm)).
  destruct (TimeUtils.startTimeValue _) as [v|]; [|discriminate].
  destruct (TimetableManager.timeToMinutes _) as [w|]; [|discriminate].
  destruct (Js.clockDate _) as [ms|]; [|discriminate].
  apply andb_true_iff in Htable. destruct Htable as [Htable Hms].
  apply andb_true_iff in Htable. destruct Htable as [Hv Hw].
  apply Z.eqb_eq in Hv, Hw, Hms. subst. repeat split.
Qed.

Lemma wellTimed_start entry :
  wellTimed entry ->
  TimeUtils.startTimeValue (time entry) = Some (startOf entry).
Proof.
  intros (h & m & Hh & Hm & Htime). unfold startOf. rewrite Htime.
  rewrite (proj1 (clock_readings h m Hh Hm)). reflexivity.
Qed.

Lemma byTime_key x y :
  wellTimed x -> wellTimed y ->
  Js.keepsBefore TimeUtils.byTime x y = (startOf x <=? startOf y).
Proof.
  intros (h & m & Hh & Hm & Hx) (h' & m' & Hh' & Hm' & Hy).
  unfold Js.keepsBefore, TimeUtils.byTime, startOf. rewrite Hx, Hy.
  rewrite (proj1 (clock_readings h m Hh Hm)).
  rewrite (proj1 (clock_readings h' m' Hh' Hm')).
  apply clock_order; assumption.
Qed.

(** ** The schedule status *)

Section ScheduleStatus.

Import TimeUtils.

Lemma visit_upcoming minutes l :
  forall acc,
    snd (fold_left (visit minutes) l acc)
    = (snd acc ++ map fst (filter (later minutes) l))%list.
Proof.
  induction l as [|p l IH]; intros [current upcoming]; simpl.
  - rewrite app_nil_r. reflexivity.
  - rewrite IH. unfold visit, later.
    destruct (snd p) as [startTime|]; [|reflexivity].
    destruct (startTime >? minutes); simpl; [|reflexivity].
    rewrite <- app_assoc. reflexivity.
Qed.

Lemma getScheduleStatus_next now timetable :
  nextClassId (getScheduleStatus now timetable)
  = let upcomingToday :=
      map fst
        (filter (later (Js.getHours now * 60 + Js.getMinutes now))
           (Js.sort byStart (timed (entriesOn (Js.getDay now) timetable)))) in
    let next :=
      match upcomingToday with
      | first :: _ => Some (id first)
      | [] => None
      end in
    if unset next
    then match scanForward (Js.getDay now) timetable (seq 1 7) with
         | Some found => Some found
         | None => next
         end
    else next.
Proof.
  unfold getScheduleStatus.
  pose proof (visit_upcoming (Js.getHours now * 60 + Js.getMinutes now)
                (Js.sort byStart (timed (entriesOn (Js.getDay now) timetable)))
                (None, [])) as Hloop.
  unfold timed, entriesOn in *.
  destruct (fold_left _ _ _) as [current upcoming].
  simpl in Hloop. subst upcoming. reflexivity.
Qed.

Lemma byStart_key x y :
  (exists v, snd x = Some v) -> (exists w, snd y = Some w) ->
  Js.keepsBefore byStart x y = (pairKey x <=? pairKey y).
Proof.
  intros [v Hx] [w Hy]. unfold Js.keepsBefore, byStart, pairKey.
  rewrite Hx, Hy.
  destruct (v - w <=? 0) eqn:H1, (v <=? w) eqn:H2; try reflexivity;
    rewrite ?Z.leb_le, ?Z.leb_gt in *; lia.
Qed.

Lemma timed_ok entries :
  Forall wellTimed entries ->
  Forall (fun p => exists v, snd p = Some v) (timed entries).
Proof.
  intro Hwf. unfold timed. apply Forall_forall. intros p Hp.
  apply in_map_iff in Hp. destruct Hp as [entry [<- Hentry]].
  rewrite Forall_forall in Hwf. simpl.
  eexists. apply wellTimed_start. auto.
Qed.

(** The entries the loop collects are today's entries that start later. *)
Lemma upcoming_In minutes entries entry :
  Forall wellTimed entries ->
  In entry (map fst (filter (later minutes) (Js.sort byStart (timed entries))))
  <-> In entry (filter (fun e => startOf e >? minutes) entries).
Proof.
  intro Hwf. rewrite Forall_forall in Hwf.
  assert (Hlater : forall e, In e entries ->
            later minutes (e, startTimeValue (time e))
            = (startOf e >? minutes)).
  { intros e He. unfold later. simpl.
    rewrite (wellTimed_start e (Hwf e He)). reflexivity. }
  rewrite in_map_iff, filter_In. split.
  - intros [p [<- Hp]]. apply filter_In in Hp. destruct Hp as [Hp Hkeep].
    apply sort_In in Hp. unfold timed in Hp. apply in_map_iff in Hp.
    destruct Hp as [e [<- He]]. simpl. split; [exact He|].
    rewrite <- (Hlater e He). exact Hkeep.
  - intros [He Hkeep].
    exists (entry, startTimeValue (time entry)). split; [reflexivity|].
    apply filter_In. split; [|rewrite (Hlater entry He); exact Hkeep].
    apply sort_In. unfold timed. apply in_map_iff. eauto.
Qed.

Lemma first_upcoming minutes entries first rest :
  Forall wellTimed entries ->
  map fst (filter (later minutes) (Js.sort byStart (timed entries)))
  = first :: rest ->
  earliestAmong (filter (fun e => startOf e >? minutes) entries) first.
Proof.
  intros Hwf Hlist. split.
  - apply upcoming_In; [exact Hwf|]. rewrite Hlist. left. reflexivity.
  - intros other Hother. apply upcoming_In in Hother; [|exact Hwf].
    destruct (filter (later minutes) (Js.sort byStart (timed entries)))
      as [|p ps] eqn:Hfilter; [discriminate|].
    simpl in Hlist. inversion Hlist as [[Hfirst Hrest]].
    apply in_map_iff in Hother. destruct Hother as [q [Hq Hin]].
    assert (Hleast : pairKey p <= pairKey q).
    { eapply (first_of_filter_least pairKey).
      - apply (sort_ascending byStart pairKey _ byStart_key).
        apply timed_ok. exact Hwf.
      - exact Hfilter.
      - rewrite Hfilter. exact Hin. }
    assert (Hkey : forall r, In r (p :: ps) -> pairKey r = startOf (fst r)).
    { intros r Hr. rewrite <- Hfilter in Hr. apply filter_In in Hr.
      destruct Hr as [Hr _]. apply sort_In in Hr. unfold timed in Hr.
      apply in_map_iff in Hr. destruct Hr as [e [<- _]]. reflexivity. }
    rewrite <- Hq. rewrite <- (Hkey p) by (left; reflexivity).
    rewrite <- (Hkey q) by exact Hin. exact Hleast.
Qed.

Lemma first_sorted entries first rest :
  Forall wellTimed entries ->
  Js.sort byTime entries = first :: rest ->
  earliestAmong entries first.
Proof.
  intros Hwf Hsort.
  pose proof (sort_ascending byTime startOf wellTimed byTime_key entries Hwf)
    as Hasc.
  rewrite Hsort in Hasc. inversion Hasc as [|x l Hrest Hall]; subst.
  split.
  - apply (sort_In byTime). rewrite Hsort. left. reflexivity.
  - intros other Hother. apply (sort_In byTime) in Hother.
    rewrite Hsort in Hother. destruct Hother as [<- | Hother]; [lia|].
    rewrite Forall_forall in Hall. auto.
Qed.

Lemma sort_nil {A : Type} (cmp : A -> A -> option Z) l :
  Js.sort cmp l = [] -> l = [].
Proof.
  destruct l as [|x l]; [reflexivity|]. intro Hsort. exfalso.
  assert (Hin : In x (Js.sort cmp (x :: l)))
    by (apply sort_In; left; reflexivity).
  rewrite Hsort in Hin. exact Hin.
Qed.

Lemma scanForward_cons today timetable i steps :
  scanForward today timetable (i :: steps)
  = match Js.sort byTime (entriesOn ((today + i) mod 7) timetable) with
    | first :: _ => Some (id first)
    | [] => scanForward today timetable steps
    end.
Proof. reflexivity. Qed.

Lemma scanForward_found today timetable before i after :
  Forall wellTimed timetable ->
  (forall j, In j before -> entriesOn ((today + j) mod 7) timetable = []) ->
  entriesOn ((today + i) mod 7) timetable <> [] ->
  exists entry,
    scanForward today timetable (before ++ i :: after) = Some (id entry)
    /\ earliestAmong (entriesOn ((today + i) mod 7) timetable) entry.
Proof.
  intros Hwf Hbefore Hbusy.
  induction before as [|j before IH].
  - rewrite app_nil_l, scanForward_cons.
    destruct (Js.sort byTime (entriesOn ((today + i) mod 7) timetable))
      as [|first rest] eqn:Hsort.
    + apply sort_nil in Hsort. contradiction.
    + exists first. split; [reflexivity|].
      eapply first_sorted; [|exact Hsort].
      unfold entriesOn. rewrite Forall_forall in Hwf |- *.
      intros e He. apply filter_In in He. apply Hwf. tauto.
  - rewrite <- app_comm_cons, scanForward_cons.
    rewrite (Hbefore j) by (left; reflexivity).
    change (Js.sort byTime []) with (@nil TimetableEntry).
    apply IH. intros k Hk. apply Hbefore. right. exact Hk.
Qed.

Lemma scanForward_none today timetable steps :
  (forall j, In j steps -> entriesOn ((today + j) mod 7) timetable = []) ->
  scanForward today timetable steps = None.
Proof.
  induction steps as [|j steps IH]; intro Hfree; [reflexivity|].
  rewrite scanForward_cons.
  rewrite (Hfree j) by (left; reflexivity).
  change (Js.sort byTime []) with (@nil TimetableEntry).
  apply IH. intros k Hk. apply Hfree. right. exact Hk.
Qed.

Lemma week_split i :
  (1 <= i <= 7)%nat -> seq 1 7 = (seq 1 (i - 1) ++ i :: seq (S i) (7 - i))%list.
Proof.
  intro Hi.
  replace 7%nat with ((i - 1) + S (7 - i))%nat at 1 by lia.
  rewrite seq_app. simpl.
  replace (1 + (i - 1))%nat with i by lia.
  replace (S (i - 1)) with i by lia. reflexivity.
Qed.

(** The selection, on the lists the code builds. *)
Lemma next_class_by_lists :
  forall (now : Js.Date) (timetable : list TimetableEntry),
    Forall wellTimed timetable ->
    Forall (fun entry => id entry <> EmptyString) timetable ->
    let today := Js.getDay now in
    let minutes := Js.getHours now * 60 + Js.getMinutes now in
    let result := getScheduleStatus now timetable in
    (upcomingOn today minutes timetable <> [] ->
     exists entry,
       nextClassId result = Some (id entry)
       /\ earliestAmong (upcomingOn today minutes timetable) entry)
    /\ (upcomingOn today minutes timetable = [] ->
        forall i,
          (1 <= i <= 7)%nat ->
          (forall j, (1 <= j < i)%nat ->
                     entriesOn ((today + j) mod 7) timetable = []) ->
          entriesOn ((today + i) mod 7) timetable <> [] ->
          exists entry,
            nextClassId result = Some (id entry)
            /\ earliestAmong (entriesOn ((today + i) mod 7) timetable) entry)
    /\ (upcomingOn today minutes timetable = [] ->
        (forall i, (1 <= i <= 7)%nat ->
                   entriesOn ((today + i) mod 7) timetable = []) ->
        nextClassId result = None)
    /\ (timetable = [] ->
        currentClassId result = None /\ nextClassId result = None).
Proof.
  intros now timetable Hwf Hids today minutes result.
  assert (Htoday : Forall wellTimed (entriesOn today timetable)).
  { unfold entriesOn. rewrite Forall_forall in Hwf |- *.
    intros e He. apply filter_In in He. apply Hwf. tauto. }
  assert (Hnone : upcomingOn today minutes timetable = [] ->
                  nextClassId result
                  = scanForward today timetable (seq 1 7)).
  { intro Hempty. unfold result. rewrite getScheduleStatus_next.
    fold today minutes. cbv zeta.
    destruct (map fst _) as [|first rest] eqn:Hlist.
    - cbn [unset].
      destruct (scanForward today timetable (seq 1 7)); reflexivity.
    - exfalso.
      assert (Hin : In first (upcomingOn today minutes timetable)).
      { unfold upcomingOn. apply upcoming_In; [exact Htoday|].
        rewrite Hlist. left. reflexivity. }
      rewrite Hempty in Hin. exact Hin. }
  split; [|split; [|split]].
  - intro Hsome. unfold result. rewrite getScheduleStatus_next.
    fold today minutes. cbv zeta.
    destruct (map fst _) as [|first rest] eqn:Hlist.
    + exfalso. destruct (upcomingOn today minutes timetable) as [|e es] eqn:Hup;
        [contradiction|].
      assert (Hin : In e (upcomingOn today minutes timetable))
        by (rewrite Hup; left; reflexivity).
      unfold upcomingOn in Hin. apply upcoming_In in Hin; [|exact Htoday].
      rewrite Hlist in Hin. exact Hin.
    + pose proof (first_upcoming minutes _ first rest Htoday Hlist) as Hfirst.
      exists first. split; [|exact Hfirst].
      assert (Hid : id first <> EmptyString).
      { rewrite Forall_forall in Hids. apply Hids.
        destruct Hfirst as [Hin _]. apply filter_In in Hin.
        destruct Hin as [Hin _]. unfold entriesOn in Hin.
        apply filter_In in Hin. tauto. }
      unfold unset, Js.falsy.
      destruct (String.eqb_spec (id first) EmptyString); [contradiction|].
      reflexivity.
  - intros Hempty i Hi Hfree Hbusy. rewrite (Hnone Hempty).
    rewrite (week_split i Hi).
    apply scanForward_found; try assumption.
    intros j Hj. apply in_seq in Hj. apply Hfree. lia.
  - intros Hempty Hfree. rewrite (Hnone Hempty).
    apply scanForward_none. intros j Hj. apply in_seq in Hj.
    apply Hfree. lia.
  - intros ->. split; reflexivity.
Qed.

Lemma weekday_names k : weekday k = nth_error DAYS_OF_WEEK k.
Proof.
  do 7 (destruct k as [|k]; [reflexivity|]). destruct k; reflexivity.
Qed.

Lemma entriesOn_held k timetable entry :
  In entry (entriesOn k timetable) <-> In entry timetable /\ heldOn k entry.
Proof.
  unfold entriesOn, onDay, Js.strictEq, heldOn.
  rewrite filter_In, weekday_names.
  destruct (nth_error DAYS_OF_WEEK k) as [name|].
  - rewrite String.eqb_eq. split; intros [Hin Hday]; split; congruence.
  - split; intros [Hin Hday]; discriminate.
Qed.

Lemma startsAt_startOf entry v : startsAt entry v -> startOf entry = v.
Proof.
  intros (h & m & Hh & Hm & Htime & ->). unfold startOf. rewrite Htime.
  rewrite (proj1 (clock_readings h m Hh Hm)). reflexivity.
Qed.

Lemma wellTimed_startsAt entry :
  wellTimed entry -> startsAt entry (startOf entry).
Proof.
  intros (h & m & Hh & Hm & Htime). exists h, m.
  split; [exact Hh|]. split; [exact Hm|]. split; [exact Htime|].
  unfold startOf. rewrite Htime.
  rewrite (proj1 (clock_readings h m Hh Hm)). reflexivity.
Qed.

Lemma upcomingOn_due k minutes timetable entry :
  Forall wellTimed timetable ->
  (In entry (upcomingOn k minutes timetable)
   <-> dueAfter k minutes timetable entry (startOf entry)).
Proof.
  intro Hwf. unfold upcomingOn, dueAfter, dueOn.
  rewrite filter_In, entriesOn_held, Z.gtb_ltb, Z.ltb_lt.
  rewrite Forall_forall in Hwf. split.
  - intros [[Hin Hday] Hlater].
    split; [|exact Hlater]. split; [exact Hin|]. split; [exact Hday|].
    apply wellTimed_startsAt. apply Hwf. exact Hin.
  - intros [(Hin & Hday & _) Hlater]. tauto.
Qed.

(** C7: Next-class selection of [getScheduleStatus].  On a timetable
    whose times are clock fields and whose ids are not empty: if some entry
    of the current day starts strictly after now, [nextClassId] is the id
    of an earliest-starting one among them; otherwise it is the id of an
    earliest-starting entry of the first day that has entries, scanning
    forward one day at a time for seven days (the seventh being the current
    day again), and null when none of them has any; on the empty timetable
    both ids are null.  Days are the days of [Date.getDay], and the start
    of an entry is read off its clock field. *)
Theorem next_class_selection :
  forall (now : Js.Date) (timetable : list TimetableEntry),
    Forall wellTimed timetable ->
    Forall (fun entry => id entry <> EmptyString) timetable ->
    let today := Js.getDay now in
    let minutes := Js.getHours now * 60 + Js.getMinutes now in
    let result := getScheduleStatus now timetable in
    ((exists entry v, dueAfter today minutes timetable entry v) ->
     exists entry v,
       nextClassId result = Some (id entry)
       /\ dueAfter today minutes timetable entry v
       /\ forall other w,
            dueAfter today minutes timetable other w -> v <= w)
    /\ ((forall entry v, ~ dueAfter today minutes timetable entry v) ->
        forall i,
          (1 <= i <= 7)%nat ->
          (forall j entry v,
              (1 <= j < i)%nat ->
              ~ dueOn ((today + j) mod 7) timetable entry v) ->
          (exists entry v, dueOn ((today + i) mod 7) timetable entry v) ->
          exists entry v,
            nextClassId result = Some (id entry)
            /\ dueOn ((today + i) mod 7) timetable entry v
            /\ forall other w,
                 dueOn ((today + i) mod 7) timetable other w -> v <= w)
    /\ ((forall entry v, ~ dueAfter today minutes timetable entry v) ->
        (forall i entry v,
            (1 <= i <= 7)%nat ->
            ~ dueOn ((today + i) mod 7) timetable entry v) ->
        nextClassId result = None)
    /\ (timetable = [] ->
        currentClassId result = None /\ nextClassId result = None).
Proof.
  intros now timetable Hwf Hids today minutes result.
  destruct (next_class_by_lists now timetable Hwf Hids)
    as (Htoday & Hlater & Hnone & Hempty).
  fold today minutes result in Htoday, Hlater, Hnone, Hempty.
  assert (Hall : forall e, In e timetable -> wellTimed e)
    by (apply Forall_forall; exact Hwf).
  assert (Hdue : forall k e, In e (entriesOn k timetable)
                             <-> dueOn k timetable e (startOf e)).
  { intros k e. rewrite entriesOn_held. unfold dueOn. split.
    - intros [Hin Hday]. split; [exact Hin|]. split; [exact Hday|].
      apply wellTimed_startsAt. apply Hall. exact Hin.
    - tauto. }
  assert (Hquiet : (forall entry v,
                       ~ dueAfter today minutes timetable entry v) ->
                   upcomingOn today minutes timetable = []).
  { intro Hno.
    destruct (upcomingOn today minutes timetable) as [|e es] eqn:Hup;
      [reflexivity|].
    exfalso. apply (Hno e (startOf e)).
    apply (upcomingOn_due today minutes timetable e Hwf).
    rewrite Hup. left. reflexivity. }
  assert (Hfree : forall k,
            (forall entry v, ~ dueOn k timetable entry v) ->
            entriesOn k timetable = []).
  { intros k Hno.
    destruct (entriesOn k timetable) as [|e es] eqn:Hon; [reflexivity|].
    exfalso. apply (Hno e (startOf e)). apply Hdue.
    rewrite Hon. left. reflexivity. }
  split; [|split; [|split]].
  - intros (e & v & Hsome).
    assert (Hup : upcomingOn today minutes timetable <> []).
    { intro Hnil.
      assert (Hin : In e (upcomingOn today minutes timetable)).
      { apply (upcomingOn_due today minutes timetable e Hwf).
        destruct Hsome as [(Hin & Hday & Hstart) Hafter].
        rewrite (startsAt_startOf e v Hstart).
        split; [|exact Hafter]. split; [exact Hin|].
        split; [exact Hday | exact Hstart]. }
      rewrite Hnil in Hin. exact Hin. }
    destruct (Htoday Hup) as (entry & Hnext & Hin & Hleast).
    exists entry, (startOf entry). split; [exact Hnext|].
    split; [apply (upcomingOn_due today minutes timetable entry Hwf);
            exact Hin|].
    intros other w Hother.
    assert (Hw : startOf other = w).
    { apply startsAt_startOf. destruct Hother as [(_ & _ & Hstart) _].
      exact Hstart. }
    rewrite <- Hw. apply Hleast.
    apply (upcomingOn_due today minutes timetable other Hwf).
    rewrite Hw. exact Hother.
  - intros Hno i Hi Hbefore (e & v & Hbusy).
    assert (Hon : entriesOn ((today + i) mod 7) timetable <> []).
    { intro Hnil.
      assert (Hin : In e (entriesOn ((today + i) mod 7) timetable)).
      { apply Hdue. rewrite (startsAt_startOf e v (proj2 (proj2 Hbusy))).
        exact Hbusy. }
      rewrite Hnil in Hin. exact Hin. }
    destruct (Hlater (Hquiet Hno) i Hi) as (entry & Hnext & Hin & Hleast).
    + intros j Hj. apply Hfree. intros entry v'. apply Hbefore. exact Hj.
    + exact Hon.
    + exists entry, (startOf entry). split; [exact Hnext|].
      split; [apply Hdue; exact Hin|].
      intros other w Hother.
      assert (Hw : startOf other = w)
        by (apply startsAt_startOf; exact (proj2 (proj2 Hother))).
      rewrite <- Hw. apply Hleast. apply Hdue. rewrite Hw. exact Hother.
  - intros Hno Hnever. apply (Hnone (Hquiet Hno)).
    intros i Hi. apply Hfree. intros entry v. apply Hnever. exact Hi.
  - exact Hempty.
Qed.

End ScheduleStatus.

(** On the full Monday, at 09:30: the classes at 10:00 and later are
    still to come, and the next class is the one at 10:00. *)
Lemma next_class_selection_witness :
  Forall wellTimed fullMonday
  /\ Forall (fun entry => id entry <> EmptyString) fullMonday
  /\ dueAfter 1 (9 * 60 + 30) fullMonday (mondayClass 2 "m3") (10 * 60)
  /\ TimeUtils.nextClassId
       (TimeUtils.getScheduleStatus (Js.mkDate 1 9 30) fullMonday)
     = Some "m3".
Proof.
  assert (Hwf : Forall wellTimed fullMonday).
  { repeat constructor;
      match goal with
      | |- wellTimed (mondayClass ?n _) =>
          exists (8 + n), 0; repeat split; lia
      end. }
  assert (Hids : Forall (fun entry => id entry <> EmptyString) fullMonday)
    by (repeat constructor; discriminate).
  assert (Hten : dueAfter 1 (9 * 60 + 30) fullMonday (mondayClass 2 "m3")
                          (10 * 60)).
  { split; [|lia]. split; [simpl; tauto|]. split; [reflexivity|].
    exists 10, 0. repeat split; lia. }
  split; [exact Hwf|]. split; [exact Hids|]. split; [exact Hten|].
  destruct (proj1 (next_class_selection (Js.mkDate 1 9 30) fullMonday
                     Hwf Hids)
                  (ex_intro _ _ (ex_intro _ _ Hten)))
    as (entry & v & Hnext & Hdue & Hleast).
  rewrite Hnext. f_equal.
  pose proof (Hleast _ _ Hten) as Hfirst.
  destruct Hdue as [(Hin & _ & Hstart) Hafter].
  apply startsAt_startOf in Hstart. cbn [Js.getHours Js.getMinutes] in *.
  simpl in Hin.
  destruct Hin as [<-|[<-|[<-|[<-|[<-|[<-|[<-|[]]]]]]]];
    vm_compute in Hstart; subst v; first [reflexivity | lia].
Defined.

(** ** The timetable form *)

Section TimetableForm.

Import TimetableManager.

Lemma orElse_positive d fallback : 0 < d -> Js.orElse d fallback = d.
Proof.
  intro Hd. unfold Js.orElse.
  destruct (d =? 0) eqn:E; [apply Z.eqb_eq in E; lia | reflexivity].
Qed.

Lemma overlap_sym a b : overlap a b -> overlap b a.
Proof.
  destruct a as [[s1 e1]|], b as [[s2 e2]|]; simpl; try tauto.
  intros [t [H1 H2]]. exists t. tauto.
Qed.

(** An overlap is seen by the test of the overlap check. *)
Lemma overlap_seen time duration entry :
  overlap (interval time duration) (entryInterval entry) ->
  lt (timeToMinutes time)
     (option_map
        (fun s => s + Js.orElse (Types.duration entry)
                                DEFAULT_CLASS_DURATION_MINS)
        (timeToMinutes (Types.time entry)))
  && lt (timeToMinutes (Types.time entry))
        (option_map (fun s => s + duration) (timeToMinutes time))
  = true.
Proof.
  unfold entryInterval, interval.
  destruct (timeToMinutes time) as [s1|],
           (timeToMinutes (Types.time entry)) as [s2|]; simpl; try tauto.
  intros [t [H1 H2]]. apply andb_true_iff. split; apply Z.ltb_lt; lia.
Qed.

Lemma conflicts_of_clash f entry :
  Types.day entry = day f ->
  (forall editing, editingEntry f = Some editing -> id entry <> id editing) ->
  overlap (interval (time f) (duration f)) (entryInterval entry) ->
  conflicts f (timeToMinutes (time f))
            (option_map (fun s => s + duration f) (timeToMinutes (time f)))
            entry = true.
Proof.
  intros Hday Hother Hoverlap. unfold conflicts.
  rewrite Hday, String.eqb_refl. cbn [negb].
  destruct (editingEntry f) as [editing|].
  - destruct (String.eqb_spec (id entry) (id editing)) as [Hsame|_].
    + exfalso. exact (Hother editing eq_refl Hsame).
    + apply overlap_seen. exact Hoverlap.
  - apply overlap_seen. exact Hoverlap.
Qed.


Lemma clash_found f timetable :
  clashes f timetable ->
  exists conflictingEntry,
    find (conflicts f (timeToMinutes (time f))
            (option_map (fun s => s + duration f) (timeToMinutes (time f))))
         timetable = Some conflictingEntry
    /\ In conflictingEntry timetable.
Proof.
  intros (entry & Hin & Hday & Hother & Hoverlap).
  destruct (find _ timetable) as [c|] eqn:Hfind.
  - exists c. split; [reflexivity|]. apply find_some in Hfind. tauto.
  - exfalso. pose proof (find_none _ _ Hfind entry Hin) as Hclear.
    rewrite (conflicts_of_clash f entry Hday Hother Hoverlap) in Hclear.
    discriminate.
Qed.

Lemma filled_check f :
  filled f ->
  Js.falsy (time f) || Js.falsy (subject f) || (duration f <=? 0) = false.
Proof.
  intros (Htime & Hsubject & Hduration). unfold Js.falsy.
  destruct (String.eqb_spec (time f) EmptyString); [contradiction|].
  destruct (String.eqb_spec (subject f) EmptyString); [contradiction|].
  simpl. apply Z.leb_gt. exact Hduration.
Qed.

Lemma unfilled_check f :
  Js.falsy (time f) || Js.falsy (subject f) || (duration f <=? 0) = false ->
  filled f.
Proof.
  intro Hcheck. apply orb_false_iff in Hcheck. destruct Hcheck as [Hcheck Hd].
  apply orb_false_iff in Hcheck. destruct Hcheck as [Ht Hs].
  unfold Js.falsy in *. repeat split.
  - intro E. rewrite E in Ht. discriminate.
  - intro E. rewrite E in Hs. discriminate.
  - apply Z.leb_gt. exact Hd.
Qed.

(** What a clash leads to: a rejection, before anything is written. *)
Lemma clash_rejected f timetable subjects p addDoc updateDoc :
  clashes f timetable ->
  exists msg,
    handleSubmit f timetable subjects p addDoc updateDoc = (rejected f msg, p)
    /\ (filled f ->
        (editingEntry f = None -> (entriesForDay f timetable < 7)%nat) ->
        exists conflictingEntry,
          In conflictingEntry timetable
          /\ msg = conflictMessage conflictingEntry).
Proof.
  intro Hclash. destruct (clash_found f timetable Hclash) as (c & Hfind & Hin).
  unfold handleSubmit. fold (entriesForDay f timetable).
  destruct (Js.falsy (time f) || Js.falsy (subject f) || (duration f <=? 0))
    eqn:Hcheck.
  { eexists. split; [reflexivity|]. intro Hfilled.
    rewrite (filled_check f Hfilled) in Hcheck. discriminate. }
  destruct (match editingEntry f with
            | Some _ => false
            | None => (7 <=? entriesForDay f timetable)%nat
            end) eqn:Hcap.
  { eexists. split; [reflexivity|]. intros _ Hroom. exfalso.
    destruct (editingEntry f); [discriminate|].
    apply Nat.leb_le in Hcap. specialize (Hroom eq_refl). lia. }
  rewrite Hfind. eexists. split; [reflexivity|].
  intros _ _. exists c. split; [exact Hin | reflexivity].
Qed.

End TimetableForm.

Section TimetableInvariant.

Import TimetableManager.

Lemma asks_parse f s e :
  asks f s e ->
  timeToMinutes (time f) = Some s /\ 0 < duration f /\ e = s + duration f.
Proof.
  intros ((h & m & Hh & Hm & Htime & ->) & Hpos & ->). rewrite Htime.
  split; [exact (proj1 (proj2 (clock_readings h m Hh Hm)))|].
  split; [exact Hpos | reflexivity].
Qed.

Lemma occupies_parse entry s e :
  occupies entry s e ->
  timeToMinutes (Types.time entry) = Some s
  /\ Js.orElse (Types.duration entry) DEFAULT_CLASS_DURATION_MINS
     = Types.duration entry
  /\ 0 < Types.duration entry /\ e = s + Types.duration entry.
Proof.
  intros ((h & m & Hh & Hm & Htime & ->) & Hpos & ->). rewrite Htime.
  split; [exact (proj1 (proj2 (clock_readings h m Hh Hm)))|].
  split; [apply orElse_positive; exact Hpos|].
  split; [exact Hpos | reflexivity].
Qed.


Lemma collides_clashes f timetable : collides f timetable -> clashes f timetable.
Proof.
  intros (entry & s1 & e1 & s2 & e2 & Hin & Hday & Hother & Hasks & Hocc
          & Hmeet).
  exists entry. split; [exact Hin|]. split; [exact Hday|].
  split; [exact Hother|].
  destruct (asks_parse f s1 e1 Hasks) as (Hf & _ & ->).
  destruct (occupies_parse entry s2 e2 Hocc) as (Hentry & Hlasts & _ & ->).
  unfold entryInterval, interval. rewrite Hf, Hentry, Hlasts. exact Hmeet.
Qed.






(** C10: Per-day cap.  Adding an entry on a day that already has seven
    or more entries is rejected with an error and nothing is written; when
    the form is filled in, the error is the cap error.  Saving an edit never
    yields the cap error, however many entries the day has. *)
Theorem per_day_cap :
  forall (f : Form) (timetable : list TimetableEntry) (subjects : list string)
         (p : AppContext.Provider) (addDoc : Js.Answer string)
         (updateDoc : Js.Answer unit),
    let result := handleSubmit f timetable subjects p addDoc updateDoc in
    (editingEntry f = None -> (7 <= entriesForDay f timetable)%nat ->
     snd result = p
     /\ successMessage (fst result) = None
     /\ exists msg,
          error (fst result) = Some msg
          /\ (filled f -> msg = capMessage f))
    /\ (forall editing, editingEntry f = Some editing ->
                        error (fst result) <> Some (capMessage f)).
Proof.
  intros f timetable subjects p addDoc updateDoc result. split.
  - intros Hadd Hfull. unfold result, handleSubmit.
    fold (entriesForDay f timetable).
    destruct (Js.falsy (time f) || Js.falsy (subject f) || (duration f <=? 0))
      eqn:Hcheck.
    + cbn [fst snd rejected error successMessage].
      split; [reflexivity|]. split; [reflexivity|].
      eexists. split; [reflexivity|]. intro Hfilled.
      rewrite (filled_check f Hfilled) in Hcheck. discriminate.
    + rewrite Hadd. apply Nat.leb_le in Hfull. rewrite Hfull.
      cbn [fst snd rejected error successMessage].
      split; [reflexivity|]. split; [reflexivity|].
      eexists. split; reflexivity.
  - intros editing Hediting. unfold result, handleSubmit, capMessage.
    destruct (_ || _); [cbn; discriminate|].
    rewrite Hediting.
    destruct (find _ timetable) as [c|];
      [cbn; unfold conflictMessage; cbn; discriminate|].
    unfold AppContext.updateTimetableEntry.
    destruct (AppContext.db p) as [store|]; [|cbn; discriminate].
    destruct (_ || _); [cbn; discriminate|].
    destruct (Js.await _) as [u | e]; [cbn; discriminate|].
    destruct (String.eqb _ _); cbn; discriminate.
Qed.

End TimetableInvariant.



Lemma per_day_cap_witness :
  TimetableManager.editingEntry halfPastEight = None
  /\ (7 <= entriesForDay halfPastEight fullMonday)%nat
  /\ snd (TimetableManager.handleSubmit halfPastEight fullMonday ["Math"]
            facultyProvider (Js.Resolves "n1") (Js.Resolves tt))
     = facultyProvider.
Proof.
  split; [reflexivity|]. split; [vm_compute; lia|].
  apply (per_day_cap halfPastEight fullMonday ["Math"] facultyProvider
           (Js.Resolves "n1") (Js.Resolves tt));
    [reflexivity | vm_compute; lia].
Defined.

(** An edit on the full Monday goes through: the cap does not apply. *)
Example edit_on_full_day_saved :
  TimetableManager.successMessage
    (fst (TimetableManager.handleSubmit movedToThree fullMonday ["Math"]
            facultyProvider (Js.Resolves "n1") (Js.Resolves tt)))
  = Some "Timetable entry updated successfully."
  /\ option_map Types.time
       (hd_error (timetableOf
          (snd (TimetableManager.handleSubmit movedToThree fullMonday ["Math"]
                  facultyProvider (Js.Resolves "n1") (Js.Resolves tt)))))
     = Some "15:00".
Proof. split; reflexivity. Qed.

(** ** The bulk purge *)

Section BulkPurge.

Import AppContext.

Lemma batchLoop_step records i :
  batchLoop records i
  = if (i <? List.length records)%nat
    then slice i (i + BATCH_SIZE) records :: batchLoop records (i + BATCH_SIZE)
    else [].
Proof.
  rewrite batchLoop_equation_1.
  destruct (lt_dec i (List.length records)) as [Hlt | Hge]; simpl.
  - apply Nat.ltb_lt in Hlt. rewrite Hlt. reflexivity.
  - apply Nat.ltb_nlt in Hge. rewrite Hge. reflexivity.
Qed.

(** The loop, by induction on the number of records still to be batched. *)
Lemma batchLoop_spec records :
  forall todo i,
    (List.length records - i <= todo)%nat ->
    List.concat (batchLoop records i) = skipn i records
    /\ Forall (fun batch => (1 <= List.length batch <= BATCH_SIZE)%nat)
              (batchLoop records i)
    /\ List.length (batchLoop records i)
       = ((List.length records - i + (BATCH_SIZE - 1)) / BATCH_SIZE)%nat.
Proof.
  induction todo as [|todo IH]; intros i Htodo; rewrite batchLoop_step.
  - assert (Hdone : (i <? List.length records)%nat = false)
      by (apply Nat.ltb_ge; lia).
    rewrite Hdone. simpl List.concat.
    rewrite skipn_all2 by lia.
    replace (List.length records - i)%nat with 0%nat by lia.
    repeat split. constructor.
  - destruct (i <? List.length records)%nat eqn:Hmore.
    + apply Nat.ltb_lt in Hmore.
      destruct (IH (i + BATCH_SIZE)%nat) as (Hconcat & Hsizes & Hcount);
        [unfold BATCH_SIZE; lia|].
      split; [|split].
      * simpl List.concat. rewrite Hconcat. unfold slice.
        replace (i + BATCH_SIZE - i)%nat with BATCH_SIZE by lia.
        replace (i + BATCH_SIZE)%nat with (BATCH_SIZE + i)%nat by lia.
        rewrite <- skipn_skipn. apply firstn_skipn.
      * constructor; [|exact Hsizes].
        unfold slice. rewrite length_firstn, length_skipn.
        unfold BATCH_SIZE. lia.
      * simpl List.length. rewrite Hcount. unfold BATCH_SIZE.
        destruct (le_lt_dec 500 (List.length records - i)) as [Hfull | Hlast].
        -- replace (List.length records - i + (500 - 1))%nat
             with (List.length records - (i + 500) + (500 - 1) + 1 * 500)%nat
             by lia.
           rewrite Nat.div_add by lia. lia.
        -- replace (List.length records - (i + 500))%nat with 0%nat by lia.
           rewrite (Nat.div_small (0 + (500 - 1)) 500) by lia.
           apply (Nat.div_unique _ 500 1 (List.length records - i - 1)); lia.
    + apply Nat.ltb_ge in Hmore. simpl List.concat.
      rewrite skipn_all2 by lia.
      replace (List.length records - i)%nat with 0%nat by lia.
      repeat split. constructor.
Qed.

Lemma firstRejection_none outcome order :
  Js.firstRejection outcome order = None
  <-> forall k, In k order -> outcome k = Js.Fulfilled.
Proof.
  induction order as [|j order IH]; simpl.
  - split; [intros _ k [] | reflexivity].
  - destruct (outcome j) eqn:Hj.
    + rewrite IH. split.
      * intros Hall k [<- | Hk]; [exact Hj | apply Hall; exact Hk].
      * intros Hall k Hk. apply Hall. right. exact Hk.
    + split; [discriminate|]. intro Hall.
      specialize (Hall j (or_introl eq_refl)). congruence.
Qed.

Lemma firstRejection_some outcome order e :
  Js.firstRejection outcome order = Some e ->
  exists k, In k order /\ outcome k = Js.Rejected e.
Proof.
  induction order as [|j order IH]; simpl; [discriminate|].
  destruct (outcome j) eqn:Hj.
  - intro Hlater. destruct (IH Hlater) as [k [Hk Hout]].
    exists k. split; [right; exact Hk | exact Hout].
  - intro Hfound. inversion Hfound; subst. exists j. split; [left|]; auto.
Qed.

Lemma firstRejection_first outcome order e :
  Js.firstRejection outcome order = Some e
  <-> exists before k after,
        order = (before ++ k :: after)%list
        /\ (forall j, In j before -> outcome j = Js.Fulfilled)
        /\ outcome k = Js.Rejected e.
Proof.
  induction order as [|j order IH]; simpl.
  - split; [discriminate|].
    intros (before & k & after & Horder & _).
    destruct before; discriminate.
  - destruct (outcome j) eqn:Hj.
    + rewrite IH. split.
      * intros (before & k & after & Horder & Hbefore & Hk).
        exists (j :: before), k, after. split; [rewrite Horder; reflexivity|].
        split; [|exact Hk].
        intros i [<- | Hi]; [exact Hj | apply Hbefore; exact Hi].
      * intros (before & k & after & Horder & Hbefore & Hk).
        destruct before as [|b before].
        -- simpl in Horder. inversion Horder; subst. congruence.
        -- simpl in Horder. inversion Horder; subst.
           exists before, k, after. split; [reflexivity|].
           split; [|exact Hk]. intros i Hi. apply Hbefore. right. exact Hi.
    + split.
      * intro Hfound. inversion Hfound; subst.
        exists [], j, order. split; [reflexivity|].
        split; [intros i []|exact Hj].
      * intros (before & k & after & Horder & Hbefore & Hk).
        destruct before as [|b before].
        -- simpl in Horder. inversion Horder; subst. congruence.
        -- simpl in Horder. inversion Horder; subst.
           specialize (Hbefore b (or_introl eq_refl)). congruence.
Qed.

Lemma promiseAll_first n commit settleOrder e :
  Js.promiseAll n commit settleOrder = Js.Throws e
  <-> firstFailure n commit settleOrder e.
Proof.
  unfold firstFailure, settled. rewrite <- firstRejection_first.
  unfold Js.promiseAll.
  destruct (Js.firstRejection commit _) as [e'|]; split;
    intro H; inversion H; subst; reflexivity.
Qed.

Lemma settled_none settleOrder : settled 0 settleOrder = [].
Proof.
  unfold settled. cbn [seq]. rewrite app_nil_r.
  induction settleOrder as [|a l IH]; [reflexivity|].
  cbn [filter].
  replace (a <? 0)%nat with false by (symmetry; apply Nat.ltb_ge; lia).
  exact IH.
Qed.

Lemma settle_order_members n settleOrder k :
  In k (filter (fun j => j <? n)%nat settleOrder ++ seq 0 n)%list
  <-> (k < n)%nat.
Proof.
  rewrite in_app_iff, filter_In, in_seq, Nat.ltb_lt. split; [|right]; lia.
Qed.

Lemma promiseAll_fulfils n commit settleOrder :
  Js.promiseAll n commit settleOrder = Js.Returns tt
  <-> forall k, (k < n)%nat -> commit k = Js.Fulfilled.
Proof.
  unfold Js.promiseAll.
  destruct (Js.firstRejection commit _) as [e|] eqn:Hfirst.
  - split; [discriminate|]. intro Hall.
    apply firstRejection_some in Hfirst. destruct Hfirst as [k [Hk Hout]].
    apply settle_order_members in Hk. rewrite (Hall k Hk) in Hout.
    discriminate.
  - split; [|reflexivity]. intros _ k Hk.
    apply (proj1 (firstRejection_none _ _) Hfirst).
    apply settle_order_members. exact Hk.
Qed.

Lemma promiseAll_rejects n commit settleOrder e :
  Js.promiseAll n commit settleOrder = Js.Throws e ->
  exists k, (k < n)%nat /\ commit k = Js.Rejected e.
Proof.
  unfold Js.promiseAll.
  destruct (Js.firstRejection commit _) as [e'|] eqn:Hfirst; [|discriminate].
  intro Hthrow. inversion Hthrow; subst e'.
  apply firstRejection_some in Hfirst. destruct Hfirst as [k [Hk Hout]].
  exists k. split; [apply settle_order_members in Hk; exact Hk | exact Hout].
Qed.

Lemma deleteChunk_In chunk records doc :
  In doc (deleteChunk chunk records)
  <-> In doc records /\ ~ In (recordId doc) (map recordId chunk).
Proof.
  unfold deleteChunk. rewrite filter_In, negb_true_iff.
  split; intros [Hin Hkeep]; (split; [exact Hin|]).
  - intro Hid. assert (Hex : existsb (String.eqb (recordId doc))
                                    (map recordId chunk) = true).
    { apply existsb_exists. exists (recordId doc).
      split; [exact Hid | apply String.eqb_refl]. }
    congruence.
  - destruct (existsb _ _) eqn:Hex; [|reflexivity].
    exfalso. apply Hkeep. apply existsb_exists in Hex.
    destruct Hex as [x [Hx Heq]]. apply String.eqb_eq in Heq. congruence.
Qed.

Lemma settleBatches_In commit batches :
  forall k records doc,
    In doc (settleBatches commit k batches records)
    <-> In doc records
        /\ ~ deletedBy (fun j => commit (k + j)%nat) batches doc.
Proof.
  induction batches as [|chunk batches IH]; intros k records doc; simpl.
  - split; [|tauto]. intro Hin. split; [exact Hin|].
    intros (j & batch & Hnth & _). destruct j; discriminate.
  - rewrite IH. split.
    + intros [Hin Hnot].
      assert (Hrec : In doc records).
      { destruct (commit k); [|exact Hin].
        apply deleteChunk_In in Hin. tauto. }
      split; [exact Hrec|].
      intros (j & batch & Hnth & Hok & Hid).
      destruct j as [|j].
      * simpl in Hnth. inversion Hnth; subst batch.
        rewrite Nat.add_0_r in Hok. rewrite Hok in Hin.
        apply deleteChunk_In in Hin. tauto.
      * apply Hnot. exists j, batch. simpl in Hnth.
        replace (S k + j)%nat with (k + S j)%nat by lia. tauto.
    + intros [Hin Hnot]. split.
      * destruct (commit k) eqn:Hk; [|exact Hin].
        apply deleteChunk_In. split; [exact Hin|].
        intro Hid. apply Hnot. exists 0%nat, chunk.
        rewrite Nat.add_0_r. simpl. tauto.
      * intros (j & batch & Hnth & Hok & Hid). apply Hnot.
        exists (S j), batch. simpl.
        replace (k + S j)%nat with (S k + j)%nat by lia. tauto.
Qed.

(** C8: Bulk purge (as the code has it).  For a faculty member with
    subjects, the purge reads the whole ledger; when that read fails it
    fails with the read's error, no batch issued and nothing deleted.
    Otherwise it takes the records of the faculty's subjects and cuts them,
    in order, into batches of at most 500, so N records make ceil(N/500)
    batches, all committed whatever becomes of the others.  The operation
    succeeds exactly when every batch committed; it fails exactly with the
    error of the commit that is the first to fail, the commits settled
    before it having fulfilled.  In the end the records deleted are those
    of the batches that committed: nothing is rolled back. *)
Theorem bulk_purge_batches :
  forall (p : Provider) (store : Firestore) (f : Faculty)
         (getDocs : Js.Answer unit)
         (commit : nat -> Js.Settled) (settleOrder : list nat),
    db p = Some store ->
    userRole p = Some faculty ->
    currentFaculty p = Some f ->
    subjects f <> [] ->
    let records := matching f (attendanceCollection store) in
    let batches := batchLoop records 0 in
    let result := deleteAllAttendanceRecords p getDocs commit settleOrder in
    List.concat batches = records
    /\ Forall (fun batch => (1 <= List.length batch <= 500)%nat) batches
    /\ List.length batches = ((List.length records + 499) / 500)%nat
    /\ (forall code msg,
          getDocs = Js.Fails code msg ->
          result = (Js.Throws (Js.mkError Js.Collaborator code msg), p))
    /\ (getDocs = Js.Resolves tt ->
        (fst result = Js.Returns tt
         <-> forall k, (k < List.length batches)%nat ->
                       commit k = Js.Fulfilled)
        /\ (forall e,
              fst result = Js.Throws e
              <-> firstFailure (List.length batches) commit settleOrder e)
        /\ (forall doc,
              In doc (ledger (snd result))
              <-> In doc (attendanceCollection store)
                  /\ ~ deletedBy commit batches doc)).
Proof.
  intros p store f getDocs commit settleOrder Hdb Hrole Hfaculty Hsubjects
         records batches result.
  destruct (batchLoop_spec records (List.length records) 0%nat)
    as (Hconcat & Hsizes & Hcount); [lia|].
  fold batches in Hconcat, Hsizes, Hcount.
  rewrite Nat.sub_0_r in Hcount. simpl skipn in Hconcat.
  assert (Hresult :
            result
            = match Js.await getDocs with
              | Js.Throws e => (Js.Throws e, p)
              | Js.Returns _ =>
                  if (List.length records =? 0)%nat then (Js.Returns tt, p)
                  else
                    (Js.promiseAll (List.length batches) commit settleOrder,
                     withStore p
                       {| attendanceCollection :=
                            settleBatches commit 0 batches
                                          (attendanceCollection store);
                          timetableCollection :=
                            timetableCollection store |})
              end).
  { unfold result, deleteAllAttendanceRecords.
    rewrite Hdb, Hrole, Hfaculty.
    destruct (subjects f) as [|s ss] eqn:Hs; [contradiction|].
    cbn [List.length Nat.eqb]. rewrite <- Hs. reflexivity. }
  assert (Hempty : (List.length records =? 0)%nat = true -> batches = []).
  { intro Hzero. apply Nat.eqb_eq in Hzero.
    apply length_zero_iff_nil. rewrite Hcount, Hzero. reflexivity. }
  split; [exact Hconcat|]. split; [exact Hsizes|]. split; [exact Hcount|].
  rewrite Hresult. split.
  { intros code msg Hread. rewrite Hread. reflexivity. }
  intro Hread. rewrite Hread. cbn [Js.await].
  destruct (List.length records =? 0)%nat eqn:Hzero.
  - rewrite (Hempty eq_refl). cbn [fst snd List.length].
    split; [split; [intros _ k Hk; lia | reflexivity]|].
    split.
    + intro e. split; [discriminate|].
      intros (before & k & after & Horder & _).
      rewrite settled_none in Horder. destruct before; discriminate.
    + intro doc. unfold ledger. rewrite Hdb. split; [|tauto].
      intro Hin. split; [exact Hin|].
      intros (k & batch & Hnth & _). destruct k; discriminate.
  - cbn [fst snd]. split; [apply promiseAll_fulfils|].
    split; [intro e; apply promiseAll_first|].
    intro doc. unfold ledger, withStore. cbn [db attendanceCollection].
    apply settleBatches_In.
Qed.

End BulkPurge.

(** The purge of 1200 records in three batches, the second failing: the
    first and third batches stay committed, 500 records stay in the ledger
    beside the 50 of the other subject. *)
Example purge_of_1200_records :
  map (@List.length _)
      (AppContext.batchLoop
         (matching drBose bigLedger) 0) = [500; 500; 200]%nat
  /\ fst (AppContext.deleteAllAttendanceRecords purgeProvider
            (Js.Resolves tt) secondFails [0; 1; 2]%nat)
     = Js.Throws quotaError
  /\ List.length
       (ledger (snd (AppContext.deleteAllAttendanceRecords purgeProvider
                       (Js.Resolves tt) secondFails [0; 1; 2]%nat)))
     = 550%nat.
Proof. vm_compute. repeat split. Qed.

(** C8, as stated, on that ledger: whether the second batch alone fails
    or the third fails too, the purge ends with the same single error, that
    of the second batch; what it reports does not tell which batches
    failed. *)
Lemma purge_reports_one_failure :
  fst (AppContext.deleteAllAttendanceRecords purgeProvider (Js.Resolves tt)
         secondFails [0; 1; 2]%nat)
  = Js.Throws quotaError
  /\ fst (AppContext.deleteAllAttendanceRecords purgeProvider
            (Js.Resolves tt) secondAndThirdFail [0; 1; 2]%nat)
     = Js.Throws quotaError
  /\ failedBatches 3 secondFails = [1]%nat
  /\ failedBatches 3 secondAndThirdFail = [1; 2]%nat
  /\ ~ exists report : Js.Completion unit -> list nat,
        forall commit,
          report (fst (AppContext.deleteAllAttendanceRecords purgeProvider
                         (Js.Resolves tt) commit [0; 1; 2]%nat))
          = failedBatches 3 commit.
Proof.
  assert (Hone : fst (AppContext.deleteAllAttendanceRecords purgeProvider
                        (Js.Resolves tt) secondFails [0; 1; 2]%nat)
                 = Js.Throws quotaError) by (vm_compute; reflexivity).
  assert (Htwo : fst (AppContext.deleteAllAttendanceRecords purgeProvider
                        (Js.Resolves tt) secondAndThirdFail [0; 1; 2]%nat)
                 = Js.Throws quotaError) by (vm_compute; reflexivity).
  split; [exact Hone|]. split; [exact Htwo|].
  split; [reflexivity|]. split; [reflexivity|].
  intros [report Hreport].
  pose proof (Hreport secondFails) as Ha.
  pose proof (Hreport secondAndThirdFail) as Hb.
  rewrite Hone in Ha. rewrite Htwo in Hb. rewrite Ha in Hb.
  discriminate Hb.
Qed.

(** On that ledger, with the second and the third batch failing and the
    third settling first: three batches, and the purge fails with the
    error of the third; with the read failing, it fails with the read's
    error and the ledger is as it was. *)
Lemma bulk_purge_batches_witness :
  AppContext.db purgeProvider
  = Some (AppContext.mkFirestore bigLedger [])
  /\ AppContext.userRole purgeProvider = Some AppContext.faculty
  /\ AppContext.currentFaculty purgeProvider = Some drBose
  /\ subjects drBose <> []
  /\ List.length (AppContext.batchLoop (matching drBose bigLedger) 0)
     = 3%nat
  /\ firstFailure 3 secondAndThirdFail [2; 1; 0]%nat offlineError
  /\ fst (AppContext.deleteAllAttendanceRecords purgeProvider
            (Js.Resolves tt) secondAndThirdFail [2; 1; 0]%nat)
     = Js.Throws offlineError
  /\ AppContext.deleteAllAttendanceRecords purgeProvider readFails
       secondAndThirdFail [2; 1; 0]%nat
     = (Js.Throws (Js.mkError Js.Collaborator "permission-denied"
                     "Missing or insufficient permissions."),
        purgeProvider).
Proof.
  assert (Hsubjects : subjects drBose <> []) by discriminate.
  assert (Hcount : List.length
                     (AppContext.batchLoop (matching drBose bigLedger) 0)
                   = 3%nat) by (vm_compute; reflexivity).
  assert (Hfirst : firstFailure 3 secondAndThirdFail [2; 1; 0]%nat
                     offlineError).
  { exists [], 2%nat, [1; 0; 0; 1; 2]%nat.
    split; [reflexivity|]. split; [intros j []|reflexivity]. }
  pose proof (bulk_purge_batches purgeProvider
                (AppContext.mkFirestore bigLedger []) drBose (Js.Resolves tt)
                secondAndThirdFail [2; 1; 0]%nat eq_refl eq_refl eq_refl
                Hsubjects) as Hpurge.
  pose proof (bulk_purge_batches purgeProvider
                (AppContext.mkFirestore bigLedger []) drBose readFails
                secondAndThirdFail [2; 1; 0]%nat eq_refl eq_refl eq_refl
                Hsubjects) as Hread.
  cbv zeta in Hpurge, Hread.
  split; [reflexivity|]. split; [reflexivity|]. split; [reflexivity|].
  split; [exact Hsubjects|]. split; [exact Hcount|]. split; [exact Hfirst|].
  split.
  - destruct (proj2 (proj2 (proj2 (proj2 Hpurge))) eq_refl)
      as (_ & Hfail & _).
    cbn [AppContext.attendanceCollection] in Hfail.
    apply (proj2 (Hfail offlineError)). rewrite Hcount. exact Hfirst.
  - exact (proj1 (proj2 (proj2 (proj2 Hread)))
                 "permission-denied" "Missing or insufficient permissions."
                 eq_refl).
Defined.

(** The decision table: high confidence, medium confidence before and
    after the retry, and a non-match however confident. *)
Example decision_table :
  let attempt st r :=
    fst (StudentPortal.verifyTry alice [mathEntry]
           (StudentPortal.retryAttempted st) studentProvider (Js.Resolves r)
           (Js.mkDate 1 9 30) "2025-01-06" (Js.Resolves "r1")) in
  let retried :=
    fst (StudentPortal.handleVerification scanned alice [mathEntry]
           studentProvider (Js.Resolves (mkVerification true 0.8))
           (Js.mkDate 1 9 30) "2025-01-06" (Js.Resolves "r1")) in
  attempt scanned (mkVerification true 0.95)
  = Js.Returns (StudentPortal.Marked "Math")
  /\ attempt scanned (mkVerification true 0.8)
     = Js.Returns (StudentPortal.RetryOffered 80)
  /\ StudentPortal.retryAttempted retried = true
  /\ attempt retried (mkVerification true 0.8)
     = Js.Throws (Js.error Js.ConfidenceTooLow
                    (StudentPortal.tooLowMessage 80))
  /\ attempt scanned (mkVerification false 0.99)
     = Js.Throws (Js.error Js.FaceNotRecognized
                    (StudentPortal.notRecognizedMessage 99)).
Proof. repeat split. Qed.

(** ** The two rules for the class in session

    In minutes, the test of the accept path of [handleVerification] keeps
    a class in session up to and including its last minute's end, where
    [getScheduleStatus] drops it at the end. *)

Lemma inSession_inclusive now entry :
  0 <= Js.getHours now < 24 ->
  0 <= Js.getMinutes now < 60 ->
  wellTimed entry ->
  let minutes := Js.getHours now * 60 + Js.getMinutes now in
  let classDuration :=
    Js.orElse (duration entry) DEFAULT_CLASS_DURATION_MINS in
  StudentPortal.inSession
    (nth_error StudentPortal.daysOfWeek (Js.getDay now))
    (StudentPortal.currentTime now) entry
  = Js.strictEq (day entry)
                (nth_error StudentPortal.daysOfWeek (Js.getDay now))
    && (startOf entry <=? minutes)
    && (minutes <=? startOf entry + classDuration).
Proof.
  intros Hh Hm Hwf minutes classDuration.
  pose proof (wellTimed_start entry Hwf) as Hstart.
  destruct Hwf as (h & m & Hh' & Hm' & Htime).
  unfold StudentPortal.inSession.
  destruct (Js.strictEq _ _); [|reflexivity].
  cbn [negb andb].
  change (StudentPortal.currentTime now)
    with (clock (Js.getHours now) (Js.getMinutes now)).
  destruct (clock_readings _ _ Hh Hm) as (_ & _ & Hnow).
  destruct (clock_readings h m Hh' Hm') as (Hs & _ & Hclass).
  rewrite Hnow. rewrite Htime in *. rewrite Hclass. cbn [option_map].
  rewrite Hs in Hstart. inversion Hstart as [Hsame].
  fold classDuration. fold minutes. rewrite Z.geb_leb.
  destruct (h * 60 + m <=? minutes) eqn:H1,
           (minutes <=? h * 60 + m + classDuration) eqn:H2;
    rewrite ?Z.leb_le, ?Z.leb_gt in H1, H2; cbn [andb];
    repeat match goal with
           | |- context [?a <=? ?b] =>
               let E := fresh in
               destruct (a <=? b) eqn:E;
               rewrite ?Z.leb_le, ?Z.leb_gt in E
           end; try reflexivity; lia.
Qed.

(** * Further properties *)

(** ** Deleting attendance records *)

Section LedgerDeletes.

Import AppContext.

Lemma deleteRefs_In refs records doc :
  In doc (deleteRefs refs records)
  <-> In doc records /\ ~ In (recordId doc) refs.
Proof.
  unfold deleteRefs. rewrite filter_In, negb_true_iff.
  split; intros [Hin Hkeep]; (split; [exact Hin|]).
  - intro Hid.
    assert (Hex : existsb (String.eqb (recordId doc)) refs = true).
    { apply existsb_exists. exists (recordId doc).
      split; [exact Hid | apply String.eqb_refl]. }
    congruence.
  - destruct (existsb _ _) eqn:Hex; [|reflexivity].
    exfalso. apply Hkeep. apply existsb_exists in Hex.
    destruct Hex as [x [Hx Heq]]. apply String.eqb_eq in Heq. congruence.
Qed.

Lemma deleteRefs_twice refs records :
  deleteRefs refs (deleteRefs refs records) = deleteRefs refs records.
Proof.
  unfold deleteRefs. induction records as [|doc records IH]; [reflexivity|].
  simpl. destruct (negb (existsb (String.eqb (recordId doc)) refs)) eqn:Hkeep.
  - simpl. rewrite Hkeep, IH. reflexivity.
  - exact IH.
Qed.

Lemma deleteRefs_nil records : deleteRefs [] records = records.
Proof.
  unfold deleteRefs. induction records as [|doc records IH]; simpl in *;
    [reflexivity | rewrite IH; reflexivity].
Qed.

Lemma batchRefs_referable ids :
  referable ids -> batchRefs ids = Js.Returns ids.
Proof.
  induction 1 as [|id ids [Hid _] Hids IH]; [reflexivity|].
  simpl. unfold docRef, Js.falsy.
  destruct (String.eqb_spec id EmptyString); [contradiction|].
  simpl. rewrite IH. reflexivity.
Qed.

Lemma batchRefs_returns ids refs :
  batchRefs ids = Js.Returns refs -> refs = ids.
Proof.
  revert refs. induction ids as [|id ids IH]; intros refs; simpl.
  - intro H. inversion H. reflexivity.
  - unfold docRef. destruct (Js.falsy id); [discriminate|]. simpl.
    destruct (batchRefs ids) as [rest|e]; [|discriminate]. simpl.
    intro H. inversion H. rewrite (IH rest eq_refl). reflexivity.
Qed.

(** X1: with the store configured, [deleteMultipleAttendanceRecords] on an
    empty list of ids returns normally and changes nothing; whatever the ids,
    it never adds a record, and when it throws the provider is left exactly
    as it was. *)
Theorem delete_many_is_safe :
  forall (p : Provider) (store : Firestore) (ids : list string)
         (commit : Js.Answer unit),
    db p = Some store ->
    let result := deleteMultipleAttendanceRecords p ids commit in
    (ids = [] -> result = (Js.Returns tt, p))
    /\ (forall doc, In doc (ledger (snd result)) -> In doc (ledger p))
    /\ (forall e, fst result = Js.Throws e -> snd result = p).
Proof.
  intros p store ids commit Hdb result.
  unfold result, deleteMultipleAttendanceRecords. rewrite Hdb.
  split; [intros ->; reflexivity|].
  destruct (List.length ids =? 0)%nat; [split; [tauto | reflexivity]|].
  destruct (batchRefs ids) as [refs|e]; [|split; [tauto | reflexivity]].
  destruct (Js.await commit) as [u|e]; [|split; [tauto | reflexivity]].
  split; [|discriminate].
  intros doc. unfold ledger. rewrite Hdb. simpl.
  intro Hin. apply deleteRefs_In in Hin. tauto.
Qed.

(** X2: when the ids are document ids (none empty, none holding the path
    separator) and the store commits the batch,
    [deleteMultipleAttendanceRecords] removes exactly the records whose id
    is listed and keeps every other one; doing it again with the same ids
    changes nothing more. *)
Theorem delete_many_removes_listed :
  forall (p : Provider) (store : Firestore) (ids : list string),
    db p = Some store ->
    referable ids ->
    let result := deleteMultipleAttendanceRecords p ids (Js.Resolves tt) in
    fst result = Js.Returns tt
    /\ (forall doc, In doc (ledger (snd result))
                    <-> In doc (ledger p) /\ ~ In (recordId doc) ids)
    /\ ledger (snd (deleteMultipleAttendanceRecords (snd result) ids
                      (Js.Resolves tt)))
       = ledger (snd result).
Proof.
  intros p store ids Hdb Hids result.
  assert (Hledger : ledger (snd result) = deleteRefs ids (ledger p)
                    /\ fst result = Js.Returns tt
                    /\ exists store', db (snd result) = Some store').
  { unfold result, deleteMultipleAttendanceRecords, ledger. rewrite Hdb.
    destruct ids as [|id ids].
    - simpl. rewrite Hdb. rewrite deleteRefs_nil.
      split; [reflexivity | split; [reflexivity | eauto]].
    - cbn [List.length Nat.eqb]. rewrite (batchRefs_referable _ Hids).
      simpl. split; [reflexivity | split; [reflexivity | eauto]]. }
  destruct Hledger as (Hledger & Hok & store' & Hdb').
  split; [exact Hok|]. split.
  - intro doc. rewrite Hledger. apply deleteRefs_In.
  - unfold deleteMultipleAttendanceRecords. rewrite Hdb'.
    destruct ids as [|id ids]; [reflexivity|].
    cbn [List.length Nat.eqb]. rewrite (batchRefs_referable _ Hids).
    cbn [Js.await]. unfold ledger at 1. cbn [snd db withAttendance withStore
      attendanceCollection].
    replace (attendanceCollection store') with (ledger (snd result))
      by (unfold ledger; rewrite Hdb'; reflexivity).
    rewrite Hledger. apply deleteRefs_twice.
Qed.

(** X3: [deleteAttendanceRecord] refuses an empty id with an error, the
    ledger untouched; on any other id it does what the batched delete does
    on that single id, for the same answer of the store. *)
Theorem delete_one_is_delete_many_of_one :
  forall (p : Provider) (store : Firestore) (id : string)
         (answer : Js.Answer unit),
    db p = Some store ->
    (id = EmptyString ->
     exists e, deleteAttendanceRecord p id answer = (Js.Throws e, p)
               /\ Js.message e = "Record ID is required for deletion.")
    /\ (id <> EmptyString ->
        deleteAttendanceRecord p id answer
        = deleteMultipleAttendanceRecords p [id] answer).
Proof.
  intros p store id answer Hdb.
  unfold deleteAttendanceRecord, deleteMultipleAttendanceRecords.
  rewrite Hdb. split.
  - intros ->. eexists. split; reflexivity.
  - intro Hid. simpl. unfold docRef, Js.falsy.
    destruct (String.eqb_spec id EmptyString); [contradiction|]. reflexivity.
Qed.

End LedgerDeletes.

Lemma delete_many_is_safe_witness :
  AppContext.db smallProvider
  = Some (AppContext.mkFirestore smallLedger [mathEntry])
  /\ AppContext.deleteMultipleAttendanceRecords smallProvider []
       (Js.Fails "unavailable" "offline")
     = (Js.Returns tt, smallProvider).
Proof.
  split; [reflexivity|].
  apply (delete_many_is_safe smallProvider
           (AppContext.mkFirestore smallLedger [mathEntry]) []
           (Js.Fails "unavailable" "offline")); reflexivity.
Defined.

Lemma delete_many_removes_listed_witness :
  AppContext.db smallProvider
  = Some (AppContext.mkFirestore smallLedger [mathEntry])
  /\ referable ["r1"; "r3"]
  /\ fst (AppContext.deleteMultipleAttendanceRecords smallProvider
            ["r1"; "r3"] (Js.Resolves tt))
     = Js.Returns tt
  /\ (forall doc,
        In doc (ledger (snd (AppContext.deleteMultipleAttendanceRecords
                               smallProvider ["r1"; "r3"] (Js.Resolves tt))))
        <-> In doc smallLedger /\ ~ In (recordId doc) ["r1"; "r3"])
  /\ ledger (snd (AppContext.deleteMultipleAttendanceRecords smallProvider
                    ["r1"; "r3"] (Js.Resolves tt)))
     = [mkAttendanceRecord "r2"
          (mkAttendanceData "u2" "Bob" "Math" "2025-01-06" absent)].
Proof.
  assert (Hids : referable ["r1"; "r3"]).
  { constructor; [split; [discriminate | reflexivity]|].
    constructor; [split; [discriminate | reflexivity]|]. constructor. }
  pose proof (delete_many_removes_listed smallProvider
                (AppContext.mkFirestore smallLedger [mathEntry])
                ["r1"; "r3"] eq_refl Hids) as (Hreturns & Hkept & _).
  split; [reflexivity|]. split; [exact Hids|].
  split; [exact Hreturns|]. split; [exact Hkept | reflexivity].
Defined.

Lemma delete_one_is_delete_many_of_one_witness :
  AppContext.db smallProvider
  = Some (AppContext.mkFirestore smallLedger [mathEntry])
  /\ "r2" <> EmptyString
  /\ AppContext.deleteAttendanceRecord smallProvider "r2" (Js.Resolves tt)
     = AppContext.deleteMultipleAttendanceRecords smallProvider ["r2"]
         (Js.Resolves tt).
Proof.
  split; [reflexivity|]. split; [discriminate|].
  apply (delete_one_is_delete_many_of_one smallProvider
           (AppContext.mkFirestore smallLedger [mathEntry]) "r2"
           (Js.Resolves tt)); [reflexivity | discriminate].
Defined.

(** ** Manual attendance *)

Section ManualAttendance.

Import AppContext.

(** X4: [markManualAttendance] for a uid no registered student has does
    nothing at all and reports no error, whatever the state of the store;
    for a registered student and a store that answers it appends exactly
    one record, marked present, dated today, for the given subject, under
    the name the roster has for that uid. *)
Theorem manual_attendance_marks_registered :
  forall (p : Provider) (students : list Student) (studentUid subject : string)
         (today : string) (addDoc : Js.Answer string),
    let result :=
      markManualAttendance p students studentUid subject today addDoc in
    ((forall s, In s students -> uid s <> studentUid) ->
     result = (Js.Returns tt, p))
    /\ (forall store newId,
          db p = Some store ->
          addDoc = Js.Resolves newId ->
          (exists s, In s students /\ uid s = studentUid) ->
          exists s,
            In s students /\ uid s = studentUid
            /\ fst result = Js.Returns tt
            /\ ledger (snd result)
               = (ledger p
                    ++ [mkAttendanceRecord newId
                          (mkAttendanceData studentUid (name s) subject today
                                            present)])%list).
Proof.
  intros p students studentUid subject today addDoc result.
  unfold result, markManualAttendance. split.
  - intro Hnone.
    destruct (find _ students) as [found|] eqn:Hfind; [|reflexivity].
    apply find_some in Hfind. destruct Hfind as [Hin Heq].
    apply String.eqb_eq in Heq. exfalso. exact (Hnone found Hin Heq).
  - intros store newId Hdb Hadd [s [Hin Huid]].
    destruct (find _ students) as [found|] eqn:Hfind.
    + apply find_some in Hfind. destruct Hfind as [Hfound Heq].
      apply String.eqb_eq in Heq.
      exists found. split; [exact Hfound|]. split; [exact Heq|].
      unfold addAttendanceRecord, ledger. rewrite Hdb, Hadd, Heq.
      split; reflexivity.
    + exfalso. pose proof (find_none _ _ Hfind s Hin) as Hno.
      simpl in Hno. rewrite Huid, String.eqb_refl in Hno. discriminate.
Qed.

End ManualAttendance.

Lemma manual_attendance_marks_registered_witness :
  ((forall s, In s roster -> uid s <> "u9")
   /\ AppContext.markManualAttendance smallProvider roster "u9" "Math"
        "2025-01-08" (Js.Resolves "r4")
      = (Js.Returns tt, smallProvider))
  /\ (exists s, In s roster /\ uid s = "u2")
  /\ fst (AppContext.markManualAttendance smallProvider roster "u2" "Math"
            "2025-01-08" (Js.Resolves "r4"))
     = Js.Returns tt
  /\ ledger (snd (AppContext.markManualAttendance smallProvider roster "u2"
                    "Math" "2025-01-08" (Js.Resolves "r4")))
     = (smallLedger
          ++ [mkAttendanceRecord "r4"
                (mkAttendanceData "u2" "Bob" "Math" "2025-01-08" present)])%list.
Proof.
  assert (Hnone : forall s, In s roster -> uid s <> "u9").
  { intros s [<- | [<- | []]]; discriminate. }
  assert (Hbob : exists s, In s roster /\ uid s = "u2").
  { exists bob. split; [right; left; reflexivity | reflexivity]. }
  split.
  { split; [exact Hnone|].
    exact (proj1 (manual_attendance_marks_registered smallProvider roster
                    "u9" "Math" "2025-01-08" (Js.Resolves "r4")) Hnone). }
  split; [exact Hbob|].
  destruct (proj2 (manual_attendance_marks_registered smallProvider roster
                     "u2" "Math" "2025-01-08" (Js.Resolves "r4"))
                  (AppContext.mkFirestore smallLedger [mathEntry]) "r4"
                  eq_refl eq_refl Hbob)
    as (s & Hin & Huid & Hreturns & Hledger).
  split; [exact Hreturns|].
  rewrite Hledger.
  destruct Hin as [<- | [<- | []]]; [discriminate Huid | reflexivity].
Defined.

(** ** Deleting timetable entries, and the order of the timetable *)

Section TimetableStore.

Import AppContext.

Lemma single_overlapFree entry : overlapFree [entry].
Proof.
  intros a b [<-|[]] [<-|[]] Hid. exfalso. apply Hid. reflexivity.
Qed.

Lemma filter_fresh id docs :
  ~ In id (map Types.id docs) ->
  filter (fun doc => negb (String.eqb (Types.id doc) id)) docs = docs.
Proof.
  induction docs as [|doc docs IH]; intro Hfresh; [reflexivity|].
  simpl in *. destruct (String.eqb_spec (Types.id doc) id) as [Heq|Hne].
  - exfalso. apply Hfresh. left. exact Heq.
  - simpl. rewrite IH by tauto. reflexivity.
Qed.

(** X6: adding an entry and then deleting it by the id the store gave it
    brings the timetable back to what it was, provided that id is not empty
    and no stored entry had it already. *)
Theorem add_then_delete_restores_timetable :
  forall (p : Provider) (entry : NewEntry) (newId : string),
    newId <> EmptyString ->
    ~ In newId (map Types.id (timetableOf p)) ->
    fst (addTimetableEntry p entry (Js.Resolves newId)) = Js.Returns tt ->
    let added := snd (addTimetableEntry p entry (Js.Resolves newId)) in
    In newId (map Types.id (timetableOf added))
    /\ fst (deleteTimetableEntry added newId (Js.Resolves tt)) = Js.Returns tt
    /\ timetableOf (snd (deleteTimetableEntry added newId (Js.Resolves tt)))
       = timetableOf p.
Proof.
  intros p entry newId Hid Hfresh Hadded added.
  unfold added in *. clear added. unfold addTimetableEntry in *.
  destruct (db p) as [store|] eqn:Hdb; [|discriminate].
  destruct (currentUser p) as [userUid|]; [|discriminate].
  destruct (currentFaculty p) as [f|]; [|discriminate].
  destruct (Js.falsy (facultyDepartment f)); [discriminate|].
  destruct (_ || _); [discriminate|].
  cbn [Js.await snd] in *.
  unfold timetableOf in Hfresh. rewrite Hdb in Hfresh.
  unfold deleteTimetableEntry, timetableOf, docRef, Js.falsy.
  cbn [db withTimetable withStore timetableCollection].
  destruct (String.eqb_spec newId EmptyString); [contradiction|].
  cbn [Js.bind Js.await fst snd db withTimetable withStore
       timetableCollection].
  rewrite Hdb. split; [|split; [reflexivity|]].
  - rewrite map_app, in_app_iff. right. left. reflexivity.
  - rewrite filter_app. cbn [filter Types.id].
    rewrite String.eqb_refl. cbn [negb]. rewrite app_nil_r.
    apply filter_fresh. exact Hfresh.
Qed.

End TimetableStore.

Lemma add_then_delete_restores_timetable_witness :
  "b" <> EmptyString
  /\ ~ In "b" (map id (timetableOf smallProvider))
  /\ timetableOf
       (snd (AppContext.deleteTimetableEntry
               (snd (AppContext.addTimetableEntry smallProvider
                       (AppContext.mkNewEntry "Tuesday" "10:00" "Math" 45)
                       (Js.Resolves "b")))
               "b" (Js.Resolves tt)))
     = timetableOf smallProvider.
Proof.
  assert (Hid : "b" <> EmptyString) by discriminate.
  assert (Hfresh : ~ In "b" (map id (timetableOf smallProvider)))
    by (intros [H|[]]; discriminate H).
  split; [exact Hid|]. split; [exact Hfresh|].
  exact (proj2 (proj2 (add_then_delete_restores_timetable smallProvider
                         (AppContext.mkNewEntry "Tuesday" "10:00" "Math" 45)
                         "b" Hid Hfresh eq_refl))).
Defined.

Section SnapshotOrder.

Import AppContext.

Lemma insert_Permutation {A : Type} (cmp : A -> A -> option Z) x l :
  Permutation (Js.insert cmp x l) (x :: l).
Proof.
  induction l as [|y l IH]; simpl; [reflexivity|].
  destruct (Js.keepsBefore cmp x y); [reflexivity|].
  rewrite IH. apply perm_swap.
Qed.

Lemma sort_Permutation {A : Type} (cmp : A -> A -> option Z) l :
  Permutation (Js.sort cmp l) l.
Proof.
  induction l as [|x l IH]; [reflexivity|].
  unfold Js.sort in *. simpl. rewrite insert_Permutation.
  apply perm_skip. exact IH.
Qed.

Lemma clock_nonempty h m :
  0 <= h < 24 -> Js.falsy (clock h m) = false.
Proof.
  intro Hh. unfold clock.
  pose proof (pad_length h ltac:(lia)) as Hlen.
  destruct (Js.padStart2 (Js.show h)); [discriminate Hlen | reflexivity].
Qed.

Lemma wellTimed_bounds entry :
  wellTimed entry ->
  0 <= startOf entry < 1440 /\ Js.falsy (time entry) = false.
Proof.
  intros (h & m & Hh & Hm & Htime). unfold startOf. rewrite Htime.
  rewrite (proj1 (clock_readings h m Hh Hm)).
  split; [lia | apply clock_nonempty; exact Hh].
Qed.

Lemma byDayThenTime_key x y :
  wellTimed x -> wellTimed y ->
  Js.keepsBefore byDayThenTime x y = (rank x <=? rank y).
Proof.
  intros Hx Hy.
  destruct (wellTimed_bounds x Hx) as [Hbx Hfx].
  destruct (wellTimed_bounds y Hy) as [Hby Hfy].
  pose proof (byTime_key x y Hx Hy) as Htime.
  unfold Js.keepsBefore, TimeUtils.byTime in Htime.
  unfold Js.keepsBefore, byDayThenTime, rank.
  set (ix := indexOf (day x) daysOfWeekOrder) in *.
  set (iy := indexOf (day y) daysOfWeekOrder) in *.
  destruct (ix - iy =? 0) eqn:Hsame; cbn [negb].
  - apply Z.eqb_eq in Hsame. rewrite Hfx, Hfy. cbn [negb andb].
    rewrite Htime. replace ix with iy by lia.
    destruct (startOf x <=? startOf y) eqn:H1,
             (iy * 1440 + startOf x <=? iy * 1440 + startOf y) eqn:H2;
      rewrite ?Z.leb_le, ?Z.leb_gt in *; try reflexivity; lia.
  - apply Z.eqb_neq in Hsame.
    destruct (ix - iy <=? 0) eqn:H1,
             (ix * 1440 + startOf x <=? iy * 1440 + startOf y) eqn:H2;
      rewrite ?Z.leb_le, ?Z.leb_gt in *; try reflexivity; lia.
Qed.

(** X7: [sortTimetable] only reorders the snapshot, and on entries whose
    times are clock fields the result is in order of day, Monday first (an
    unknown day before all), and within a day in order of start. *)
Theorem sorted_snapshot_is_ordered :
  forall timetableData : list TimetableEntry,
    Permutation (sortTimetable timetableData) timetableData
    /\ (Forall wellTimed timetableData ->
        ascending rank (sortTimetable timetableData)).
Proof.
  intro timetableData. split; [apply sort_Permutation|].
  intro Hwf. unfold sortTimetable.
  apply (sort_ascending byDayThenTime rank wellTimed byDayThenTime_key).
  exact Hwf.
Qed.

End SnapshotOrder.

Lemma sorted_snapshot_is_ordered_witness :
  Forall wellTimed [mondayClass 3 "m4"; mathEntry; mondayClass 0 "m1"]
  /\ ascending rank
       (AppContext.sortTimetable
          [mondayClass 3 "m4"; mathEntry; mondayClass 0 "m1"]).
Proof.
  assert (Hwf : Forall wellTimed
                  [mondayClass 3 "m4"; mathEntry; mondayClass 0 "m1"]).
  { repeat constructor;
      [exists 11, 0 | exists 9, 0 | exists 8, 0]; repeat split; lia. }
  split; [exact Hwf|].
  exact (proj2 (sorted_snapshot_is_ordered
                  [mondayClass 3 "m4"; mathEntry; mondayClass 0 "m1"]) Hwf).
Defined.

(** ** The class in session *)

Section CurrentClass.

Import TimeUtils.

Lemma visit_current_none minutes l :
  forall acc,
    (forall p, In p l -> current minutes p = false) ->
    fst (fold_left (visit minutes) l acc) = fst acc.
Proof.
  induction l as [|p l IH]; intros [c u] Hnone; [reflexivity|].
  simpl. rewrite IH by (intros q Hq; apply Hnone; right; exact Hq).
  pose proof (Hnone p (or_introl eq_refl)) as Hp.
  unfold visit, current in *.
  destruct (snd p) as [startTime|]; [|reflexivity].
  rewrite Hp. destruct (startTime >? minutes); reflexivity.
Qed.

Lemma visit_current_some minutes l :
  forall acc,
    (exists p, In p l /\ current minutes p = true) ->
    exists p,
      In p l /\ current minutes p = true
      /\ fst (fold_left (visit minutes) l acc) = Some (id (fst p)).
Proof.
  induction l as [|p l IH]; intros [c u] [q [Hq Hcur]]; [contradiction|].
  simpl. destruct (existsb (current minutes) l) eqn:Hlater.
  - apply existsb_exists in Hlater.
    destruct (IH (visit minutes (c, u) p) Hlater) as [r [Hr [Hrc Hres]]].
    exists r. split; [right; exact Hr|]. split; [exact Hrc | exact Hres].
  - assert (Hnone : forall r, In r l -> current minutes r = false).
    { intros r Hr. destruct (current minutes r) eqn:E; [|reflexivity].
      assert (existsb (current minutes) l = true)
        by (apply existsb_exists; eauto).
      congruence. }
    rewrite (visit_current_none minutes l _ Hnone).
    destruct Hq as [-> | Hq]; [|rewrite (Hnone q Hq) in Hcur; discriminate].
    exists q. split; [left; reflexivity|]. split; [exact Hcur|].
    unfold visit, current in *.
    destruct (snd q) as [startTime|]; [|discriminate].
    rewrite Hcur. destruct (startTime >? minutes); reflexivity.
Qed.

Lemma getScheduleStatus_current now timetable :
  currentClassId (getScheduleStatus now timetable)
  = fst (fold_left (visit (Js.getHours now * 60 + Js.getMinutes now))
           (Js.sort byStart (timed (entriesOn (Js.getDay now) timetable)))
           (None, [])).
Proof.
  unfold getScheduleStatus, timed, entriesOn.
  destruct (fold_left _ _ _) as [c u]. reflexivity.
Qed.

Lemma current_holdsNow minutes entry :
  current minutes (entry, startTimeValue (time entry)) = true ->
  holdsNow minutes entry = true.
Proof.
  unfold current, holdsNow, startOf. simpl.
  destruct (startTimeValue (time entry)) as [s|]; [|discriminate].
  rewrite Z.geb_leb. tauto.
Qed.

Lemma holdsNow_current minutes entry :
  wellTimed entry ->
  holdsNow minutes entry = true ->
  current minutes (entry, startTimeValue (time entry)) = true.
Proof.
  intro Hwf. unfold current, holdsNow. simpl.
  rewrite (wellTimed_start entry Hwf). rewrite Z.geb_leb. tauto.
Qed.

Lemma sorted_today_In now timetable p :
  In p (Js.sort byStart (timed (entriesOn (Js.getDay now) timetable)))
  <-> exists entry,
        In entry (entriesOn (Js.getDay now) timetable)
        /\ p = (entry, startTimeValue (time entry)).
Proof.
  rewrite sort_In. unfold timed. rewrite in_map_iff.
  split; intros [e [H1 H2]]; exists e; [split; auto | split; auto].
Qed.

Lemma wellTimed_interval entry :
  wellTimed entry ->
  entryInterval entry
  = Some (startOf entry,
          startOf entry
          + Js.orElse (duration entry) DEFAULT_CLASS_DURATION_MINS).
Proof.
  intros (h & m & Hh & Hm & Htime). unfold entryInterval, interval, startOf.
  rewrite Htime.
  destruct (clock_readings h m Hh Hm) as (Hs & Ht & _).
  rewrite Hs, Ht. reflexivity.
Qed.

Lemma entriesOn_day k timetable a b :
  In a (entriesOn k timetable) -> In b (entriesOn k timetable) ->
  day a = day b.
Proof.
  unfold entriesOn, onDay, Js.strictEq. intros Ha Hb.
  apply filter_In in Ha, Hb.
  destruct (nth_error DAYS_OF_WEEK k) as [name|];
    [|destruct Ha; discriminate].
  destruct Ha as [_ Ha], Hb as [_ Hb].
  apply String.eqb_eq in Ha, Hb. congruence.
Qed.

(** What [getScheduleStatus] reports as the current class. *)
Lemma current_class_facts :
  forall (now : Js.Date) (timetable : list TimetableEntry),
    Forall wellTimed timetable ->
    let today := Js.getDay now in
    let minutes := Js.getHours now * 60 + Js.getMinutes now in
    let result := getScheduleStatus now timetable in
    (forall i, currentClassId result = Some i ->
               exists entry,
                 In entry (entriesOn today timetable)
                 /\ id entry = i /\ holdsNow minutes entry = true)
    /\ ((forall entry, In entry (entriesOn today timetable) ->
                       holdsNow minutes entry = false) ->
        currentClassId result = None)
    /\ (overlapFree timetable ->
        forall entry,
          In entry (entriesOn today timetable) ->
          holdsNow minutes entry = true ->
          currentClassId result = Some (id entry))
    /\ (forall entry,
          In entry (entriesOn today timetable) ->
          holdsNow minutes entry = true ->
          currentClassId result <> None).
Proof.
  intros now timetable Hwf today minutes result.
  assert (Htoday : forall e, In e (entriesOn today timetable) ->
                             In e timetable /\ wellTimed e).
  { intros e He. unfold entriesOn in He. apply filter_In in He.
    rewrite Forall_forall in Hwf. split; [tauto | apply Hwf; tauto]. }
  set (sorted := Js.sort byStart (timed (entriesOn today timetable))).
  assert (Hresult : currentClassId result
                    = fst (fold_left (visit minutes) sorted (None, [])))
    by apply getScheduleStatus_current.
  assert (Hsome : (exists p, In p sorted /\ current minutes p = true) ->
                  exists entry,
                    In entry (entriesOn today timetable)
                    /\ holdsNow minutes entry = true
                    /\ currentClassId result = Some (id entry)).
  { intro Hex.
    destruct (visit_current_some minutes sorted (None, []) Hex)
      as (p & Hp & Hcur & Hfold).
    apply sorted_today_In in Hp. destruct Hp as (e & He & ->).
    exists e. split; [exact He|]. split; [apply current_holdsNow; exact Hcur|].
    rewrite Hresult. exact Hfold. }
  assert (Hnone : (forall p, In p sorted -> current minutes p = false) ->
                  currentClassId result = None).
  { intro Hno. rewrite Hresult.
    apply (visit_current_none minutes sorted (None, []) Hno). }
  assert (Hdec : (exists p, In p sorted /\ current minutes p = true)
                 \/ (forall p, In p sorted -> current minutes p = false)).
  { destruct (existsb (current minutes) sorted) eqn:E.
    - left. apply existsb_exists in E. exact E.
    - right. intros p Hp. destruct (current minutes p) eqn:Ep; [|reflexivity].
      assert (existsb (current minutes) sorted = true)
        by (apply existsb_exists; eauto).
      congruence. }
  assert (Hfound : forall entry,
            In entry (entriesOn today timetable) ->
            holdsNow minutes entry = true ->
            exists p, In p sorted /\ current minutes p = true).
  { intros e He Hhold. exists (e, startTimeValue (time e)). split.
    - apply sorted_today_In. eauto.
    - apply holdsNow_current; [apply Htoday; exact He | exact Hhold]. }
  split; [|split; [|split]].
  - intros i Hi. destruct Hdec as [Hex | Hno].
    + destruct (Hsome Hex) as (e & He & Hhold & Hcur).
      exists e. split; [exact He|]. split; [congruence | exact Hhold].
    + rewrite (Hnone Hno) in Hi. discriminate.
  - intro Hall. apply Hnone. intros p Hp.
    apply sorted_today_In in Hp. destruct Hp as (e & He & ->).
    destruct (current minutes _) eqn:E; [|reflexivity].
    apply current_holdsNow in E. rewrite (Hall e He) in E. discriminate.
  - intros Hfree e He Hhold.
    destruct (Hsome (Hfound e He Hhold)) as (e' & He' & Hhold' & Hcur).
    rewrite Hcur. f_equal.
    destruct (String.eqb_spec (id e') (id e)) as [Heq | Hne]; [exact Heq|].
    exfalso.
    apply (Hfree e' e (proj1 (Htoday e' He')) (proj1 (Htoday e He)) Hne
                 (entriesOn_day _ _ _ _ He' He)).
    rewrite (wellTimed_interval e' (proj2 (Htoday e' He'))).
    rewrite (wellTimed_interval e (proj2 (Htoday e He))).
    unfold holdsNow in Hhold, Hhold'.
    apply andb_true_iff in Hhold, Hhold'.
    destruct Hhold as [H1 H2], Hhold' as [H3 H4].
    apply Z.leb_le in H1, H3. apply Z.ltb_lt in H2, H4.
    exists minutes. lia.
  - intros e He Hhold.
    destruct (Hsome (Hfound e He Hhold)) as (e' & _ & _ & Hcur).
    rewrite Hcur. discriminate.
Qed.

(** X8: on a timetable whose times are clock fields, [getScheduleStatus]
    reports as current only an entry of the current day that has started
    and is not yet at its end, and reports none only when the day has no
    such entry; when the timetable has no same-day overlaps, the entry
    reported is the one in session. *)
Theorem current_class_is_in_session :
  forall (now : Js.Date) (timetable : list TimetableEntry),
    Forall wellTimed timetable ->
    let today := Js.getDay now in
    let minutes := Js.getHours now * 60 + Js.getMinutes now in
    let result := getScheduleStatus now timetable in
    (forall i, currentClassId result = Some i ->
               exists entry,
                 In entry (entriesOn today timetable)
                 /\ id entry = i /\ holdsNow minutes entry = true)
    /\ (currentClassId result = None ->
        forall entry, In entry (entriesOn today timetable) ->
                      holdsNow minutes entry = false)
    /\ (overlapFree timetable ->
        forall entry,
          In entry (entriesOn today timetable) ->
          holdsNow minutes entry = true ->
          currentClassId result = Some (id entry)).
Proof.
  intros now timetable Hwf today minutes result.
  destruct (current_class_facts now timetable Hwf)
    as (Hsound & _ & Hunique & Hsome).
  split; [exact Hsound|]. split; [|exact Hunique].
  intros Hnone entry Hentry.
  destruct (holdsNow minutes entry) eqn:Hhold; [|reflexivity].
  exfalso. exact (Hsome entry Hentry Hhold Hnone).
Qed.

(** X9: away from the minute at which a class of the day ends, the class
    the accept path of [handleVerification] resolves is the class
    [getScheduleStatus] reports as current (and neither finds one when the
    other does not), on a timetable of clock fields without same-day
    overlaps. *)
Theorem accept_path_agrees_off_the_end_minute :
  forall (now : Js.Date) (timetable : list TimetableEntry),
    Forall wellTimed timetable ->
    validClock now ->
    overlapFree timetable ->
    noneEndsAt (Js.getHours now * 60 + Js.getMinutes now)
               (entriesOn (Js.getDay now) timetable) ->
    option_map id (StudentPortal.resolveClass now timetable)
    = currentClassId (getScheduleStatus now timetable).
Proof.
  intros now timetable Hwf [Hh Hm] Hfree Hends.
  set (minutes := Js.getHours now * 60 + Js.getMinutes now) in *.
  destruct (current_class_facts now timetable Hwf)
    as (Hsound & Hnone & Hunique & _).
  fold minutes in Hsound, Hnone, Hunique.
  assert (Hrule : forall e, In e timetable ->
            StudentPortal.inSession
              (nth_error StudentPortal.daysOfWeek (Js.getDay now))
              (StudentPortal.currentTime now) e = true
            <-> In e (entriesOn (Js.getDay now) timetable)
                /\ holdsNow minutes e = true).
  { intros e He. rewrite Forall_forall in Hwf.
    rewrite (inSession_inclusive now e Hh Hm (Hwf e He)). fold minutes.
    unfold entriesOn. rewrite filter_In. unfold onDay, holdsNow.
    change StudentPortal.daysOfWeek with DAYS_OF_WEEK.
    rewrite !andb_true_iff, Z.leb_le, Z.leb_le, Z.ltb_lt.
    split.
    - intros [[Hday Hstart] Hend].
      assert (Hin : In e (entriesOn (Js.getDay now) timetable)).
      { unfold entriesOn. apply filter_In. split; assumption. }
      pose proof (Hends e Hin). repeat split; try assumption. lia.
    - intros [[_ Hday] [Hstart Hend]]. repeat split; try assumption. lia. }
  unfold StudentPortal.resolveClass.
  destruct (find _ timetable) as [e|] eqn:Hfind.
  - apply find_some in Hfind. destruct Hfind as [He Hin].
    apply (Hrule e He) in Hin. destruct Hin as [Htoday Hhold].
    simpl. symmetry. apply Hunique; assumption.
  - simpl. symmetry. apply Hnone. intros e He.
    destruct (holdsNow minutes e) eqn:Hhold; [|reflexivity].
    assert (Hin : In e timetable).
    { unfold entriesOn in He. apply filter_In in He. tauto. }
    pose proof (find_none _ _ Hfind e Hin) as Hno.
    assert (Hyes := proj2 (Hrule e Hin) (conj He Hhold)).
    congruence.
Qed.

End CurrentClass.

Lemma current_class_is_in_session_witness :
  Forall wellTimed [mathEntry]
  /\ overlapFree [mathEntry]
  /\ holdsNow (9 * 60 + 10) mathEntry = true
  /\ TimeUtils.currentClassId
       (TimeUtils.getScheduleStatus (Js.mkDate 1 9 10) [mathEntry])
     = Some "a".
Proof.
  assert (Hwf : Forall wellTimed [mathEntry]).
  { repeat constructor. exists 9, 0. repeat split; lia. }
  assert (Hfree : overlapFree [mathEntry])
    by exact (single_overlapFree mathEntry).
  split; [exact Hwf|]. split; [exact Hfree|]. split; [reflexivity|].
  exact (proj2 (proj2 (current_class_is_in_session (Js.mkDate 1 9 10)
                         [mathEntry] Hwf))
               Hfree mathEntry (or_introl eq_refl) eq_refl).
Defined.

Lemma accept_path_agrees_off_the_end_minute_witness :
  Forall wellTimed [mathEntry]
  /\ validClock (Js.mkDate 1 9 10)
  /\ overlapFree [mathEntry]
  /\ noneEndsAt (9 * 60 + 10) (entriesOn 1 [mathEntry])
  /\ option_map id (StudentPortal.resolveClass (Js.mkDate 1 9 10) [mathEntry])
     = TimeUtils.currentClassId
         (TimeUtils.getScheduleStatus (Js.mkDate 1 9 10) [mathEntry]).
Proof.
  assert (Hwf : Forall wellTimed [mathEntry]).
  { repeat constructor. exists 9, 0. repeat split; lia. }
  assert (Hclock : validClock (Js.mkDate 1 9 10))
    by (unfold validClock; simpl; lia).
  assert (Hfree : overlapFree [mathEntry])
    by exact (single_overlapFree mathEntry).
  assert (Hends : noneEndsAt (9 * 60 + 10) (entriesOn 1 [mathEntry]))
    by (intros entry [<-|[]]; vm_compute; discriminate).
  split; [exact Hwf|]. split; [exact Hclock|]. split; [exact Hfree|].
  split; [exact Hends|].
  exact (accept_path_agrees_off_the_end_minute (Js.mkDate 1 9 10) [mathEntry]
           Hwf Hclock Hfree Hends).
Defined.

(** ** The text of the matcher's response *)

Section ResponseText.

Import GeminiService.

Lemma append_assoc (a b c : string) : (a ++ b) ++ c = a ++ (b ++ c).
Proof. induction a as [|x a IH]; simpl; [reflexivity | rewrite IH; reflexivity]. Qed.

Lemma append_nil_r (a : string) : a ++ EmptyString = a.
Proof. induction a as [|x a IH]; simpl; [reflexivity | rewrite IH; reflexivity]. Qed.

Lemma length_append (a b : string) :
  String.length (a ++ b) = (String.length a + String.length b)%nat.
Proof. induction a as [|x a IH]; simpl; [reflexivity | rewrite IH; reflexivity]. Qed.

Lemma from_append (a b : string) : Js.from (String.length a) (a ++ b) = b.
Proof. induction a as [|x a IH]; simpl; [destruct b; reflexivity | exact IH]. Qed.

Lemma startsWith_append (p s : string) : Js.startsWith (p ++ s) p = true.
Proof.
  unfold Js.startsWith. induction p as [|x p IH]; simpl.
  - destruct s; reflexivity.
  - destruct (ascii_dec x x) as [_|Hne]; [exact IH | contradiction].
Qed.

Lemma endsWith_append (s p : string) : Js.endsWith (s ++ p) p = true.
Proof.
  unfold Js.endsWith. rewrite length_append.
  replace (String.length s + String.length p - String.length p)%nat
    with (String.length s) by lia.
  rewrite from_append, String.eqb_refl.
  apply andb_true_iff. split; [apply Nat.leb_le; lia | reflexivity].
Qed.

Lemma dropLast_append (s p : string) :
  Js.dropLast (String.length p) (s ++ p) = s.
Proof.
  unfold Js.dropLast. rewrite length_append.
  replace (String.length s + String.length p - String.length p)%nat
    with (String.length s) by lia.
  induction s as [|x s IH]; simpl.
  - destruct p; reflexivity.
  - rewrite IH. reflexivity.
Qed.

Lemma trimStart_blank (ws s : string) :
  blank ws = true -> Js.trimStart (ws ++ s) = Js.trimStart s.
Proof.
  induction ws as [|c ws IH]; simpl; [reflexivity|].
  intro Hws. apply andb_true_iff in Hws. destruct Hws as [Hc Hws].
  rewrite Hc. apply IH. exact Hws.
Qed.

Lemma trimEnd_blank (ws : string) : blank ws = true -> Js.trimEnd ws = EmptyString.
Proof.
  induction ws as [|c ws IH]; simpl; [reflexivity|].
  intro Hws. apply andb_true_iff in Hws. destruct Hws as [Hc Hws].
  rewrite (IH Hws), Hc. reflexivity.
Qed.

Lemma trimEnd_append (a b : string) :
  Js.trimEnd (a ++ b)
  = match Js.trimEnd b with
    | EmptyString => Js.trimEnd a
    | kept => a ++ kept
    end.
Proof.
  induction a as [|c a IH]; simpl.
  - destruct (Js.trimEnd b); reflexivity.
  - rewrite IH. destruct (Js.trimEnd b) as [|d kept]; [reflexivity|].
    destruct a; reflexivity.
Qed.

Lemma trimEnd_idempotent (s : string) : Js.trimEnd (Js.trimEnd s) = Js.trimEnd s.
Proof.
  induction s as [|c s IH]; simpl; [reflexivity|].
  destruct (Js.trimEnd s) as [|d kept] eqn:Hkept.
  - destruct (Js.isSpace c) eqn:Hc; simpl; [reflexivity|].
    rewrite Hc. reflexivity.
  - simpl in IH |- *. rewrite IH. reflexivity.
Qed.

Lemma trim_idempotent (s : string) : Js.trim (Js.trim s) = Js.trim s.
Proof.
  unfold Js.trim.
  assert (Hhead : forall u, Js.trimStart (Js.trimEnd (Js.trimStart u))
                            = Js.trimEnd (Js.trimStart u)).
  { intro u. induction u as [|c u IH]; [reflexivity|].
    cbn [Js.trimStart]. destruct (Js.isSpace c) eqn:Hc; [exact IH|].
    cbn [Js.trimEnd]. destruct (Js.trimEnd u); [rewrite Hc|];
      cbn [Js.trimStart]; rewrite Hc; reflexivity. }
  rewrite Hhead. apply trimEnd_idempotent.
Qed.

(** The text between the fences, once the text around them is gone. *)
Lemma fenced_text (opening before body after : string) :
  blank before = true -> blank after = true ->
  Js.isSpace (match opening with String c _ => c | EmptyString => " " end)
  = false ->
  Js.trim (before ++ opening ++ body ++ "```" ++ after)
  = opening ++ body ++ "```".
Proof.
  intros Hbefore Hafter Hopen. unfold Js.trim.
  rewrite (trimStart_blank before _ Hbefore).
  destruct opening as [|c opening]; [discriminate Hopen|].
  assert (Hhead : Js.trimStart (String c opening ++ body ++ "```" ++ after)
                  = String c opening ++ body ++ "```" ++ after).
  { cbn [String.append Js.trimStart]. rewrite Hopen. reflexivity. }
  rewrite Hhead.
  rewrite (trimEnd_append (String c opening) (body ++ "```" ++ after)).
  rewrite (trimEnd_append body ("```" ++ after)).
  rewrite (trimEnd_append "```" after).
  rewrite (trimEnd_blank after Hafter).
  change (Js.trimEnd "```") with "```".
  destruct body; reflexivity.
Qed.

Lemma startsWith_longer s p q :
  Js.startsWith s p = false -> Js.startsWith s (p ++ q) = false.
Proof.
  unfold Js.startsWith. revert s.
  induction p as [|c p IH]; intros [|d s]; simpl;
    try discriminate; try reflexivity.
  destruct (ascii_dec c d); [apply IH | reflexivity].
Qed.

(** X10: the text [verifyFace] hands to [JSON.parse] is the response
    without its Markdown fence: for a payload between a json fence and a
    closing fence, with any white space around them, it is the payload
    trimmed; the same for a plain fence, unless the payload itself begins
    with the letters json; and a response that neither begins nor ends with
    a fence is only trimmed. *)
Theorem fences_are_removed :
  forall before body after : string,
    blank before = true ->
    blank after = true ->
    jsonString (before ++ "```json" ++ body ++ "```" ++ after) = Js.trim body
    /\ (Js.startsWith (body ++ "```") "json" = false ->
        jsonString (before ++ "```" ++ body ++ "```" ++ after) = Js.trim body)
    /\ (forall text,
          Js.startsWith (Js.trim text) "```" = false ->
          Js.endsWith (Js.trim text) "```" = false ->
          jsonString text = Js.trim text).
Proof.
  intros before body after Hbefore Hafter.
  assert (Hfrom7 : forall s, Js.from 7 ("```json" ++ s) = s)
    by (intro s; exact (from_append "```json" s)).
  assert (Hfrom3 : forall s, Js.from 3 ("```" ++ s) = s)
    by (intro s; exact (from_append "```" s)).
  assert (Hdrop : forall s, Js.dropLast 3 (s ++ "```") = s)
    by (intro s; exact (dropLast_append s "```")).
  split; [|split].
  - unfold jsonString.
    rewrite (fenced_text "```json" before body after Hbefore Hafter eq_refl).
    rewrite startsWith_append, Hfrom7, endsWith_append, Hdrop. reflexivity.
  - intro Hplain. unfold jsonString.
    rewrite (fenced_text "```" before body after Hbefore Hafter eq_refl).
    assert (Hjson : Js.startsWith ("```" ++ body ++ "```") "```json" = false).
    { unfold Js.startsWith in *. simpl. exact Hplain. }
    rewrite Hjson, startsWith_append, Hfrom3, endsWith_append, Hdrop.
    reflexivity.
  - intros text Hstart Hend. unfold jsonString.
    assert (Hjson : Js.startsWith (Js.trim text) "```json" = false)
      by exact (startsWith_longer (Js.trim text) "```" "json" Hstart).
    rewrite Hjson, Hstart, Hend. apply trim_idempotent.
Qed.

Lemma split_lacks sep s : lacks sep s = true -> Js.split sep s = [s].
Proof.
  induction s as [|c s IH]; simpl; [reflexivity|].
  intro H. apply andb_true_iff in H. destruct H as [Hc Hs].
  apply negb_true_iff in Hc. rewrite Hc, (IH Hs). reflexivity.
Qed.

Lemma split_append sep a b :
  lacks sep a = true ->
  Js.split sep (a ++ String sep b) = a :: Js.split sep b.
Proof.
  induction a as [|c a IH]; simpl.
  - intros _. rewrite Ascii.eqb_refl. reflexivity.
  - intro H. apply andb_true_iff in H. destruct H as [Hc Ha].
    apply negb_true_iff in Hc. rewrite Hc, (IH Ha). reflexivity.
Qed.

(** X11: [getBase64Data] gives back a string without a comma as it is,
    and from a data URL, a header and a payload joined by a comma, it keeps
    the payload. *)
Theorem base64_payload :
  forall header data : string,
    lacks "," header = true ->
    lacks "," data = true ->
    getBase64Data data = data
    /\ getBase64Data (header ++ "," ++ data) = data.
Proof.
  intros header data Hheader Hdata. unfold getBase64Data. split.
  - rewrite (split_lacks "," data Hdata). reflexivity.
  - change ("," ++ data) with (String "," data).
    rewrite (split_append "," header data Hheader).
    rewrite (split_lacks "," data Hdata). reflexivity.
Qed.

End ResponseText.

Lemma fences_are_removed_witness :
  blank " " = true
  /\ GeminiService.jsonString (" " ++ "```json" ++ "[1]" ++ "```" ++ " ")
     = Js.trim "[1]"
  /\ Js.startsWith ("[1]" ++ "```") "json" = false
  /\ GeminiService.jsonString (" " ++ "```" ++ "[1]" ++ "```" ++ " ")
     = Js.trim "[1]".
Proof.
  split; [reflexivity|].
  split;
    [exact (proj1 (fences_are_removed " " "[1]" " " eq_refl eq_refl))|].
  split; [reflexivity|].
  exact (proj1 (proj2 (fences_are_removed " " "[1]" " " eq_refl eq_refl))
               eq_refl).
Defined.

Lemma base64_payload_witness :
  lacks "," "data:image/jpeg;base64" = true
  /\ lacks "," "abc" = true
  /\ GeminiService.getBase64Data ("data:image/jpeg;base64" ++ "," ++ "abc")
     = "abc".
Proof.
  split; [reflexivity|]. split; [reflexivity|].
  exact (proj2 (base64_payload "data:image/jpeg;base64" "abc"
                  eq_refl eq_refl)).
Defined.

(** ** The countdown of the code on display *)

Section Countdown.

Import QRCodeGenerator.

Lemma tick_max c : 0 <= c -> tick c = Z.max 0 (c - 1).
Proof.
  intro Hc. unfold tick. destruct (c >? 0) eqn:E.
  - apply Z.gtb_lt in E. lia.
  - rewrite Z.gtb_ltb in E. apply Z.ltb_ge in E. lia.
Qed.

(** X12: the countdown under the code loses one second at each firing of
    the interval until it reaches 0, and stays there: from a count
    [c >= 0], [n] firings leave [max 0 (c - n)]. *)
Theorem countdown_stops_at_zero :
  forall (n : nat) (c : Z),
    0 <= c -> countdownAfter n c = Z.max 0 (c - Z.of_nat n).
Proof.
  induction n as [|n IH]; intros c Hc.
  - cbn [countdownAfter]. lia.
  - cbn [countdownAfter]. rewrite IH by (rewrite tick_max; lia).
    rewrite tick_max by exact Hc. lia.
Qed.

End Countdown.

Lemma countdown_stops_at_zero_witness :
  0 <= QRCodeGenerator.initialCountdown
  /\ QRCodeGenerator.countdownAfter 12 QRCodeGenerator.initialCountdown
     = Z.max 0 (QRCodeGenerator.initialCountdown - Z.of_nat 12).
Proof.
  assert (H : 0 <= QRCodeGenerator.initialCountdown)
    by (vm_compute; discriminate).
  split; [exact H|].
  exact (countdown_stops_at_zero 12 QRCodeGenerator.initialCountdown H).
Defined.

(** ** Submissions that go through *)

Section Submissions.

Import TimetableManager.

Lemma orElse_default d : 0 <= d -> 0 < Js.orElse d DEFAULT_CLASS_DURATION_MINS.
Proof.
  intro Hd. unfold Js.orElse, DEFAULT_CLASS_DURATION_MINS.
  destruct (d =? 0) eqn:E; [lia | apply Z.eqb_neq in E; lia].
Qed.

Lemma orElse_twice d : Js.orElse (Js.orElse d 45) 45 = Js.orElse d 45.
Proof.
  unfold Js.orElse.
  destruct (d =? 0) eqn:E; [reflexivity | rewrite E; reflexivity].
Qed.

(** The test of the overlap check fires only on a real overlap, when both
    classes last a positive time. *)
Lemma seen_is_overlap time duration entry :
  0 < duration ->
  0 <= Types.duration entry ->
  lt (timeToMinutes time)
     (option_map
        (fun s => s + Js.orElse (Types.duration entry)
                                DEFAULT_CLASS_DURATION_MINS)
        (timeToMinutes (Types.time entry)))
  && lt (timeToMinutes (Types.time entry))
        (option_map (fun s => s + duration) (timeToMinutes time))
  = true ->
  overlap (interval time duration) (entryInterval entry).
Proof.
  intros Hd He. pose proof (orElse_default _ He) as Hpos.
  unfold entryInterval, interval.
  destruct (timeToMinutes time) as [s1|],
           (timeToMinutes (Types.time entry)) as [s2|]; simpl;
    try discriminate.
  intro H. apply andb_true_iff in H. destruct H as [H1 H2].
  apply Z.ltb_lt in H1, H2. exists (Z.max s1 s2). lia.
Qed.

Lemma conflict_is_clash f entry :
  0 < duration f ->
  0 <= Types.duration entry ->
  conflicts f (timeToMinutes (time f))
            (option_map (fun s => s + duration f) (timeToMinutes (time f)))
            entry = true ->
  Types.day entry = day f
  /\ (forall editing, editingEntry f = Some editing -> id entry <> id editing)
  /\ overlap (interval (time f) (duration f)) (entryInterval entry).
Proof.
  intros Hd He. unfold conflicts.
  destruct (String.eqb_spec (Types.day entry) (day f)) as [Hday|_];
    cbn [negb]; [|discriminate].
  destruct (editingEntry f) as [editing|].
  - destruct (String.eqb_spec (id entry) (id editing)) as [_|Hother];
      [discriminate|].
    intro Hseen. split; [exact Hday|]. split.
    + intros editing' E. inversion E; subst editing'. exact Hother.
    + apply seen_is_overlap; assumption.
  - intro Hseen. split; [exact Hday|]. split; [discriminate|].
    apply seen_is_overlap; assumption.
Qed.

Lemma no_clash_none f timetable :
  filled f ->
  soundDurations timetable ->
  ~ clashes f timetable ->
  find (conflicts f (timeToMinutes (time f))
          (option_map (fun s => s + duration f) (timeToMinutes (time f))))
       timetable = None.
Proof.
  intros (_ & _ & Hd) Hsound Hfree.
  destruct (find _ timetable) as [c|] eqn:Hfind; [|reflexivity].
  exfalso. apply Hfree. apply find_some in Hfind. destruct Hfind as [Hin Hc].
  unfold soundDurations in Hsound. rewrite Forall_forall in Hsound.
  destruct (conflict_is_clash f c Hd (Hsound c Hin) Hc) as (H1 & H2 & H3).
  exists c. tauto.
Qed.

(** An add that passes the three checks of the form is written. *)
Lemma clear_add_written f timetable subjects p newId updateDoc :
  filled f ->
  editingEntry f = None ->
  (entriesForDay f timetable < 7)%nat ->
  find (conflicts f (timeToMinutes (time f))
          (option_map (fun s => s + duration f) (timeToMinutes (time f))))
       timetable = None ->
  ready p ->
  let result :=
    handleSubmit f timetable subjects p (Js.Resolves newId) updateDoc in
  successMessage (fst result) = Some "Timetable entry added successfully."
  /\ exists written,
       timetableOf (snd result) = (timetableOf p ++ [written])%list
       /\ id written = newId
       /\ Types.time written = time f
       /\ Types.subject written = subject f
       /\ Types.duration written = duration f
       /\ (day f <> EmptyString -> Types.day written = day f).
Proof.
  intros Hfilled Hadd Hcap Hfind
         (store & userUid & profile & Hdb & Huser & Hprofile & Hdept)
         result.
  unfold result, handleSubmit. fold (entriesForDay f timetable).
  rewrite (filled_check f Hfilled), Hadd.
  apply Nat.ltb_lt in Hcap. rewrite Nat.ltb_antisym in Hcap.
  apply negb_true_iff in Hcap. rewrite Hcap.
  rewrite Hfind.
  unfold AppContext.addTimetableEntry. rewrite Hdb, Huser, Hprofile.
  destruct Hfilled as (Htime & Hsubject & Hduration).
  unfold Js.falsy.
  destruct (String.eqb_spec (facultyDepartment profile) EmptyString);
    [contradiction|].
  cbn [AppContext.newTime AppContext.newSubject AppContext.newDay
       AppContext.newDuration].
  destruct (String.eqb_spec (time f) EmptyString); [contradiction|].
  destruct (String.eqb_spec (subject f) EmptyString); [contradiction|].
  cbn [orb Js.await fst snd saved successMessage].
  split; [reflexivity|]. eexists. split.
  - unfold timetableOf. rewrite Hdb. reflexivity.
  - cbn [id Types.time Types.subject Types.duration Types.day].
    split; [reflexivity|]. split; [reflexivity|]. split; [reflexivity|].
    split; [apply orElse_positive; exact Hduration|].
    intro Hday. destruct (String.eqb_spec (day f) EmptyString);
      [contradiction | reflexivity].
Qed.

Lemma entriesForDay_filter f keep docs :
  (entriesForDay f (filter keep docs) <= entriesForDay f docs)%nat.
Proof.
  unfold entriesForDay. induction docs as [|doc docs IH]; simpl; [lia|].
  destruct (keep doc); simpl; destruct (String.eqb _ _); simpl; lia.
Qed.

(** Taking an entry of the chosen day out leaves the day with fewer. *)
Lemma deleted_makes_room f (entry : TimetableEntry) docs :
  In entry docs ->
  Types.day entry = day f ->
  (entriesForDay f
     (filter (fun doc => negb (String.eqb (id doc) (id entry))) docs)
   < entriesForDay f docs)%nat.
Proof.
  intros Hin Hday. induction docs as [|doc docs IH]; [contradiction|].
  pose proof (entriesForDay_filter f
                (fun doc => negb (String.eqb (id doc) (id entry))) docs)
    as Hle.
  unfold entriesForDay in *. simpl. destruct Hin as [-> | Hin].
  - rewrite String.eqb_refl. simpl. rewrite Hday, String.eqb_refl. simpl.
    lia.
  - specialize (IH Hin).
    destruct (negb _); simpl; destruct (String.eqb (Types.day doc) (day f));
      simpl; lia.
Qed.

(** X13: an add that is filled in, on a day with fewer than seven
    classes, and that overlaps no class of that day is written, when the
    provider is ready and the store takes the document: the success message
    shows and the timetable of the store ends with the new class, under the
    id the store gave it.  The stored classes are taken to have no negative
    duration. *)
Theorem free_slot_is_added :
  forall (f : Form) (timetable : list TimetableEntry) (subjects : list string)
         (p : AppContext.Provider) (newId : string)
         (updateDoc : Js.Answer unit),
    filled f ->
    editingEntry f = None ->
    (entriesForDay f timetable < 7)%nat ->
    soundDurations timetable ->
    ~ clashes f timetable ->
    ready p ->
    let result :=
      handleSubmit f timetable subjects p (Js.Resolves newId) updateDoc in
    successMessage (fst result) = Some "Timetable entry added successfully."
    /\ exists written,
         timetableOf (snd result) = (timetableOf p ++ [written])%list
         /\ id written = newId
         /\ Types.time written = time f
         /\ Types.subject written = subject f
         /\ Types.duration written = duration f
         /\ (day f <> EmptyString -> Types.day written = day f).
Proof.
  intros f timetable subjects p newId updateDoc Hfilled Hadd Hcap Hsound
         Hfree Hready.
  apply clear_add_written; try assumption.
  apply no_clash_none; assumption.
Qed.

(** X5: deleting a class frees its slot.  With the store ready and given
    to the form whole, its classes all with a clock start and a duration
    and no two of one day overlapping, an add for the day and the minutes of
    a stored class is rejected with an error and nothing is written, even
    on a day that is full; once [deleteTimetableEntry] has deleted that
    class (the store answering), exactly the class of that id is gone, and
    the same add is written: the success message shows and the timetable
    ends with the new class, under the id the store gave it, on the day, at
    the time and for the duration of the class deleted. *)
Theorem deleted_slot_is_free :
  forall (p : AppContext.Provider) (entry : TimetableEntry) (f : Form)
         (subjects : list string) (newId : string)
         (updateDoc : Js.Answer unit) (s e : Z),
    ready p ->
    In entry (timetableOf p) ->
    id entry <> EmptyString ->
    Forall (fun doc => exists s' e', occupies doc s' e') (timetableOf p) ->
    apart (timetableOf p) ->
    (entriesForDay f (timetableOf p) <= 7)%nat ->
    filled f ->
    editingEntry f = None ->
    day f = Types.day entry ->
    day f <> EmptyString ->
    occupies entry s e ->
    asks f s e ->
    let before :=
      handleSubmit f (timetableOf p) subjects p (Js.Resolves newId)
                   updateDoc in
    let deleted :=
      AppContext.deleteTimetableEntry p (id entry) (Js.Resolves tt) in
    let after :=
      handleSubmit f (timetableOf (snd deleted)) subjects (snd deleted)
                   (Js.Resolves newId) updateDoc in
    (snd before = p
     /\ successMessage (fst before) = None
     /\ exists msg, error (fst before) = Some msg)
    /\ fst deleted = Js.Returns tt
    /\ (forall doc, In doc (timetableOf (snd deleted))
                    <-> In doc (timetableOf p) /\ id doc <> id entry)
    /\ successMessage (fst after)
       = Some "Timetable entry added successfully."
    /\ exists written,
         timetableOf (snd after)
         = (timetableOf (snd deleted) ++ [written])%list
         /\ id written = newId
         /\ Types.day written = Types.day entry
         /\ Types.time written = Types.time entry
         /\ Types.duration written = Types.duration entry.
Proof.
  intros p entry f subjects newId updateDoc s e Hready Hin Hid Hkept Hapart
         Hfull Hfilled Hadd Hday Hchosen Hocc Hasks before deleted after.
  assert (Hpos : s < e) by (destruct Hocc as (_ & Hp & ->); lia).
  assert (Hcollides : collides f (timetableOf p)).
  { exists entry, s, e, s, e. split; [exact Hin|].
    split; [symmetry; exact Hday|].
    split; [intros editing E; congruence|].
    split; [exact Hasks|]. split; [exact Hocc|]. exists s. lia. }
  destruct (clash_rejected f (timetableOf p) subjects p (Js.Resolves newId)
              updateDoc (collides_clashes _ _ Hcollides))
    as (msg & Hbefore & _).
  destruct Hready as (store & userUid & profile & Hdb & Huser & Hprofile
                      & Hdept).
  assert (Hdeleted :
            deleted
            = (Js.Returns tt,
               AppContext.withTimetable p store
                 (filter (fun doc => negb (String.eqb (id doc) (id entry)))
                         (AppContext.timetableCollection store)))).
  { unfold deleted, AppContext.deleteTimetableEntry, AppContext.docRef,
      Js.falsy. rewrite Hdb.
    destruct (String.eqb_spec (id entry) EmptyString); [contradiction|].
    reflexivity. }
  assert (Htable :
            timetableOf (snd deleted)
            = filter (fun doc => negb (String.eqb (id doc) (id entry)))
                     (timetableOf p)).
  { rewrite Hdeleted. unfold timetableOf. rewrite Hdb. reflexivity. }
  assert (Hready' : ready (snd deleted)).
  { rewrite Hdeleted. eexists _, userUid, profile.
    cbn [snd AppContext.withTimetable AppContext.withStore AppContext.db
         AppContext.currentUser AppContext.currentFaculty].
    split; [reflexivity|]. split; [exact Huser|].
    split; [exact Hprofile | exact Hdept]. }
  assert (Hroom : (entriesForDay f (timetableOf (snd deleted)) < 7)%nat).
  { rewrite Htable.
    pose proof (deleted_makes_room f entry (timetableOf p) Hin
                  (eq_sym Hday)). lia. }
  rewrite Forall_forall in Hkept.
  assert (Hsound : soundDurations (timetableOf (snd deleted))).
  { rewrite Htable. unfold soundDurations. rewrite Forall_forall.
    intros doc Hdoc. apply filter_In in Hdoc.
    destruct (Hkept doc (proj1 Hdoc)) as (s' & e' & _ & Hp & _). lia. }
  assert (Hfree : ~ clashes f (timetableOf (snd deleted))).
  { rewrite Htable. intros (c & Hc & Hcday & _ & Hoverlap).
    apply filter_In in Hc. destruct Hc as [Hc Hother].
    apply negb_true_iff in Hother. apply String.eqb_neq in Hother.
    destruct (Hkept c Hc) as (s2 & e2 & Hoc).
    destruct (asks_parse f s e Hasks) as (Hf & _ & He).
    destruct (occupies_parse c s2 e2 Hoc) as (Hparse & Hlasts & _ & He2).
    unfold entryInterval, interval in Hoverlap.
    rewrite Hf, Hparse, Hlasts in Hoverlap. simpl in Hoverlap.
    apply (Hapart entry c s e s2 e2 Hin Hc);
      [congruence | congruence | exact Hocc | exact Hoc |].
    unfold meet. rewrite He, He2. exact Hoverlap. }
  destruct (clear_add_written f (timetableOf (snd deleted)) subjects
              (snd deleted) newId updateDoc Hfilled Hadd Hroom
              (no_clash_none f _ Hfilled Hsound Hfree) Hready')
    as (Hmsg & written & Hwritten & Hwid & Hwtime & _ & Hwduration & Hwday).
  split.
  { unfold before. rewrite Hbefore.
    cbn [fst snd rejected error successMessage].
    split; [reflexivity|]. split; [reflexivity|]. exists msg. reflexivity. }
  split; [rewrite Hdeleted; reflexivity|].
  split.
  { intro doc. rewrite Htable, filter_In, negb_true_iff, String.eqb_neq.
    tauto. }
  split; [exact Hmsg|].
  exists written. split; [exact Hwritten|]. split; [exact Hwid|].
  split; [rewrite (Hwday Hchosen); exact Hday|].
  destruct Hasks as ((h & m & Hh & Hm & Htf & Hs) & _ & He1).
  destruct Hocc as ((h' & m' & Hh' & Hm' & Hte & Hs') & _ & He2).
  split.
  - rewrite Hwtime, Htf, Hte.
    assert (Hsame : h = h' /\ m = m') by lia.
    destruct Hsame as [-> ->]. reflexivity.
  - rewrite Hwduration. lia.
Qed.

Lemma same_id_same_entry (docs : list TimetableEntry) a b :
  NoDup (map id docs) -> In a docs -> In b docs -> id a = id b -> a = b.
Proof.
  induction docs as [|doc docs IH]; intros Hnodup Ha Hb Hid; [contradiction|].
  simpl in Hnodup. inversion Hnodup as [|x l Hfresh Hrest]; subst.
  destruct Ha as [<-|Ha], Hb as [<-|Hb].
  - reflexivity.
  - exfalso. apply Hfresh. rewrite Hid. apply in_map. exact Hb.
  - exfalso. apply Hfresh. rewrite <- Hid. apply in_map. exact Ha.
  - apply IH; assumption.
Qed.

Lemma syncSubject_fields subjects f :
  day (syncSubject subjects f) = day f
  /\ time (syncSubject subjects f) = time f
  /\ duration (syncSubject subjects f) = duration f
  /\ editingEntry (syncSubject subjects f) = editingEntry f.
Proof.
  unfold syncSubject. destruct subjects as [|first rest];
    [repeat split|].
  destruct (negb _); repeat split.
Qed.

Lemma syncSubject_named subjects f :
  named subjects ->
  subject f <> EmptyString ->
  subject (syncSubject subjects f) <> EmptyString
  /\ (In (subject f) subjects -> subject (syncSubject subjects f) = subject f).
Proof.
  intros [Hsome Hnames] Hsubject. unfold syncSubject.
  destruct subjects as [|first rest]; [contradiction|].
  destruct (existsb (String.eqb (subject f)) (first :: rest)) eqn:E;
    cbn [negb subject].
  - split; [exact Hsubject | reflexivity].
  - split; [inversion Hnames; assumption|].
    intro Hin. exfalso.
    assert (Hfound : existsb (String.eqb (subject f)) (first :: rest) = true).
    { apply existsb_exists. exists (subject f). split; [exact Hin|].
      apply String.eqb_refl. }
    rewrite Hfound in E. discriminate.
Qed.

(** X14: an entry loaded into the form by [handleEdit] and saved with
    nothing changed (the effect that keeps the subject among the faculty's
    having run) is accepted, whatever the number of classes of its day: on
    a timetable without same-day overlaps or negative durations, for an
    entry with a day, a time and a subject that the store holds under an id
    of its own, the success message shows, and the save moves no class: ids
    and intervals are as before, and so are the subjects when the entry's
    subject is one of the faculty's. *)
Theorem unchanged_edit_is_saved :
  forall (f : Form) (entry : TimetableEntry) (timetable : list TimetableEntry)
         (subjects : list string) (p : AppContext.Provider)
         (addDoc : Js.Answer string),
    In entry timetable ->
    In entry (timetableOf p) ->
    NoDup (map id (timetableOf p)) ->
    overlapFree timetable ->
    soundDurations timetable ->
    Types.day entry <> EmptyString ->
    Types.time entry <> EmptyString ->
    Types.subject entry <> EmptyString ->
    named subjects ->
    let result :=
      handleSubmit (syncSubject subjects (handleEdit f entry)) timetable
                   subjects p addDoc (Js.Resolves tt) in
    successMessage (fst result)
    = Some "Timetable entry updated successfully."
    /\ map id (timetableOf (snd result)) = map id (timetableOf p)
    /\ map entryInterval (timetableOf (snd result))
       = map entryInterval (timetableOf p)
    /\ (In (Types.subject entry) subjects ->
        map Types.subject (timetableOf (snd result))
        = map Types.subject (timetableOf p)).
Proof.
  intros f entry timetable subjects p addDoc Hin Hstored Hnodup Hfree Hsound
         Hday Htime Hsubject Hnamed result.
  set (g := syncSubject subjects (handleEdit f entry)) in *.
  destruct (syncSubject_fields subjects (handleEdit f entry))
    as (Gday & Gtime & Gduration & Gediting).
  destruct (syncSubject_named subjects (handleEdit f entry) Hnamed Hsubject)
    as (Gsubject & Gsame).
  fold g in Gday, Gtime, Gduration, Gediting, Gsubject, Gsame.
  cbn [handleEdit day time duration editingEntry subject] in Gday, Gtime,
    Gduration, Gediting, Gsame.
  assert (Hentry : 0 <= Types.duration entry).
  { unfold soundDurations in Hsound. rewrite Forall_forall in Hsound.
    exact (Hsound entry Hin). }
  assert (Gfilled : filled g).
  { split; [rewrite Gtime; exact Htime|]. split; [exact Gsubject|].
    rewrite Gduration. apply orElse_default. exact Hentry. }
  assert (Gclear : ~ clashes g timetable).
  { intros (other & Hother & Hsameday & Hids & Hoverlap).
    rewrite Gtime, Gduration in Hoverlap. rewrite Gday in Hsameday.
    apply (Hfree other entry Hother Hin).
    - apply Hids. exact Gediting.
    - exact Hsameday.
    - apply overlap_sym. exact Hoverlap. }
  unfold result, handleSubmit.
  rewrite (filled_check g Gfilled), Gediting.
  rewrite (no_clash_none g timetable Gfilled Hsound Gclear).
  unfold AppContext.updateTimetableEntry, timetableOf in *.
  destruct (AppContext.db p) as [store|] eqn:Hdb; [|contradiction].
  cbn [Types.day Types.time Types.subject id].
  rewrite Gday, Gtime. unfold Js.falsy.
  destruct (String.eqb_spec (Types.day entry) EmptyString); [contradiction|].
  destruct (String.eqb_spec (Types.time entry) EmptyString); [contradiction|].
  destruct (String.eqb_spec (subject g) EmptyString); [contradiction|].
  cbn [orb].
  assert (Hfound : existsb (fun doc => String.eqb (id doc) (id entry))
                     (AppContext.timetableCollection store) = true).
  { apply existsb_exists. exists entry. split; [exact Hstored|].
    apply String.eqb_refl. }
  rewrite Hfound.
  cbn [Js.await fst snd saved successMessage AppContext.db
       AppContext.withTimetable AppContext.withStore
       AppContext.timetableCollection].
  split; [reflexivity|].
  rewrite !map_map.
  split; [|split].
  - apply map_ext. intro doc.
    destruct (String.eqb (id doc) (id entry)); reflexivity.
  - apply map_ext_in. intros doc Hdoc.
    destruct (String.eqb_spec (id doc) (id entry)) as [Hid|_];
      [|reflexivity].
    rewrite (same_id_same_entry _ doc entry Hnodup Hdoc Hstored Hid).
    unfold entryInterval, AppContext.applyUpdate.
    cbn [Types.time Types.duration]. rewrite Gduration.
    unfold DEFAULT_CLASS_DURATION_MINS. rewrite !orElse_twice.
    reflexivity.
  - intro Hteaches. apply map_ext_in. intros doc Hdoc.
    destruct (String.eqb_spec (id doc) (id entry)) as [Hid|_];
      [|reflexivity].
    rewrite (same_id_same_entry _ doc entry Hnodup Hdoc Hstored Hid).
    unfold AppContext.applyUpdate. cbn [Types.subject].
    apply Gsame. exact Hteaches.
Qed.

End Submissions.

Lemma free_slot_is_added_witness :
  filled atTen
  /\ (entriesForDay atTen [mathEntry] < 7)%nat
  /\ soundDurations [mathEntry]
  /\ ~ clashes atTen [mathEntry]
  /\ ready smallProvider
  /\ TimetableManager.successMessage
       (fst (TimetableManager.handleSubmit atTen [mathEntry] ["Math"]
               smallProvider (Js.Resolves "b") (Js.Resolves tt)))
     = Some "Timetable entry added successfully.".
Proof.
  assert (Hfilled : filled atTen)
    by (split; [discriminate | split; [discriminate | reflexivity]]).
  assert (Hcap : (entriesForDay atTen [mathEntry] < 7)%nat)
    by (vm_compute; lia).
  assert (Hsound : soundDurations [mathEntry])
    by (repeat constructor; discriminate).
  assert (Hfree : ~ clashes atTen [mathEntry]).
  { intros (entry & [<-|[]] & _ & _ & Hoverlap).
    assert (E1 : interval (TimetableManager.time atTen)
                          (TimetableManager.duration atTen)
                 = Some (600, 645)) by reflexivity.
    assert (E2 : entryInterval mathEntry = Some (540, 585)) by reflexivity.
    rewrite E1, E2 in Hoverlap. destruct Hoverlap as [t Ht]. lia. }
  assert (Hready : ready smallProvider).
  { exists (AppContext.mkFirestore smallLedger [mathEntry]), "f1", drRao.
    repeat split. discriminate. }
  split; [exact Hfilled|]. split; [exact Hcap|]. split; [exact Hsound|].
  split; [exact Hfree|]. split; [exact Hready|].
  exact (proj1 (free_slot_is_added atTen [mathEntry] ["Math"] smallProvider
                  "b" (Js.Resolves tt) Hfilled eq_refl Hcap Hsound Hfree
                  Hready)).
Defined.

(** On the Monday morning, a new class at 09:00 is refused while the
    class of 09:00 stands, and takes its place once that class is deleted. *)
Lemma deleted_slot_is_free_witness :
  In (mondayClass 1 "m2") (timetableOf morningProvider)
  /\ apart (timetableOf morningProvider)
  /\ occupies (mondayClass 1 "m2") 540 585
  /\ asks atNine 540 585
  /\ snd (TimetableManager.handleSubmit atNine (timetableOf morningProvider)
            ["Math"] morningProvider (Js.Resolves "n1") (Js.Resolves tt))
     = morningProvider
  /\ TimetableManager.error
       (fst (TimetableManager.handleSubmit atNine
               (timetableOf morningProvider) ["Math"] morningProvider
               (Js.Resolves "n1") (Js.Resolves tt)))
     = Some (TimetableManager.conflictMessage (mondayClass 1 "m2"))
  /\ TimetableManager.successMessage
       (fst (TimetableManager.handleSubmit atNine [mondayClass 0 "m1"]
               ["Math"]
               (snd (AppContext.deleteTimetableEntry morningProvider "m2"
                       (Js.Resolves tt)))
               (Js.Resolves "n1") (Js.Resolves tt)))
     = Some "Timetable entry added successfully."
  /\ timetableOf
       (snd (TimetableManager.handleSubmit atNine [mondayClass 0 "m1"]
               ["Math"]
               (snd (AppContext.deleteTimetableEntry morningProvider "m2"
                       (Js.Resolves tt)))
               (Js.Resolves "n1") (Js.Resolves tt)))
     = [mondayClass 0 "m1";
        mkEntry "n1" "Monday" "09:00" "Math" "CSE" "f1" "Dr. Rao" 45].
Proof.
  assert (Hready : ready morningProvider).
  { exists (AppContext.mkFirestore [] mondayMorning), "f1", drRao.
    repeat split. discriminate. }
  assert (Hin : In (mondayClass 1 "m2") (timetableOf morningProvider))
    by (right; left; reflexivity).
  assert (Hfirst : occupies (mondayClass 0 "m1") 480 525).
  { split; [exists 8, 0; repeat split; lia | split; reflexivity]. }
  assert (Hsecond : occupies (mondayClass 1 "m2") 540 585).
  { split; [exists 9, 0; repeat split; lia | split; reflexivity]. }
  assert (Hkept : Forall (fun doc => exists s' e', occupies doc s' e')
                         (timetableOf morningProvider)).
  { constructor; [exists 480, 525; exact Hfirst|].
    constructor; [exists 540, 585; exact Hsecond | constructor]. }
  assert (Hapart : apart (timetableOf morningProvider)).
  { intros a b s1 e1 s2 e2 Ha Hb Hids _ Hoa Hob.
    destruct (occupies_parse a s1 e1 Hoa) as (Hpa & _ & _ & ->).
    destruct (occupies_parse b s2 e2 Hob) as (Hpb & _ & _ & ->).
    destruct Ha as [<- | [<- | []]], Hb as [<- | [<- | []]];
      try (exfalso; apply Hids; reflexivity);
      vm_compute in Hpa, Hpb;
      injection Hpa as <-; injection Hpb as <-;
      intros [t Ht]; cbn [Types.duration mondayClass] in Ht; lia. }
  assert (Hasks : asks atNine 540 585).
  { split; [exists 9, 0; repeat split; lia | split; reflexivity]. }
  assert (Hfull : (entriesForDay atNine (timetableOf morningProvider)
                   <= 7)%nat) by (vm_compute; lia).
  assert (Hfilled : filled atNine)
    by (split; [discriminate | split; [discriminate | reflexivity]]).
  assert (Hchosen : TimetableManager.day atNine <> EmptyString)
    by discriminate.
  assert (Hid : id (mondayClass 1 "m2") <> EmptyString) by discriminate.
  pose proof (deleted_slot_is_free morningProvider (mondayClass 1 "m2")
                atNine ["Math"] "n1" (Js.Resolves tt) 540 585 Hready Hin
                Hid Hkept Hapart Hfull Hfilled eq_refl eq_refl Hchosen
                Hsecond Hasks)
    as ((Hsame & _ & _) & _ & _ & Hmsg & _).
  split; [exact Hin|]. split; [exact Hapart|]. split; [exact Hsecond|].
  split; [exact Hasks|]. split; [exact Hsame|]. split; [reflexivity|].
  split; [exact Hmsg | reflexivity].
Defined.

Lemma unchanged_edit_is_saved_witness :
  overlapFree [mathEntry]
  /\ soundDurations [mathEntry]
  /\ named ["Math"]
  /\ TimetableManager.successMessage
       (fst (TimetableManager.handleSubmit
               (TimetableManager.syncSubject ["Math"]
                  (TimetableManager.handleEdit atTen mathEntry))
               [mathEntry] ["Math"] smallProvider (Js.Resolves "b")
               (Js.Resolves tt)))
     = Some "Timetable entry updated successfully.".
Proof.
  assert (Hfree : overlapFree [mathEntry])
    by exact (single_overlapFree mathEntry).
  assert (Hsound : soundDurations [mathEntry])
    by (repeat constructor; discriminate).
  assert (Hnamed : named ["Math"])
    by (split; [discriminate | repeat constructor; discriminate]).
  assert (Hnodup : NoDup (map id (timetableOf smallProvider)))
    by (repeat constructor; intros []).
  assert (Hday : day mathEntry <> EmptyString) by discriminate.
  assert (Htime : time mathEntry <> EmptyString) by discriminate.
  assert (Hsubject : subject mathEntry <> EmptyString) by discriminate.
  split; [exact Hfree|]. split; [exact Hsound|]. split; [exact Hnamed|].
  exact (proj1 (unchanged_edit_is_saved atTen mathEntry [mathEntry] ["Math"]
                  smallProvider (Js.Resolves "b") (or_introl eq_refl)
                  (or_introl eq_refl) Hnodup Hfree Hsound Hday Htime Hsubject
                  Hnamed)).
Defined.

(** ** The page the timetable opens on *)

Section OpeningPage.

Import TimeUtils.

Lemma monday_first (now : Js.Date) :
  (Js.getDay now < 7)%nat ->
  StudentPortal.initialViewedDay now
  = nth_error DAYS_OF_WEEK (Js.getDay now).
Proof.
  destruct now as [d h m]. unfold StudentPortal.initialViewedDay.
  cbn [Js.getDay]. intro Hd.
  do 7 (destruct d as [|d]; [reflexivity|]). lia.
Qed.

(** X15: [StudentTimetable] opens on the page of the current day, which
    is also the day [handleJumpToToday] picks: the entries listed at first
    are those [getScheduleStatus] takes as today's, so that a class reported
    as current, on a timetable whose times are clock fields, is among the
    entries on display. *)
Theorem current_class_is_on_the_opening_page :
  forall (now : Js.Date) (timetable : list TimetableEntry),
    (Js.getDay now < 7)%nat ->
    let shown :=
      StudentPortal.entriesForViewedDay (StudentPortal.initialViewedDay now)
                                        timetable in
    shown = entriesOn (Js.getDay now) timetable
    /\ TimetableManager.todayDay now
       = nth_error DAYS_OF_WEEK (Js.getDay now)
    /\ (Forall wellTimed timetable ->
        forall i,
          currentClassId (getScheduleStatus now timetable) = Some i ->
          exists entry, In entry shown /\ id entry = i).
Proof.
  intros now timetable Hday shown.
  assert (Hshown : shown = entriesOn (Js.getDay now) timetable).
  { unfold shown, StudentPortal.entriesForViewedDay, entriesOn, onDay.
    rewrite (monday_first now Hday). reflexivity. }
  split; [exact Hshown|]. split; [exact (monday_first now Hday)|].
  intros Hwf i Hcurrent. rewrite Hshown.
  destruct (current_class_facts now timetable Hwf) as (Hsound & _).
  destruct (Hsound i Hcurrent) as (entry & Hin & Hid & _).
  exists entry. split; assumption.
Qed.

End OpeningPage.

Lemma current_class_is_on_the_opening_page_witness :
  (Js.getDay (Js.mkDate 1 9 10) < 7)%nat
  /\ Forall wellTimed [mathEntry]
  /\ exists entry,
       In entry
          (StudentPortal.entriesForViewedDay
             (StudentPortal.initialViewedDay (Js.mkDate 1 9 10)) [mathEntry])
       /\ id entry = "a".
Proof.
  assert (Hday : (Js.getDay (Js.mkDate 1 9 10) < 7)%nat) by (simpl; lia).
  assert (Hwf : Forall wellTimed [mathEntry]).
  { repeat constructor. exists 9, 0. repeat split; lia. }
  split; [exact Hday|]. split; [exact Hwf|].
  exact (proj2 (proj2 (current_class_is_on_the_opening_page
                         (Js.mkDate 1 9 10) [mathEntry] Hday))
               Hwf "a" eq_refl).
Defined.

(** ** A verification that fails for want of an API key *)

Section Recovery.

Import StudentPortal.

(** X16: when the matcher fails with a message about the API key, an
    attempt on a scanned session writes nothing and asks for a key; once
    [handleApiKeySubmit] has run, the next capture is handled as it would
    have been had that failure not happened: the scanned session is kept
    and the retry is neither spent nor given back. *)
Theorem api_key_failure_costs_nothing :
  forall (st : Dashboard) (user : Student) (timetable : list TimetableEntry)
         (p : AppContext.Provider) (code msg : string)
         (now : Js.Date) (today : string) (addDoc : Js.Answer string),
    scannedSession st <> None ->
    showApiKeyInput st = false ->
    aboutApiKey msg = true ->
    let failed :=
      handleVerification st user timetable p (Js.Fails code msg)
                         now today addDoc in
    snd failed = p
    /\ showApiKeyInput (fst failed) = true
    /\ showFaceCapture (handleApiKeySubmit (fst failed)) = true
    /\ forall (q : AppContext.Provider)
              (verification : Js.Answer VerificationResult)
              (now' : Js.Date) (today' : string) (addDoc' : Js.Answer string),
         handleVerification (handleApiKeySubmit (fst failed)) user timetable
                            q verification now' today' addDoc'
         = handleVerification st user timetable q verification now' today'
                              addDoc'.
Proof.
  intros st user timetable p code msg now today addDoc Hscanned Hclosed Hkey
         failed.
  destruct (scannedSession st) as [session|] eqn:Hsession; [|contradiction].
  assert (Hfailed :
            failed
            = ({| isLoading := false;
                  status := "Configuration Error: API Key missing or invalid.";
                  showFaceCapture := false;
                  showScanner := showScanner st;
                  scannedSession := Some session;
                  retryAttempted := retryAttempted st;
                  showApiKeyInput := true |}, p)).
  { unfold failed, handleVerification, verifyTry. rewrite Hsession.
    cbn [Js.await Js.message]. unfold aboutApiKey in Hkey. rewrite Hkey.
    reflexivity. }
  clearbody failed. subst failed. cbn [fst snd showApiKeyInput].
  split; [reflexivity|]. split; [reflexivity|]. split; [reflexivity|].
  intros q verification now' today' addDoc'.
  unfold handleVerification, handleApiKeySubmit.
  cbn [scannedSession retryAttempted showScanner showApiKeyInput].
  rewrite Hsession, Hclosed. reflexivity.
Qed.

End Recovery.

Lemma api_key_failure_costs_nothing_witness :
  StudentPortal.scannedSession scanned <> None
  /\ aboutApiKey "API key not valid. Please pass a valid API key." = true
  /\ StudentPortal.showApiKeyInput
       (fst (StudentPortal.handleVerification scanned alice [mathEntry]
               studentProvider
               (Js.Fails "400"
                  "API key not valid. Please pass a valid API key.")
               (Js.mkDate 1 9 10) "2025-01-06" (Js.Resolves "r1")))
     = true.
Proof.
  assert (Hscanned : StudentPortal.scannedSession scanned <> None)
    by discriminate.
  assert (Hkey : aboutApiKey "API key not valid. Please pass a valid API key."
                 = true) by reflexivity.
  split; [exact Hscanned|]. split; [exact Hkey|].
  exact (proj1 (proj2 (api_key_failure_costs_nothing scanned alice
                         [mathEntry] studentProvider "400"
                         "API key not valid. Please pass a valid API key."
                         (Js.mkDate 1 9 10) "2025-01-06" (Js.Resolves "r1")
                         Hscanned eq_refl Hkey))).
Defined.

(** ** The code on display and the scan *)

Section TokenOnDisplay.

Context {locationService : LocationService}.

Import FacultyPortal StudentPortal.


End TokenOnDisplay.


(** ** The date range of the report *)

Section DateRange.

Import AttendanceReport.

Lemma pad2_table :
  forallb (fun x =>
    forallb (fun y =>
      (String.length (Js.padStart2 (Js.show x)) =? 2)%nat
      && match String.compare (Js.padStart2 (Js.show x))
                              (Js.padStart2 (Js.show y)),
               x ?= y with
         | Eq, Eq | Lt, Lt | Gt, Gt => true
         | _, _ => false
         end)
      (map Z.of_nat (seq 0 100)))
    (map Z.of_nat (seq 0 100)) = true.
Proof. vm_compute. reflexivity. Qed.

Lemma pad2_length x :
  0 <= x < 100 -> String.length (Js.padStart2 (Js.show x)) = 2%nat.
Proof.
  intro Hx. pose proof pad2_table as Htable.
  rewrite forallb_forall in Htable.
  specialize (Htable x (in_range 100 x Hx)).
  rewrite forallb_forall in Htable.
  specialize (Htable x (in_range 100 x Hx)).
  apply andb_true_iff in Htable. apply Nat.eqb_eq. tauto.
Qed.

Lemma pad2_compare x y :
  0 <= x < 100 -> 0 <= y < 100 ->
  String.compare (Js.padStart2 (Js.show x)) (Js.padStart2 (Js.show y))
  = (x ?= y).
Proof.
  intros Hx Hy. pose proof pad2_table as Htable.
  rewrite forallb_forall in Htable.
  specialize (Htable x (in_range 100 x Hx)).
  rewrite forallb_forall in Htable.
  specialize (Htable y (in_range 100 y Hy)).
  apply andb_true_iff in Htable. destruct Htable as [_ Htable].
  destruct (String.compare _ _), (x ?= y); congruence.
Qed.

(** Two fields of one width each followed by a number below [base]
    compare as the numbers they make together. *)
Lemma compare_lex (a b s t : string) (x y u v base : Z) :
  String.length a = String.length b ->
  String.compare a b = (x ?= y) ->
  String.compare s t = (u ?= v) ->
  0 <= u < base -> 0 <= v < base ->
  String.compare (a ++ s) (b ++ t) = (x * base + u ?= y * base + v).
Proof.
  intros Hlen Hab Hst Hu Hv. rewrite (compare_app a b s t Hlen), Hab.
  destruct (Z.compare_spec x y) as [Heq | Hlt | Hgt].
  - subst y. rewrite Hst.
    destruct (Z.compare_spec u v) as [E | L | G]; symmetry.
    + apply Z.compare_eq_iff. lia.
    + apply Z.compare_lt_iff. lia.
    + apply Z.compare_gt_iff. lia.
  - symmetry. apply Z.compare_lt_iff. nia.
  - symmetry. apply Z.compare_gt_iff. nia.
Qed.

Lemma compare_dash (s t : string) :
  String.compare ("-" ++ s) ("-" ++ t) = String.compare s t.
Proof.
  rewrite (compare_app "-" "-" s t eq_refl).
  change (String.compare "-" "-") with Eq. reflexivity.
Qed.

Lemma isoDate_compare y m d y' m' d' :
  0 <= y < 10000 -> 0 <= m < 100 -> 0 <= d < 100 ->
  0 <= y' < 10000 -> 0 <= m' < 100 -> 0 <= d' < 100 ->
  String.compare (isoDate y m d) (isoDate y' m' d')
  = (y * 10000 + m * 100 + d ?= y' * 10000 + m' * 100 + d').
Proof.
  intros Hy Hm Hd Hy' Hm' Hd'.
  assert (Hq : 0 <= y / 100 < 100)
    by (split; [apply Z.div_pos | apply Z.div_lt_upper_bound]; lia).
  assert (Hq' : 0 <= y' / 100 < 100)
    by (split; [apply Z.div_pos | apply Z.div_lt_upper_bound]; lia).
  assert (Hr : 0 <= y mod 100 < 100) by (apply Z.mod_pos_bound; lia).
  assert (Hr' : 0 <= y' mod 100 < 100) by (apply Z.mod_pos_bound; lia).
  pose proof (Z.div_mod y 100 ltac:(lia)) as Ey.
  pose proof (Z.div_mod y' 100 ltac:(lia)) as Ey'.
  assert (Hday : String.compare ("-" ++ Js.padStart2 (Js.show d))
                                ("-" ++ Js.padStart2 (Js.show d'))
                 = (d ?= d'))
    by (rewrite compare_dash; apply pad2_compare; assumption).
  assert (Hmonth :
            String.compare
              ("-" ++ Js.padStart2 (Js.show m) ++ "-"
                   ++ Js.padStart2 (Js.show d))
              ("-" ++ Js.padStart2 (Js.show m') ++ "-"
                   ++ Js.padStart2 (Js.show d'))
            = (m * 100 + d ?= m' * 100 + d')).
  { rewrite compare_dash. apply compare_lex; try assumption.
    - rewrite !pad2_length by assumption. reflexivity.
    - apply pad2_compare; assumption. }
  assert (Hyear :
            String.compare
              (Js.padStart2 (Js.show (y mod 100)) ++ "-"
                 ++ Js.padStart2 (Js.show m) ++ "-"
                 ++ Js.padStart2 (Js.show d))
              (Js.padStart2 (Js.show (y' mod 100)) ++ "-"
                 ++ Js.padStart2 (Js.show m') ++ "-"
                 ++ Js.padStart2 (Js.show d'))
            = (y mod 100 * 10000 + (m * 100 + d)
               ?= y' mod 100 * 10000 + (m' * 100 + d'))).
  { apply compare_lex; try lia.
    - rewrite !pad2_length by assumption. reflexivity.
    - apply pad2_compare; assumption.
    - exact Hmonth. }
  unfold isoDate.
  rewrite (compare_lex _ _ _ _ (y / 100) (y' / 100)
             (y mod 100 * 10000 + (m * 100 + d))
             (y' mod 100 * 10000 + (m' * 100 + d')) 1000000);
    try lia.
  - f_equal; lia.
  - rewrite !pad2_length by assumption. reflexivity.
  - apply pad2_compare; assumption.
  - exact Hyear.
Qed.

Lemma calendar_compare a n b k :
  calendar a n -> calendar b k -> String.compare a b = (n ?= k).
Proof.
  intros (y & m & d & Hy & Hm & Hd & -> & ->)
         (y' & m' & d' & Hy' & Hm' & Hd' & -> & ->).
  apply isoDate_compare; lia.
Qed.

Lemma calendar_set s n : calendar s n -> Js.falsy s = false.
Proof.
  intros (y & m & d & Hy & Hm & Hd & -> & _).
  assert (Hq : 0 <= y / 100 < 100)
    by (split; [apply Z.div_pos | apply Z.div_lt_upper_bound]; lia).
  pose proof (pad2_length (y / 100) Hq) as Hlen.
  unfold Js.falsy, isoDate.
  destruct (Js.padStart2 (Js.show (y / 100))); [discriminate|reflexivity].
Qed.

Lemma optional_filter {A : Type} (unset : bool) (keep : A -> bool) l x :
  In x (if unset then l else filter keep l)
  <-> In x l /\ (unset = true \/ keep x = true).
Proof.
  destruct unset.
  - tauto.
  - rewrite filter_In. split; [tauto|].
    intros [Hin [Hunset | Hkeep]]; [discriminate | tauto].
Qed.

(** X18: with each bound of the report either not set or the text of a
    date, a record dated by such a text is listed exactly when it is in
    the ledger, is the selected student's if one is selected, and its date
    is, in the calendar, not before the start and not after the end: the
    comparison of the texts is the comparison of the dates. *)
Theorem report_range_is_the_calendar_range :
  forall (f : Filters) (attendance : list AttendanceRecord)
         (record : AttendanceRecord) (n lo hi : Z),
    startDate f = EmptyString \/ calendar (startDate f) lo ->
    endDate f = EmptyString \/ calendar (endDate f) hi ->
    calendar (date (recordData record)) n ->
    (In record (filteredAttendance f attendance)
     <-> In record attendance
         /\ (selectedStudent f = EmptyString
             \/ studentId (recordData record) = selectedStudent f)
         /\ (startDate f = EmptyString \/ lo <= n)
         /\ (endDate f = EmptyString \/ n <= hi)).
Proof.
  intros f attendance record n lo hi Hstart Hend Hdate.
  unfold filteredAttendance. cbv zeta.
  rewrite !optional_filter.
  assert (Hstudent :
            Js.falsy (selectedStudent f) = true
            \/ String.eqb (studentId (recordData record)) (selectedStudent f)
               = true
            <-> selectedStudent f = EmptyString
                \/ studentId (recordData record) = selectedStudent f).
  { unfold Js.falsy. rewrite !String.eqb_eq. tauto. }
  assert (Hfrom :
            Js.falsy (startDate f) = true
            \/ Js.geString (date (recordData record)) (startDate f) = true
            <-> startDate f = EmptyString \/ lo <= n).
  { destruct Hstart as [Hunset | Hlo].
    - rewrite Hunset. cbn. tauto.
    - rewrite (calendar_set _ _ Hlo). unfold Js.geString.
      rewrite (calendar_compare _ _ _ _ Hdate Hlo).
      pose proof (calendar_set _ _ Hlo) as Hset. unfold Js.falsy in Hset.
      apply String.eqb_neq in Hset.
      destruct (Z.compare_spec n lo) as [E | L | G]; split; intros [F | F];
        try discriminate F; try contradiction; try (right; reflexivity);
        try (right; lia); lia. }
  assert (Hto :
            Js.falsy (endDate f) = true
            \/ Js.leString (date (recordData record)) (endDate f) = true
            <-> endDate f = EmptyString \/ n <= hi).
  { destruct Hend as [Hunset | Hhi].
    - rewrite Hunset. cbn. tauto.
    - rewrite (calendar_set _ _ Hhi). unfold Js.leString.
      rewrite (calendar_compare _ _ _ _ Hdate Hhi).
      pose proof (calendar_set _ _ Hhi) as Hset. unfold Js.falsy in Hset.
      apply String.eqb_neq in Hset.
      destruct (Z.compare_spec n hi) as [E | L | G]; split; intros [F | F];
        try discriminate F; try contradiction; try (right; reflexivity);
        try (right; lia); lia. }
  rewrite Hstudent, Hfrom, Hto. clear. tauto.
Qed.

End DateRange.

Lemma report_range_is_the_calendar_range_witness :
  calendar (AttendanceReport.startDate firstWeek) 20250101
  /\ calendar (AttendanceReport.endDate firstWeek) 20250107
  /\ calendar "2025-01-06" 20250106
  /\ In (mkAttendanceRecord "r1"
           (mkAttendanceData "u1" "Alice" "Math" "2025-01-06" present))
        (AttendanceReport.filteredAttendance firstWeek smallLedger).
Proof.
  assert (Hlo : calendar (AttendanceReport.startDate firstWeek) 20250101)
    by (exists 2025, 1, 1; repeat split; lia).
  assert (Hhi : calendar (AttendanceReport.endDate firstWeek) 20250107)
    by (exists 2025, 1, 7; repeat split; lia).
  assert (Hdate : calendar "2025-01-06" 20250106)
    by (exists 2025, 1, 6; repeat split; lia).
  split; [exact Hlo|]. split; [exact Hhi|]. split; [exact Hdate|].
  apply (proj2 (report_range_is_the_calendar_range firstWeek smallLedger
                  (mkAttendanceRecord "r1"
                     (mkAttendanceData "u1" "Alice" "Math" "2025-01-06"
                                       present))
                  20250106 20250101 20250107
                  (or_intror Hlo) (or_intror Hhi) Hdate)).
  split; [left; reflexivity|]. split; [right; reflexivity|].
  split; right; lia.
Defined.

(** ** The statistics of a student *)

Section Tallies.

Import StudentPortal.

Variable localeCompare : string -> string -> Z.

Lemma own_countIn key subject present subjectStats :
  own key (countIn subject present subjectStats)
  = if String.eqb subject key
    then Some match own subject subjectStats with
              | Some counts =>
                  {| presentCount :=
                       presentCount counts + (if present then 1 else 0);
                     totalCount := totalCount counts + 1 |}
              | None =>
                  {| presentCount := if present then 1 else 0;
                     totalCount := 1 |}
              end
    else own key subjectStats.
Proof.
  induction subjectStats as [|[k counts] others IH]; cbn [countIn own].
  - reflexivity.
  - destruct (String.eqb_spec k subject) as [->|Hk]; cbn [own].
    + destruct (String.eqb_spec subject key) as [->|Hs]; reflexivity.
    + rewrite IH.
      destruct (String.eqb_spec k key) as [->|Hkey].
      * destruct (String.eqb_spec subject key) as [->|_];
          [contradiction | reflexivity].
      * reflexivity.
Qed.

Lemma keys_countIn key subject present subjectStats :
  In key (map fst (countIn subject present subjectStats))
  <-> key = subject \/ In key (map fst subjectStats).
Proof.
  induction subjectStats as [|[k counts] others IH]; cbn [countIn].
  - simpl. intuition congruence.
  - destruct (String.eqb_spec k subject) as [->|Hk].
    + simpl. intuition congruence.
    + cbn [map fst In]. rewrite IH. tauto.
Qed.

Lemma NoDup_countIn subject present subjectStats :
  NoDup (map fst subjectStats) ->
  NoDup (map fst (countIn subject present subjectStats)).
Proof.
  induction subjectStats as [|[k counts] others IH]; cbn [countIn].
  - intros _. repeat constructor. intros [].
  - intro Hnodup. cbn [map fst] in Hnodup.
    inversion Hnodup as [|x l Hfresh Hrest]; subst.
    destruct (String.eqb_spec k subject) as [->|Hk]; cbn [map fst].
    + constructor; assumption.
    + constructor; [|apply IH; exact Hrest].
      rewrite keys_countIn. intros [E | Hin]; [congruence | contradiction].
Qed.

Lemma own_In {A : Type} key (v : A) object :
  NoDup (map fst object) -> (In (key, v) object <-> own key object = Some v).
Proof.
  induction object as [|[k w] others IH]; cbn [own In map fst].
  - intros _. split; [intros [] | discriminate].
  - intro Hnodup. inversion Hnodup as [|x l Hfresh Hrest]; subst.
    destruct (String.eqb_spec k key) as [->|Hk].
    + split.
      * intros [E | Hin]; [congruence|].
        exfalso. apply Hfresh. apply (in_map fst) in Hin. exact Hin.
      * intro E. left. congruence.
    + rewrite <- (IH Hrest). split; [|tauto].
      intros [E | Hin]; [congruence | exact Hin].
Qed.

Lemma taken_snoc subject seen record :
  taken subject (seen ++ [record])%list
  = taken subject seen
    + (if String.eqb (recordSubject (recordData record)) subject
       then 1 else 0).
Proof.
  unfold taken. rewrite filter_app, List.length_app. cbn [filter].
  destruct (String.eqb _ _); cbn [List.length]; lia.
Qed.

Lemma attended_snoc subject seen record :
  attended subject (seen ++ [record])%list
  = attended subject seen
    + (if String.eqb (recordSubject (recordData record)) subject
          && isPresent record
       then 1 else 0).
Proof.
  unfold attended. rewrite filter_app, List.length_app. cbn [filter].
  destruct (_ && _); cbn [List.length]; lia.
Qed.

Lemma attended_le_taken subject seen :
  0 <= attended subject seen <= taken subject seen.
Proof.
  unfold attended, taken. split; [lia|].
  apply inj_le. induction seen as [|r seen IH]; [reflexivity|].
  cbn [filter]. destruct (String.eqb _ _); cbn [andb].
  - destruct (isPresent r); cbn [List.length]; lia.
  - exact IH.
Qed.

Lemma tally_step seen subjectStats record :
  tallied seen subjectStats ->
  tallied (seen ++ [record])%list (tally subjectStats record).
Proof.
  intros [Hnodup Hown]. unfold tally.
  fold (inherited (recordSubject (recordData record))).
  set (subject := recordSubject (recordData record)).
  destruct (inherited subject) eqn:Hinh.
  - split; [exact Hnodup|]. intro key. rewrite Hown.
    rewrite taken_snoc, attended_snoc. fold subject.
    destruct (String.eqb_spec subject key) as [<-|_].
    + rewrite Hinh. rewrite !andb_false_r. reflexivity.
    + cbn [andb]. rewrite !Z.add_0_r. reflexivity.
  - split; [apply NoDup_countIn; exact Hnodup|]. intro key.
    rewrite own_countIn, taken_snoc, attended_snoc. fold subject.
    destruct (String.eqb_spec subject key) as [<-|_].
    + rewrite Hinh. cbn [negb andb].
      rewrite (Hown subject), Hinh. cbn [negb]. rewrite andb_true_r.
      pose proof (attended_le_taken subject seen) as Hle.
      assert (Hnew : (0 <? taken subject seen + 1) = true)
        by (apply Z.ltb_lt; unfold taken; lia).
      rewrite Hnew.
      destruct (0 <? taken subject seen) eqn:Hold;
        cbn [presentCount totalCount].
      * destruct (isPresent record); reflexivity.
      * apply Z.ltb_ge in Hold.
        assert (Ht : taken subject seen = 0) by (unfold taken in *; lia).
        assert (Ha : attended subject seen = 0) by lia.
        rewrite Ht, Ha. destruct (isPresent record); reflexivity.
    + cbn [andb]. rewrite !Z.add_0_r. apply Hown.
Qed.

Lemma tally_all rest :
  forall seen subjectStats,
    tallied seen subjectStats ->
    tallied (seen ++ rest)%list (fold_left tally rest subjectStats).
Proof.
  induction rest as [|record rest IH]; intros seen subjectStats Hinv.
  - rewrite app_nil_r. exact Hinv.
  - cbn [fold_left].
    replace (seen ++ record :: rest)%list
      with ((seen ++ [record]) ++ rest)%list
      by (rewrite <- app_assoc; reflexivity).
    apply IH. apply tally_step. exact Hinv.
Qed.

Lemma entries_Permutation {A : Type} (object : list (string * A)) :
  Permutation (entries object) object.
Proof.
  unfold entries. rewrite sort_Permutation.
  induction object as [|entry object IH]; [reflexivity|].
  cbn [filter]. destruct (arrayIndex (fst entry)); cbn [negb].
  - cbn [app]. apply perm_skip. exact IH.
  - rewrite <- Permutation_middle. apply perm_skip. exact IH.
Qed.

(** X19: for a student with records, [stats] counts the records marked
    present, and [perSubject] has one row for each subject with a record,
    and no other row: the row of a subject carries the number of its
    records and the number of those marked present.  A subject named like
    a property every object inherits ([inherited]) gets no row. *)
Theorem subject_rows_are_the_tallies :
  forall attendance : list AttendanceRecord,
    attendance <> [] ->
    exists s,
      stats localeCompare attendance = Some s
      /\ totalPresent s
         = Z.of_nat (List.length (filter isPresent attendance))
      /\ NoDup (map rowSubject (perSubject s))
      /\ (forall row,
            In row (perSubject s) ->
            inherited (rowSubject row) = false
            /\ 0 < rowTotal row
            /\ rowTotal row = taken (rowSubject row) attendance
            /\ rowPresent row = attended (rowSubject row) attendance)
      /\ (forall subject,
            inherited subject = false ->
            0 < taken subject attendance ->
            In subject (map rowSubject (perSubject s))).
Proof.
  intros attendance Hsome. unfold stats.
  destruct attendance as [|first others] eqn:Hshape; [contradiction|].
  rewrite <- Hshape. replace (List.length attendance =? 0)%nat with false
    by (rewrite Hshape; reflexivity).
  eexists. split; [reflexivity|]. cbn [totalPresent perSubject].
  split; [reflexivity|].
  assert (Hinv : tallied attendance (fold_left tally attendance [])).
  { apply (tally_all attendance [] []). split; [constructor|].
    intro key. reflexivity. }
  destruct Hinv as [Hnodup Hown].
  set (subjectStats := fold_left tally attendance []) in *.
  set (toRow := fun entry : string * Counts =>
                  {| rowSubject := fst entry;
                     rowPresent := presentCount (snd entry);
                     rowTotal := totalCount (snd entry);
                     percentage :=
                       (inject_Z (presentCount (snd entry))
                          / inject_Z (totalCount (snd entry)) * 100)%Q |}).
  assert (Hrows : Permutation
                    (Js.sort (fun a b =>
                                Some (localeCompare (rowSubject a)
                                                    (rowSubject b)))
                             (map toRow (entries subjectStats)))
                    (map toRow subjectStats)).
  { rewrite sort_Permutation. apply Permutation_map.
    apply entries_Permutation. }
  assert (Hkeys : map rowSubject (map toRow subjectStats)
                  = map fst subjectStats)
    by (rewrite map_map; reflexivity).
  split; [|split].
  - apply (Permutation_NoDup (l := map fst subjectStats)).
    + rewrite <- Hkeys. apply Permutation_map. symmetry. exact Hrows.
    + exact Hnodup.
  - intros row Hrow.
    apply (Permutation_in _ Hrows) in Hrow.
    apply in_map_iff in Hrow. destruct Hrow as [[key counts] [<- Hentry]].
    apply (own_In key counts subjectStats Hnodup) in Hentry.
    rewrite Hown in Hentry. cbn [toRow rowSubject rowTotal rowPresent fst snd].
    destruct (0 <? taken key attendance) eqn:Hpos; [|discriminate].
    destruct (inherited key); [discriminate|].
    cbn [negb andb] in Hentry. inversion Hentry; subst counts.
    cbn [totalCount presentCount]. apply Z.ltb_lt in Hpos.
    repeat split; assumption.
  - intros subject Hplain Hpos.
    apply (Permutation_in (l := map fst subjectStats)).
    + rewrite <- Hkeys. apply Permutation_map. symmetry. exact Hrows.
    + apply Z.ltb_lt in Hpos.
      pose proof (Hown subject) as Hentry.
      rewrite Hpos, Hplain in Hentry. cbn [negb andb] in Hentry.
      apply (own_In subject _ subjectStats Hnodup) in Hentry.
      apply (in_map fst) in Hentry. exact Hentry.
Qed.

End Tallies.

Lemma subject_rows_are_the_tallies_witness :
  smallLedger <> []
  /\ exists s,
       StudentPortal.stats Js.localeCompare smallLedger = Some s
       /\ StudentPortal.totalPresent s
          = Z.of_nat (List.length (filter StudentPortal.isPresent smallLedger)).
Proof.
  assert (Hsome : smallLedger <> []) by discriminate.
  split; [exact Hsome|].
  destruct (subject_rows_are_the_tallies Js.localeCompare smallLedger Hsome)
    as (s & Hstats & Hpresent & _).
  exists s. split; assumption.
Defined.

(** ** The scanned session and the captures that follow *)

Section Attempts.

Context {locationService : LocationService}.

Import StudentPortal.

(** X20: [handleVerification] never reads the scanned session, only
    whether there is one: whatever its timestamp and location, the message,
    the flags and the write are the same.  The freshness and distance
    limits bind the scan, not the captures that follow it. *)
Theorem capture_is_not_timed :
  forall (st : Dashboard) (session session' : SessionData) (user : Student)
         (timetable : list TimetableEntry) (p : AppContext.Provider)
         (verification : Js.Answer VerificationResult) (now : Js.Date)
         (today : string) (addDoc : Js.Answer string),
    let old :=
      handleVerification (withSession st session) user timetable p
                         verification now today addDoc in
    let new :=
      handleVerification (withSession st session') user timetable p
                         verification now today addDoc in
    snd old = snd new /\ fst old = withSession (fst new) session.
Proof.
  intros st session session' user timetable p verification now today addDoc.
  unfold handleVerification, withSession.
  cbn [scannedSession retryAttempted showScanner showApiKeyInput].
  destruct (verifyTry _ _ _ _ _ _ _ _) as [[[subject | pct] | err] p'];
    cbn [fst snd]; try (split; reflexivity).
  destruct (_ || _); cbn [fst snd]; split; reflexivity.
Qed.

(** X21: a scan that fails leaves the session scanned before in place and
    the face capture as it was, and clears the retry flag.  So after a
    retry has been spent, a failed scan gives it back: a capture in the
    retry band, which would have been turned down as too low, is offered a
    retry again. *)
Theorem failed_scan_gives_the_retry_back :
  forall (st : Dashboard) (session : SessionData)
         (parsed : Js.Answer ScannedObject) (now : Z)
         (sample : Js.Answer LocationCoordinate) (e : Js.Error),
    scannedSession st = Some session ->
    retryAttempted st = true ->
    scanTry parsed now sample = Js.Throws e ->
    let st' := handleQrScan st parsed now sample in
    scannedSession st' = Some session
    /\ showFaceCapture st' = showFaceCapture st
    /\ retryAttempted st' = false
    /\ forall (user : Student) (timetable : list TimetableEntry)
              (p : AppContext.Provider) (r : VerificationResult)
              (now' : Js.Date) (today : string) (addDoc : Js.Answer string),
         retryBand r ->
         rejectedWith Js.ConfidenceTooLow tooLowMessage
           (fst (verifyTry user timetable (retryAttempted st) p
                           (Js.Resolves r) now' today addDoc))
         /\ retryOffered
              (fst (verifyTry user timetable (retryAttempted st') p
                              (Js.Resolves r) now' today addDoc))
         /\ retryAttempted
              (fst (handleVerification st' user timetable p (Js.Resolves r)
                                       now' today addDoc)) = true
         /\ showFaceCapture
              (fst (handleVerification st' user timetable p (Js.Resolves r)
                                       now' today addDoc)) = true.
Proof.
  intros st session parsed now sample e Hsession Hspent Hscan st'.
  assert (Hst' : st' = {| isLoading := false;
                          status := "Error: " ++ Js.message e;
                          showFaceCapture := showFaceCapture st;
                          showScanner := false;
                          scannedSession := Some session;
                          retryAttempted := false;
                          showApiKeyInput := showApiKeyInput st |}).
  { unfold st', handleQrScan. rewrite Hscan, Hsession. reflexivity. }
  clearbody st'. subst st'.
  cbn [scannedSession showFaceCapture retryAttempted].
  split; [reflexivity|]. split; [reflexivity|]. split; [reflexivity|].
  intros user timetable p r now' today addDoc (Hmatch & Hmid & Hlow).
  rewrite Hspent.
  rewrite (low_confidence_branch user timetable true p r now' today addDoc
             Hmatch Hlow (or_intror eq_refl)).
  unfold handleVerification. cbn [scannedSession retryAttempted].
  rewrite (retry_branch user timetable p r now' today addDoc
             Hmatch Hlow Hmid).
  cbn [fst retryAttempted showFaceCapture].
  split; [eexists; reflexivity|]. split; [eexists; reflexivity|].
  split; reflexivity.
Qed.

End Attempts.

Lemma failed_scan_gives_the_retry_back_witness :
  StudentPortal.scannedSession retried = Some (mkSession campus 1000)
  /\ StudentPortal.retryAttempted retried = true
  /\ @StudentPortal.scanTry gridService
       (Js.Fails "SyntaxError" "Unexpected token") 2000 (Js.Resolves campus)
     = Js.Throws (Js.mkError Js.Collaborator "SyntaxError" "Unexpected token")
  /\ retryBand fair
  /\ StudentPortal.retryAttempted
       (@StudentPortal.handleQrScan gridService retried
          (Js.Fails "SyntaxError" "Unexpected token") 2000
          (Js.Resolves campus))
     = false.
Proof.
  assert (Hband : retryBand fair).
  { split; [reflexivity|]. split; [vm_compute; discriminate | reflexivity]. }
  split; [reflexivity|]. split; [reflexivity|]. split; [reflexivity|].
  split; [exact Hband|].
  exact (proj1 (proj2 (proj2
           (@failed_scan_gives_the_retry_back gridService retried
              (mkSession campus 1000)
              (Js.Fails "SyntaxError" "Unexpected token") 2000
              (Js.Resolves campus)
              (Js.mkError Js.Collaborator "SyntaxError" "Unexpected token")
              eq_refl eq_refl eq_refl)))).
Defined.

(** ** The subjects of a faculty sign-up *)

Section SubjectChoice.

Import Auth.

Lemma chosen_spec subject prev :
  existsb (String.eqb subject) prev = true <-> In subject prev.
Proof.
  rewrite existsb_exists. split.
  - intros (s & Hin & Heq). apply String.eqb_eq in Heq. subst s. exact Hin.
  - intro Hin. exists subject. split; [exact Hin | apply String.eqb_refl].
Qed.

(** X22: [handleSubjectChange] toggles one subject and leaves the others
    alone: the subject is chosen afterwards exactly when it was not before,
    every other subject is chosen exactly when it was, and a choice without
    repetitions stays without. *)
Theorem subject_choice_toggles :
  forall (subject : string) (prev : list string),
    let next := handleSubjectChange subject prev in
    (In subject next <-> ~ In subject prev)
    /\ (forall other, other <> subject -> (In other next <-> In other prev))
    /\ (NoDup prev -> NoDup next).
Proof.
  intros subject prev next. unfold next, handleSubjectChange.
  destruct (existsb (String.eqb subject) prev) eqn:Hchosen.
  - apply chosen_spec in Hchosen. split; [|split].
    + rewrite filter_In, String.eqb_refl. cbn [negb]. split.
      * intros [_ F]. discriminate F.
      * intro Hout. contradiction.
    + intros other Hother. rewrite filter_In, negb_true_iff, String.eqb_neq.
      tauto.
    + apply NoDup_filter.
  - assert (Hout : ~ In subject prev).
    { intro Hin. apply chosen_spec in Hin. rewrite Hin in Hchosen.
      discriminate. }
    split; [|split].
    + rewrite in_app_iff. cbn [In]. tauto.
    + intros other Hother. rewrite in_app_iff. cbn [In].
      split; [intros [H | [E | []]]; [exact H | congruence] | tauto].
    + intro Hnodup. apply NoDup_app; [exact Hnodup | | ].
      * repeat constructor. intros [].
      * intros s Hs [E | []]. subst s. contradiction.
Qed.

End SubjectChoice.

Lemma subject_choice_toggles_witness :
  NoDup ["Math"; "Physics"]
  /\ NoDup (Auth.handleSubjectChange "Math" ["Math"; "Physics"]).
Proof.
  assert (Hnodup : NoDup ["Math"; "Physics"]).
  { constructor; [intros [E | []]; discriminate E|].
    constructor; [intros []|constructor]. }
  split; [exact Hnodup|].
  exact (proj2 (proj2 (subject_choice_toggles "Math" ["Math"; "Physics"]))
               Hnodup).
Defined.
